(* ===== verification/_CoqProject ===== *)
-Q . S2P
Prelude.v
PyStr.v
SqlTypes.v
Schemas.v
Models.v
Session.v
Proc.v
Handlers.v
Api.v
Store.v
Concurrency.v
Races.v
