(* ===== verification/Prelude.v ===== *)
(** * Product Inventory API: a verification development

    The program (four Python files under [src/]) is a FastAPI service
    with create / list / get / partial-update / delete operations over
    one table of products, stored through SQLAlchemy in PostgreSQL and
    validated by pydantic.  Its parts and how they interact:

    - [src/schemas.py]: the payload contracts.  [ProductCreate] checks
      the raw name's length (2..100), then its [field_validator] trims
      it and rejects a blank one; [price > 0]; [stock_quantity >= 0].
      [ProductUpdate] has two optional fields, [None] by default.
    - [src/models.py]: the [products] table: [id] primary key,
      [product_name String(100)] unique, [price Numeric(10,2)],
      [stock_quantity Integer], two check constraints.
    - [src/database.py] and [get_db] in [src/main.py]: one session per
      request, closed in a [finally] block.
    - [src/main.py]: the handlers.  Each runs in its session: queries,
      then at most one [commit] that flushes the pending insert, update
      or delete to the table, then a [refresh] that re-reads the row.

    Files of the development, in dependency order:

    - [Prelude] (this file): the hint database
      [inventory], the shared tactics and the generic lemmas on lists,
      options and integers.
    - [PyStr]: a Python [str] as a list of code points, [str.isspace]
      on code points, [str.strip]; its idempotence and the shape of its
      result.
    - [SqlTypes]: how PostgreSQL stores a value in the table's column
      types: [Numeric(10,2)] (rounding half away from zero, overflow
      beyond 8 integer digits), [Integer] (32 bits), [String(100)],
      the driver's refusal of NUL characters and of strings it cannot
      encode in UTF-8 (lone surrogates), and Python's [==] between a
      [float] and the [Decimal] of a loaded price, by which the ORM
      decides whether an attribute changed.
    - [Schemas]: pydantic validation of [ProductCreate] and
      [ProductUpdate], with the order in which pydantic runs the length
      constraints and the after-validator.
    - [Models]: the [products] table as a finite map from ids to rows,
      the id sequence, the SQL statements the ORM emits and the checks
      the table's constraints make; the table invariant.
    - [Session]: a state-and-exception monad for a request's session,
      the ORM session operations ([query], [add], [delete], [commit],
      [refresh], [close]) and [get_db]; an object records the value
      each assigned attribute had when loaded, and the flush sends an
      [UPDATE] of the attributes whose new value is not [==] to it,
      none when no attribute changed.
    - [Proc]: handlers that can be interrupted between statements: a
      pointwise equivalence on the session monad with its [Proper]
      instances; resumptions [proc] run by [exec]; and compositional
      judgements on session operations, with the hint database
      [session_ok]: [wf_op] (keeps the invariant), [ext_op] (issues
      ids only from the sequence), [rets] (what a step returns),
      [stable_op] (leaves no uncommitted change), [raises]
      (which exceptions) and [commits_le] (how many commits).
    - [Handlers]: the five handlers and [home] of [src/main.py], each a
      computation of the session monad run inside [get_db] ([run]).
    - [Api]: the routes of [app]: a request is validated by pydantic
      (422 without touching the database), then its handler runs in a
      fresh session; an [HTTPException] becomes its status, any other
      exception 500.  [reachable] is the set of tables the service
      reaches from [create_all], step by step.
    - [Store]: the spec's operation table (section 4.3) as a relation
      [astep] on an abstract store, a map from ids to stored products,
      and the refinement of [serve] into it through [abs].
    - [Concurrency]: section 5.  Each handler is a resumption paused at
      its database round trips; threads run them in their own sessions
      against the last committed table (READ COMMITTED), and a
      schedule, any list of thread indices, interleaves them.  The
      class [Paused] is the interface between a handler and this
      runtime: the five handlers are its instances, and the theorems
      about schedules are proved from its promises alone.
    - [Races]: schedules of two requests on one product whose
      [SELECT]s both run before either commits, run step by step.
      Two racing PATCHes can lose an update: the second sends only
      the columns it changes relative to the row it loaded.

    How the state corresponds to the code: a [Models.DB] is the
    committed content of the [products] table with the next value of
    its id sequence; a [Session.Session] is what a SQLAlchemy [Session]
    holds during one request: the database as the transaction sees it,
    the snapshot taken when the transaction began (for [rollback]), the
    identity map (a list of ORM objects, addressed by their position),
    whether it is open, and how many commits it has made.  A handler is a function from such a state
    to its outcome ([inl] for an exception, [inr] for a result) and the
    state afterwards.

    Theorems, by group (claim ids of the manifest in brackets):
    - service invariant [C1]: every reachable table satisfies
      [Models.table_wf]; each statement, handler and request keeps it;
    - refinement [C2, C19]: every answer and every sequence of answers
      on a well-formed table is allowed by the spec's operation table;
    - handlers [C3-C8, C22]: create then get, what create stores,
      the duplicate-name conflict, updates of exactly the given fields,
      404 on absent ids, delete then get, ids never reused;
    - error handling of section 7 [C9, C17, C18, C21]: a failed
      request writes nothing; without concurrency no request fails on
      a uniqueness constraint; each handler commits at most once;
      every status is 200, 400, 404, 422 or 500;
    - HTTP surface [C20, C24, C25, C28]: the listing returns one
      representation per row, invalid payloads and names with a lone
      surrogate get 422, a PATCH with nulls is a no-op;
    - concurrency [C10-C16]: the invariant under every interleaving;
      no id is issued twice under any interleaving, and every answer
      keeps a listed status; the races of [Races]: two creates of one
      name end in 200 and 500 with one row, a PATCH racing a DELETE
      of its row is answered 500, not 404, two racing DELETEs of one
      row are both answered 200, and two racing PATCHes merge column
      by column against the row both loaded, so a PATCH that sets a
      column back to its loaded value loses to the other;
    - validation [C23, C26, C27, C29]: exact characterisation of the
      accepted payloads, and the two consequences of checking the
      length before stripping;
    - column types [C30-C35]: overflow of [Integer] and
      [Numeric(10,2)] surfacing as 500, rounding within half a cent,
      exactness on two decimals, a positive price stored as 0.00.

    Lemmas that are not claims also show that [strip] computes what
    [str.strip()] is documented to return ([PyStr.strip_spec]) and
    that requests scheduled one after the other are served as
    [Api.serve_all] serves them ([Concurrency.serial_is_serve_all]).

    Bounds: integers are unbounded [Z] in the model, and the width of
    each column is written out where PostgreSQL checks it
    ([int32_min..int32_max] for [Integer], magnitude below [10^10]
    hundredths for [Numeric(10,2)], 100 code points for
    [String(100)]); a Python [int] and [float] are unbounded or exact
    decimals, as the driver sends them.  Python's [==] between such a
    float and a loaded [Decimal] is decided on the decimal: it is exact
    for the prices a [Numeric(10,2)] column holds, which are below
    [2^53] and print as themselves.

    Concurrency model: a step of a thread is its computation up to the
    next database round trip; the [INSERT], [UPDATE] or [DELETE] of a
    [commit] and the [COMMIT] itself are one step.  Under READ
    COMMITTED no other transaction reads the row before the commit, and
    a concurrent [INSERT] of the same name waits on the unique index
    until then, so the outcomes are those of the two statements taken
    together.  Every handler pauses at most three times, so four steps
    of a thread run it to its end.

    Not modelled: the HTTP framework's routing of paths and its JSON
    decoding into Python values (a payload arrives as typed fields with
    their presence), the binary64 rounding of a JSON number into a
    Python float (a price is the decimal that [repr] prints, which is
    what the driver sends; the non-finite floats that Python's JSON
    decoder accepts, [Infinity] and [NaN], are outside this model), the text of a response (a [json] value is
    the object FastAPI renders, its [price] the stored [Decimal];
    printing it as a float is pydantic's and the JSON encoder's work,
    not code of the repository), the logging of the engine, connection
    pooling, and the server's network I/O and worker scheduling, which
    only choose the schedule of [Concurrency].  No fuel is used: every
    definition is structural, [exec] and [pmap] included, which recurse
    on the resumption a step returns. *)

From stdpp Require Import base gmap list.
From Stdlib Require Import ZArith Lia.

Create HintDb inventory discriminated.
Create Rewrite HintDb inventory_rw.

(** ** Generic lemmas on lists *)

Section Lists.
  Context {A : Type}.
  Implicit Types (l : list A) (P : A -> Prop).

Lemma Forall_app_iff P l1 l2 :
    Forall P (l1 ++ l2) <-> Forall P l1 /\ Forall P l2.
  Proof. apply Forall_app. Qed.

Lemma Forall_rev_iff P l : Forall P (rev l) <-> Forall P l.
  Proof.
    split; intros H; [rewrite <- (rev_involutive l) |]; by apply List.Forall_rev.
  Qed.
End Lists.

(** ** Generic lemmas on integers *)

Open Scope Z_scope.

(** Floor division by a positive [d] brackets its argument. *)
Lemma Z_div_bracket a d :
  0 < d -> d * (a / d) <= a < d * (a / d) + d.
Proof.
  intros Hd. pose proof (Z.div_mod a d ltac:(lia)).
  pose proof (Z.mod_pos_bound a d Hd). lia.
Qed.

Lemma Z_le_div_iff a b d : 0 < d -> (a <= b / d <-> d * a <= b).
Proof.
  intros Hd. pose proof (Z_div_bracket b d Hd). split; intros Hab; [nia |].
  assert (a < b / d + 1) by nia. lia.
Qed.

Lemma Z_pow10_pos n : 0 <= n -> 0 < 10 ^ n.
Proof. intros. apply Z.pow_pos_nonneg; lia. Qed.

#[export] Hint Resolve Z_pow10_pos : inventory.

Close Scope Z_scope.

(** ** Tactics *)

(** Split every [match] and [if] of the goal and of the hypotheses,
    then clean up the equalities between constructors. *)
Ltac split_cases :=
  repeat (case_match; simplify_eq/=); try done.

(** Prove a decidable proposition about concrete values by running its
    decision procedure. *)
Ltac decide_true := apply (bool_decide_unpack _); vm_compute; reflexivity.
