(* ===== verification/PyStr.v ===== *)
(** * Python strings: [str.isspace] and [str.strip]

    A Python [str] is a sequence of code points; [len] counts them.
    [is_space] is CPython's [str.isspace] on one code point (the
    characters of Unicode class White_Space together with the
    separators U+001C..U+001F that CPython also counts), and [strip] is
    [str.strip()] without argument, which [validate_product_name]
    ([src/schemas.py]) and [create_product] ([src/main.py]) call. *)

From stdpp Require Import base list.
From Stdlib Require Import ZArith Lia.
From S2P Require Import Prelude.

Abbreviation pystr := (list Z).

Open Scope Z_scope.

(** [str.isspace] of a one-character string. *)
Definition is_space (c : Z) : bool :=
  ((9 <=? c) && (c <=? 13)) || ((28 <=? c) && (c <=? 32))
  || (c =? 133) || (c =? 160) || (c =? 5760)
  || ((8192 <=? c) && (c <=? 8202))
  || (c =? 8232) || (c =? 8233) || (c =? 8239) || (c =? 8287)
  || (c =? 12288).

Close Scope Z_scope.

Definition space (c : Z) : Prop := is_space c = true.

#[export] Instance space_dec c : Decision (space c).
Proof. unfold space. apply _. Defined.

(** A lone surrogate, U+D800..U+DFFF.  A Python [str] can hold one
    (the JSON escape ["\ud800"] decodes to it), but it has no UTF-8
    encoding: [s.encode("utf-8")] raises [UnicodeEncodeError], and
    Rust's [str], which pydantic-core validates, cannot hold it. *)
Definition is_surrogate (c : Z) : bool := ((55296 <=? c) && (c <=? 57343))%Z.

Definition encodable (s : pystr) : Prop := Forall (fun c => is_surrogate c = false) s.

#[export] Instance encodable_dec s : Decision (encodable s).
Proof. unfold encodable. apply _. Defined.

(** Leading whitespace removed, as the first loop of CPython's
    [do_strip]. *)
Fixpoint lstrip (s : pystr) : pystr :=
  match s with
  | [] => []
  | c :: t => if is_space c then lstrip t else s
  end.

(** Trailing whitespace removed, as the second loop of [do_strip]. *)
Fixpoint rstrip (s : pystr) : pystr :=
  match s with
  | [] => []
  | c :: t =>
      match rstrip t with
      | [] => if is_space c then [] else [c]
      | r => c :: r
      end
  end.

(** [str.strip()]. *)
Definition strip (s : pystr) : pystr := rstrip (lstrip s).

(** [not value.strip()] in [validate_product_name]: the stripped
    string is empty. *)
Definition is_blank (s : pystr) : bool :=
  match strip s with [] => true | _ => false end.

(** What the Python documentation says of [str.strip()]: "a copy of
    the string with the leading and trailing whitespace removed".  [m]
    is [s] less a whitespace prefix [p] and suffix [q], and [m] is
    empty or neither starts nor ends with whitespace. *)
Definition trimmed (m : pystr) : Prop :=
  m = [] \/ exists c t r d, m = c :: t /\ m = r ++ [d] /\ ~ space c /\ ~ space d.

Definition strip_of (s m : pystr) : Prop :=
  exists p q, s = p ++ m ++ q /\ Forall space p /\ Forall space q /\ trimmed m.

(** ** Lemmas *)

Lemma lstrip_shape s :
  exists p, s = p ++ lstrip s /\ Forall space p.
Proof.
  induction s as [|c t [p [Hp Hsp]]]; [by exists [] |]. simpl.
  destruct (is_space c) eqn:Hc.
  - exists (c :: p). simpl. rewrite <- Hp. split; [done | by constructor].
  - by exists [].
Qed.

Lemma lstrip_head s :
  lstrip s = [] \/ exists c t, lstrip s = c :: t /\ ~ space c.
Proof.
  induction s as [|c t IH]; [by left |]. simpl.
  destruct (is_space c) eqn:Hc; [done |].
  right. exists c, t. unfold space. by rewrite Hc.
Qed.

Lemma lstrip_nonspace c t : ~ space c -> lstrip (c :: t) = c :: t.
Proof. unfold space. simpl. by destruct (is_space c). Qed.

Lemma lstrip_spaces p s : Forall space p -> lstrip (p ++ s) = lstrip s.
Proof. induction 1 as [|c p Hc _ IH]; [done |]. simpl. by rewrite Hc. Qed.

Lemma rstrip_nonspace_last r c :
  ~ space c -> rstrip (r ++ [c]) = r ++ [c].
Proof.
  intros Hc. induction r as [|x r IH]; simpl.
  - unfold space in Hc. by destruct (is_space c).
  - rewrite IH. by destruct r.
Qed.

Lemma rstrip_spaces s q : Forall space q -> rstrip (s ++ q) = rstrip s.
Proof.
  intros Hq. induction s as [|c s IH]; simpl.
  - induction Hq as [|x q Hx _ IH]; [done |]. simpl. by rewrite IH, Hx.
  - by rewrite IH.
Qed.

Lemma rstrip_shape s :
  exists q, s = rstrip s ++ q /\ Forall space q.
Proof.
  induction s as [|c t [q [Hq Hsq]]]; [by exists [] |]. simpl.
  destruct (rstrip t) as [|x r] eqn:Ht; simpl in Hq.
  - destruct (is_space c) eqn:Hc.
    + exists (c :: q). split; [simpl; congruence | by constructor].
    + exists q. split; [simpl; congruence | done].
  - exists q. simpl. split; [congruence | done].
Qed.

Lemma rstrip_last s :
  rstrip s = [] \/ exists r c, rstrip s = r ++ [c] /\ ~ space c.
Proof.
  induction s as [|c t IH]; [by left |]. simpl.
  destruct IH as [-> | (r & d & Hr & Hd)].
  - destruct (is_space c) eqn:Hc; [by left |].
    right. exists [], c. unfold space. by rewrite Hc.
  - right. rewrite Hr. exists (c :: r), d. by destruct r.
Qed.

Lemma rstrip_idem s : rstrip (rstrip s) = rstrip s.
Proof.
  destruct (rstrip_last s) as [-> | (r & c & -> & Hc)]; [done |].
  by apply rstrip_nonspace_last.
Qed.

Lemma rstrip_cons_nonspace c t : ~ space c -> rstrip (c :: t) = c :: rstrip t.
Proof. unfold space. intros Hc. simpl. destruct (rstrip t); [by destruct (is_space c) | done]. Qed.

#[export] Hint Rewrite rstrip_idem : inventory_rw.

(** ** Properties of [strip] *)

(** [strip] removes a run of whitespace on each side and nothing else. *)
Lemma strip_shape s :
  exists p q, s = p ++ strip s ++ q /\ Forall space p /\ Forall space q.
Proof.
  destruct (lstrip_shape s) as (p & Hp & Hsp).
  destruct (rstrip_shape (lstrip s)) as (q & Hq & Hsq).
  exists p, q. unfold strip. rewrite <- Hq. done.
Qed.

Lemma strip_length_le s : length (strip s) <= length s.
Proof.
  destruct (strip_shape s) as (p & q & Hs & _ & _).
  rewrite Hs at 2. rewrite !length_app. lia.
Qed.

(** The result of [strip] neither starts nor ends with whitespace. *)
Lemma strip_ends s :
  strip s = [] \/
  (exists c t, strip s = c :: t /\ ~ space c) /\
  (exists r d, strip s = r ++ [d] /\ ~ space d).
Proof.
  unfold strip.
  destruct (lstrip_head s) as [-> | (c & t & Hl & Hc)]; [by left |].
  rewrite Hl, (rstrip_cons_nonspace c t Hc).
  destruct (rstrip_last (c :: t)) as [Hr | (r & d & Hr & Hd)].
  - rewrite rstrip_cons_nonspace in Hr; done.
  - right. rewrite rstrip_cons_nonspace in Hr by done.
    split; [by exists c, (rstrip t) | exists r, d]. by rewrite Hr.
Qed.

Lemma lstrip_app s q :
  lstrip (s ++ q) = match lstrip s with [] => lstrip q | r => r ++ q end.
Proof.
  induction s as [|c t IH]; [done |]. simpl.
  by destruct (is_space c).
Qed.

Lemma lstrip_all_spaces q : Forall space q -> lstrip q = [].
Proof. intros Hq. rewrite <- (app_nil_r q). by rewrite lstrip_spaces. Qed.

Lemma strip_spaces p s q :
  Forall space p -> Forall space q -> strip (p ++ s ++ q) = strip s.
Proof.
  intros Hp Hq. unfold strip. rewrite lstrip_spaces, lstrip_app by done.
  destruct (lstrip s) as [|c t]; [by rewrite lstrip_all_spaces |].
  by rewrite rstrip_spaces.
Qed.

(** [strip] of a string without surrounding whitespace is itself. *)
Lemma strip_fix c t r d :
  ~ space c -> c :: t = r ++ [d] -> ~ space d -> strip (c :: t) = c :: t.
Proof.
  intros Hc Heq Hd. unfold strip. rewrite lstrip_nonspace by done.
  rewrite Heq. by apply rstrip_nonspace_last.
Qed.

(** [strip] is idempotent: the name [create_product] stores,
    [product.product_name.strip()] on an already stripped name, is the
    validated name itself. *)
Lemma strip_idem s : strip (strip s) = strip s.
Proof.
  destruct (strip_ends s) as [-> | [(c & t & Hct & Hc) (r & d & Hrd & Hd)]];
    [done |].
  rewrite Hct in Hrd |- *. by eapply strip_fix.
Qed.

(** [strip] keeps a string encodable: it only removes code points. *)
Lemma strip_encodable s : encodable s -> encodable (strip s).
Proof.
  destruct (strip_shape s) as (p & q & Hs & _ & _). intros He.
  rewrite Hs in He. unfold encodable in *. by apply Forall_app in He as [_ [? _]%Forall_app].
Qed.

(** The two loops of CPython's [do_strip] compute what
    [str.strip()] is documented to return: [strip s] is the one string
    [m] that is [s] less a whitespace prefix and suffix and neither
    starts nor ends with whitespace. *)
Lemma strip_spec s m : strip s = m <-> strip_of s m.
Proof.
  split.
  - intros <-. destruct (strip_shape s) as (p & q & Hs & Hp & Hq).
    exists p, q. split_and!; try done.
    destruct (strip_ends s) as [-> | [(c & t & Hct & Hc) (r & d & Hrd & Hd)]]; [by left |].
    right. by exists c, t, r, d.
  - intros (p & q & -> & Hp & Hq & Hm). rewrite strip_spaces by done.
    destruct Hm as [-> | (c & t & r & d & -> & Hrd & Hc & Hd)]; [done |].
    by eapply strip_fix.
Qed.

(** A string is blank exactly when every code point is whitespace. *)
Lemma is_blank_spec s : is_blank s = true <-> Forall space s.
Proof.
  unfold is_blank. split.
  - destruct (strip s) eqn:Hs; [| done]. intros _.
    destruct (strip_shape s) as (p & q & Heq & Hp & Hq).
    rewrite Hs in Heq. rewrite Heq. apply Forall_app; split; [done |].
    by apply Forall_app.
  - intros Hs. rewrite <- (app_nil_r s), <- (app_nil_l []).
    by rewrite strip_spaces.
Qed.
