(* ===== verification/SqlTypes.v ===== *)
(** * Column types of the [products] table and the driver's adaptation

    [src/models.py] declares [price = Column(Numeric(10, 2))],
    [stock_quantity = Column(Integer)] and
    [product_name = Column(String(100))].  The handlers hand Python
    values to SQLAlchemy, which hands them to psycopg2, which writes
    them into the SQL text as literals; PostgreSQL then coerces each
    literal to its column type.  This file models that path:

    - a Python [float] is the decimal that [repr] prints (psycopg2's
      float adapter), [float_repr] below;
    - [to_cents] is PostgreSQL's rounding of a numeric to scale 2, half
      away from zero; [coerce_numeric_10_2] adds the precision check
      (at most 8 digits before the point);
    - [coerce_integer] is the assignment of an integer literal to a
      32-bit [integer] column;
    - [coerce_varchar_100] is the assignment to [character varying(100)];
    - [adapt_str] is psycopg2's refusal of a string it cannot encode
      in UTF-8 (a lone surrogate) or that holds a NUL character,
      raised before the statement is sent;
    - [db_error] is the set of driver and ORM errors the handlers do not
      catch. *)

From stdpp Require Import base list.
From Stdlib Require Import ZArith Lia.
From S2P Require Import Prelude PyStr.

Open Scope Z_scope.

(** A Python float, as the decimal [mant * 10 ^ exp] that [repr]
    prints and the driver sends. *)
Record float_repr := FloatRepr { fl_mant : Z; fl_exp : Z }.

#[export] Instance float_repr_eq_dec : EqDecision float_repr.
Proof. solve_decision. Defined.

(** The constraints the ORM's table declares, by their names in the
    database. *)
Inductive constraint :=
| products_pkey
| products_product_name_key
| stock_non_negative
| price_non_negative.

#[export] Instance constraint_eq_dec : EqDecision constraint.
Proof. solve_decision. Defined.

(** Errors raised by the driver, the database or the ORM, which no
    handler catches. *)
Inductive db_error :=
| NumericFieldOverflow                 (** SQLSTATE 22003 on numeric *)
| IntegerOutOfRange                    (** SQLSTATE 22003 on integer *)
| StringDataRightTruncation            (** SQLSTATE 22001 *)
| NulCharacter                         (** psycopg2's ValueError *)
| UnicodeEncodeError                   (** psycopg2's encoding to UTF-8 *)
| CheckViolation (c : constraint)      (** SQLSTATE 23514 *)
| UniqueViolation (c : constraint)     (** SQLSTATE 23505 *)
| StaleDataError                       (** UPDATE matched no row *)
| ObjectDeletedError.                  (** refresh of a vanished row *)

#[export] Instance db_error_eq_dec : EqDecision db_error.
Proof. solve_decision. Defined.

(** [n / d] rounded half away from zero, for [d > 0]: PostgreSQL's
    [round_var] on a numeric. *)
Definition round_half_away (n d : Z) : Z :=
  if 0 <=? n then (2 * n + d) / (2 * d) else - ((2 * - n + d) / (2 * d)).

(** The value of a float in hundredths, rounded to scale 2. *)
Definition to_cents (x : float_repr) : Z :=
  let k := fl_exp x + 2 in
  if 0 <=? k then fl_mant x * 10 ^ k
  else round_half_away (fl_mant x) (10 ^ (- k)).

(** [Numeric(10, 2)]: precision 10 and scale 2 leave 8 digits before
    the point, so a rounded value of magnitude [10^8] or more is
    refused with "numeric field overflow". *)
Definition numeric_limit : Z := 10 ^ 10.

Definition coerce_numeric_10_2 (x : float_repr) : db_error + Z :=
  let c := to_cents x in
  if Z.abs c <? numeric_limit then inr c else inl NumericFieldOverflow.

(** The value an ORM attribute [price] holds: the [float] a handler
    assigned, or the [Decimal] (in hundredths) read from the column. *)
Inductive price_val :=
| PyFloat (x : float_repr)
| PyDecimal (c : Z).

#[export] Instance price_val_eq_dec : EqDecision price_val.
Proof. solve_decision. Defined.

Definition price_cents (v : price_val) : Z :=
  match v with PyFloat x => to_cents x | PyDecimal c => c end.

(** The coercion of a [price] literal: a [Decimal] already has scale 2
    and only meets the precision check. *)
Definition coerce_price (v : price_val) : db_error + Z :=
  match v with
  | PyFloat x => coerce_numeric_10_2 x
  | PyDecimal c => if Z.abs c <? numeric_limit then inr c else inl NumericFieldOverflow
  end.

(** [Integer] is PostgreSQL's 32-bit [integer]. *)
Definition int32_min : Z := - 2 ^ 31.
Definition int32_max : Z := 2 ^ 31 - 1.

Definition coerce_integer (n : Z) : db_error + Z :=
  if (int32_min <=? n) && (n <=? int32_max) then inr n
  else inl IntegerOutOfRange.

Close Scope Z_scope.

(** [String(100)] is [character varying(100)]: an assignment of a
    longer string is refused, not truncated. *)
Definition coerce_varchar_100 (s : pystr) : db_error + pystr :=
  if decide (length s <= 100) then inr s else inl StringDataRightTruncation.

(** psycopg2 encodes a string in the connection's encoding, UTF-8,
    which fails on a lone surrogate; it then refuses a string
    containing U+0000.  Both happen before the statement is sent. *)
Definition adapt_str (s : pystr) : db_error + pystr :=
  if decide (encodable s) then
    if decide (0%Z ∈ s) then inl NulCharacter else inr s
  else inl UnicodeEncodeError.

Open Scope Z_scope.

(** [10 ^ max 0 (-(exp + 2))]: the denominator of a float's value in
    hundredths, [x * 100 = fl_scaled x / cents_scale x]. *)
Definition cents_scale (x : float_repr) : Z := 10 ^ Z.max 0 (- (fl_exp x + 2)).
Definition fl_scaled (x : float_repr) : Z := fl_mant x * 10 ^ Z.max 0 (fl_exp x + 2).

(** Python's [==] on two values of [price].  The ORM compares an
    assigned attribute with the one it loaded by the column type's
    [compare_values], which for [Numeric] is [x == y].
    [Decimal.__eq__] compares a float by its exact binary value, and
    the [Decimal] of [c] hundredths is a binary number only when [25]
    divides [c].  So a float equals it exactly when [25] divides [c]
    and the float's [repr] denotes [c / 100].  For a loaded price
    ([|c| < 10^10]) this is exact: such a [c / 100] is a double below
    [2^53], and a double of at most two decimals prints as itself.
    Two floats are equal when their [repr]s denote one number. *)
Definition float_eq_decimal (x : float_repr) (c : Z) : bool :=
  (c mod 25 =? 0) && (fl_scaled x =? cents_scale x * c).

Definition float_eqb (x y : float_repr) : bool :=
  let e := Z.min (fl_exp x) (fl_exp y) in
  fl_mant x * 10 ^ (fl_exp x - e) =? fl_mant y * 10 ^ (fl_exp y - e).

Definition py_price_eqb (v w : price_val) : bool :=
  match v, w with
  | PyDecimal c, PyDecimal d => c =? d
  | PyFloat x, PyDecimal c | PyDecimal c, PyFloat x => float_eq_decimal x c
  | PyFloat x, PyFloat y => float_eqb x y
  end.

Close Scope Z_scope.

Open Scope Z_scope.

(** ** Rounding to scale 2 *)

Lemma round_half_away_bound n d :
  0 < d -> 2 * Z.abs (n - d * round_half_away n d) <= d.
Proof.
  intros Hd. unfold round_half_away. destruct (Z.leb_spec 0 n).
  - pose proof (Z_div_bracket (2 * n + d) (2 * d) ltac:(lia)). nia.
  - pose proof (Z_div_bracket (2 * - n + d) (2 * d) ltac:(lia)). nia.
Qed.

Lemma round_half_away_nonneg n d : 0 < d -> 0 <= n -> 0 <= round_half_away n d.
Proof.
  intros Hd Hn. unfold round_half_away. rewrite (proj2 (Z.leb_le 0 n) Hn).
  apply Z.div_pos; lia.
Qed.

Lemma round_half_away_exact c d : 0 < d -> round_half_away (d * c) d = c.
Proof.
  intros Hd. unfold round_half_away. destruct (Z.leb_spec 0 (d * c)).
  - symmetry. apply (Z.div_unique_pos _ _ _ d); lia.
  - assert (c < 0) by nia.
    rewrite <- (Z.div_unique_pos (2 * - (d * c) + d) (2 * d) (- c) d); lia.
Qed.

Lemma round_half_away_ge_iff n d L :
  0 < d -> 0 <= n -> (L <= round_half_away n d <-> (2 * L - 1) * d <= 2 * n).
Proof.
  intros Hd Hn. unfold round_half_away. rewrite (proj2 (Z.leb_le 0 n) Hn).
  rewrite Z_le_div_iff by lia. lia.
Qed.

Lemma cents_scale_pos x : 0 < cents_scale x.
Proof. apply Z_pow10_pos. lia. Qed.

#[export] Hint Resolve cents_scale_pos : inventory.

(** The two cases of [to_cents]: an exact product, or a rounding of
    [fl_scaled x / cents_scale x]. *)
Lemma to_cents_cases x :
  (cents_scale x = 1 /\ to_cents x = fl_scaled x) \/
  (fl_scaled x = fl_mant x /\ to_cents x = round_half_away (fl_mant x) (cents_scale x)).
Proof.
  unfold to_cents, cents_scale, fl_scaled. destruct (Z.leb_spec 0 (fl_exp x + 2)).
  - left. rewrite Z.max_l, Z.max_r by lia. done.
  - right. rewrite Z.max_l, Z.max_r by lia. rewrite Z.mul_1_r. done.
Qed.

Lemma to_cents_nonneg_lemma x : 0 <= fl_mant x -> 0 <= to_cents x.
Proof.
  intros Hm. pose proof (cents_scale_pos x).
  destruct (to_cents_cases x) as [[Hs ->] | [Hs ->]].
  - unfold fl_scaled. pose proof (Z_pow10_pos (Z.max 0 (fl_exp x + 2))). nia.
  - by apply round_half_away_nonneg.
Qed.

Lemma coerce_numeric_inr x c :
  coerce_numeric_10_2 x = inr c <-> c = to_cents x /\ Z.abs c < numeric_limit.
Proof.
  unfold coerce_numeric_10_2. destruct (Z.ltb_spec (Z.abs (to_cents x)) numeric_limit);
    split; intros; simplify_eq; naive_solver lia.
Qed.

Lemma coerce_price_inr v c :
  coerce_price v = inr c <-> c = price_cents v /\ Z.abs c < numeric_limit.
Proof.
  destruct v as [x | c']; [apply coerce_numeric_inr |]. simpl.
  destruct (Z.ltb_spec (Z.abs c') numeric_limit); split; intros; simplify_eq; naive_solver lia.
Qed.

Lemma coerce_integer_inr n m :
  coerce_integer n = inr m <-> m = n /\ int32_min <= n <= int32_max.
Proof.
  unfold coerce_integer.
  destruct (Z.leb_spec int32_min n), (Z.leb_spec n int32_max); simpl;
    split; intros; simplify_eq; naive_solver lia.
Qed.

Close Scope Z_scope.

Lemma coerce_varchar_100_inr s t :
  coerce_varchar_100 s = inr t <-> t = s /\ length s <= 100.
Proof. unfold coerce_varchar_100. case_decide; naive_solver. Qed.

Lemma adapt_str_inr s t : adapt_str s = inr t <-> t = s /\ 0%Z ∉ s /\ encodable s.
Proof. unfold adapt_str. repeat case_decide; naive_solver. Qed.

Open Scope Z_scope.

(** ** What [Numeric(10, 2)] stores *)

(** C33: the price PostgreSQL stores is within half a cent of the
    float the handler passes: [|100 * x - to_cents x| <= 1/2], written
    over the integers [fl_scaled x / cents_scale x = 100 * x]. *)
Theorem to_cents_half_cent x :
  2 * Z.abs (fl_scaled x - cents_scale x * to_cents x) <= cents_scale x.
Proof.
  destruct (to_cents_cases x) as [[-> ->] | [-> ->]]; [lia |].
  apply round_half_away_bound. auto with inventory.
Qed.

(** C34: a price with at most two decimals is stored exactly: when
    [100 * x] is the integer [c], the column holds [c] hundredths. *)
Theorem to_cents_exact x c :
  fl_scaled x = cents_scale x * c -> to_cents x = c.
Proof.
  intros H. destruct (to_cents_cases x) as [[Hs ->] | [Hs ->]].
  - rewrite H, Hs. lia.
  - rewrite <- Hs, H. apply round_half_away_exact. auto with inventory.
Qed.

(** A price the ORM finds equal to a loaded [Decimal] would be stored
    as that [Decimal]: skipping its [UPDATE] changes no row. *)
Lemma py_price_eqb_cents v c :
  py_price_eqb v (PyDecimal c) = true -> price_cents v = c.
Proof.
  destruct v as [x | d]; simpl; [| by intros ->%Z.eqb_eq].
  unfold float_eq_decimal. intros [_ H%Z.eqb_eq]%andb_prop.
  destruct (to_cents_cases x) as [[Hs ->] | [Hs ->]].
  - rewrite H, Hs. lia.
  - rewrite <- Hs, H. apply round_half_away_exact. auto with inventory.
Qed.

(** C32: a non-negative price overflows [Numeric(10, 2)] exactly when
    it is at least 99999999.995, i.e. when it rounds to [10^8] or more;
    the handlers' validation ([price > 0]) sets no upper bound. *)
Theorem coerce_numeric_overflow_iff x :
  0 <= fl_mant x ->
  (coerce_numeric_10_2 x = inl NumericFieldOverflow <->
   (2 * numeric_limit - 1) * cents_scale x <= 2 * fl_scaled x).
Proof.
  intros Hm. pose proof (to_cents_nonneg_lemma x Hm).
  transitivity (numeric_limit <= to_cents x).
  { unfold coerce_numeric_10_2. rewrite Z.abs_eq by lia.
    destruct (Z.ltb_spec (to_cents x) numeric_limit); split; done || lia. }
  destruct (to_cents_cases x) as [[Hs ->] | [Hs ->]].
  - rewrite Hs. lia.
  - rewrite Hs. apply round_half_away_ge_iff; auto with inventory.
Qed.

(** C35: a positive price below half a cent is stored as [0]: the
    validation's [price > 0] does not make the stored price positive. *)
Theorem to_cents_below_half_cent x :
  0 < fl_mant x -> 2 * fl_scaled x < cents_scale x -> to_cents x = 0.
Proof.
  intros Hm Hsmall. destruct (to_cents_cases x) as [[Hs _] | [Hs ->]].
  - unfold fl_scaled in Hsmall.
    pose proof (Z_pow10_pos (Z.max 0 (fl_exp x + 2))). nia.
  - rewrite Hs in Hsmall. unfold round_half_away.
    rewrite (proj2 (Z.leb_le 0 _)) by lia. apply Z.div_small.
    pose proof (cents_scale_pos x). lia.
Qed.

Close Scope Z_scope.

(** ** Witnesses *)

Lemma to_cents_exact_witness :
  fl_scaled (FloatRepr 999 (-2)) = (cents_scale (FloatRepr 999 (-2)) * 999)%Z /\
  to_cents (FloatRepr 999 (-2)) = 999%Z.
Proof.
  split; [vm_compute; reflexivity |].
  apply to_cents_exact. vm_compute. reflexivity.
Defined.

Lemma coerce_numeric_overflow_iff_witness :
  (0 <= fl_mant (FloatRepr 99999999995 (-3)))%Z /\
  coerce_numeric_10_2 (FloatRepr 99999999995 (-3)) = inl NumericFieldOverflow.
Proof.
  split; [simpl; lia |].
  apply (proj2 (coerce_numeric_overflow_iff (FloatRepr 99999999995 (-3)) ltac:(simpl; lia))).
  vm_compute. discriminate.
Defined.

Lemma to_cents_below_half_cent_witness :
  (0 < fl_mant (FloatRepr 4 (-3)))%Z /\ to_cents (FloatRepr 4 (-3)) = 0%Z.
Proof.
  split; [simpl; lia |].
  apply to_cents_below_half_cent; vm_compute; reflexivity.
Defined.
