(* ===== verification/Schemas.v ===== *)
(** * Payload contracts: [src/schemas.py]

    pydantic validates a request body into [ProductCreate] or
    [ProductUpdate] before a handler runs.  A body field is [Omitted],
    an explicit JSON [Null], or [Given] a value already of the field's
    Python type (the JSON decoding itself is the framework's).

    For [ProductCreate.product_name], pydantic first applies the
    [Field] constraints [min_length=2, max_length=100] to the string
    as sent, and only then runs the after-validator
    [validate_product_name], which rejects a blank string and returns
    [value.strip()].  Errors of the three fields are collected, in
    declaration order, into one list. *)

From stdpp Require Import base list.
From Stdlib Require Import ZArith Lia.
From S2P Require Import Prelude PyStr SqlTypes.

(** Presence of a field in the JSON body. *)
Inductive field (A : Type) :=
| Omitted
| Null
| Given (v : A).
Arguments Omitted {A}.
Arguments Null {A}.
Arguments Given {A} v.

(** pydantic's error locations and error types. *)
Inductive loc := loc_product_name | loc_price | loc_stock_quantity.

Inductive error_type :=
| missing | string_type | float_type | int_type
| string_unicode | string_too_short | string_too_long | value_error
| greater_than | greater_than_equal.

Record validation_error := VError { ve_loc : loc; ve_type : error_type }.

#[export] Instance loc_eq_dec : EqDecision loc.
Proof. solve_decision. Defined.
#[export] Instance error_type_eq_dec : EqDecision error_type.
Proof. solve_decision. Defined.
#[export] Instance validation_error_eq_dec : EqDecision validation_error.
Proof. solve_decision. Defined.

Abbreviation validated A := (list validation_error + A)%type.

Definition err {A} (l : loc) (t : error_type) : validated A := inl [VError l t].

(** The request bodies. [ProductUpdate] ignores unknown fields, so a
    [product_name] sent with an update is parsed and dropped. *)
Record create_body := CreateBody {
  cb_product_name : field pystr;
  cb_price : field float_repr;
  cb_stock_quantity : field Z }.

Record update_body := UpdateBody {
  ub_product_name : field pystr;
  ub_price : field float_repr;
  ub_stock_quantity : field Z }.

(** The validated models. *)
Record ProductCreate := MkProductCreate {
  pc_product_name : pystr;
  pc_price : float_repr;
  pc_stock_quantity : Z }.

Record ProductUpdate := MkProductUpdate {
  pu_price : option float_repr;
  pu_stock_quantity : option Z }.

#[export] Instance ProductCreate_eq_dec : EqDecision ProductCreate.
Proof. solve_decision. Defined.
#[export] Instance ProductUpdate_eq_dec : EqDecision ProductUpdate.
Proof. solve_decision. Defined.

(** [validate_product_name]: [if not value.strip(): raise ValueError];
    [return value.strip()]. *)
Definition validate_product_name (value : pystr) : validated pystr :=
  if is_blank value then err loc_product_name value_error
  else inr (strip value).

(** [product_name: str = Field(..., min_length=2, max_length=100)]
    followed by the after-validator.  pydantic-core reads the string as
    UTF-8 to count its characters, and refuses one with a lone
    surrogate ([string_unicode]) before the length constraints. *)
Definition check_product_name (f : field pystr) : validated pystr :=
  match f with
  | Omitted => err loc_product_name missing
  | Null => err loc_product_name string_type
  | Given s =>
      if decide (~ encodable s) then err loc_product_name string_unicode
      else if decide (length s < 2) then err loc_product_name string_too_short
      else if decide (100 < length s) then err loc_product_name string_too_long
      else validate_product_name s
  end.

(** [price: float = Field(..., gt=0)]. *)
Definition check_price (f : field float_repr) : validated float_repr :=
  match f with
  | Omitted => err loc_price missing
  | Null => err loc_price float_type
  | Given x => if (0 <? fl_mant x)%Z then inr x else err loc_price greater_than
  end.

(** [stock_quantity: int = Field(..., ge=0)]. *)
Definition check_stock_quantity (f : field Z) : validated Z :=
  match f with
  | Omitted => err loc_stock_quantity missing
  | Null => err loc_stock_quantity int_type
  | Given n => if (0 <=? n)%Z then inr n else err loc_stock_quantity greater_than_equal
  end.

(** Both fields validated; the errors of both are reported. *)
Definition both {A B} (ra : validated A) (rb : validated B) : validated (A * B) :=
  match ra, rb with
  | inr a, inr b => inr (a, b)
  | inl ea, inl eb => inl (ea ++ eb)
  | inl ea, inr _ => inl ea
  | inr _, inl eb => inl eb
  end.

Definition validate_create (b : create_body) : validated ProductCreate :=
  match both (check_product_name (cb_product_name b))
             (both (check_price (cb_price b)) (check_stock_quantity (cb_stock_quantity b))) with
  | inr (n, (p, q)) => inr (MkProductCreate n p q)
  | inl es => inl es
  end.

(** [price: Optional[float] = Field(None, gt=0)]: the default [None]
    and an explicit [null] both give [None]; the constraint applies
    only to a number. *)
Definition check_opt_price (f : field float_repr) : validated (option float_repr) :=
  match f with
  | Omitted | Null => inr None
  | Given x => if (0 <? fl_mant x)%Z then inr (Some x) else err loc_price greater_than
  end.

(** [stock_quantity: Optional[int] = Field(None, ge=0)]. *)
Definition check_opt_stock_quantity (f : field Z) : validated (option Z) :=
  match f with
  | Omitted | Null => inr None
  | Given n => if (0 <=? n)%Z then inr (Some n) else err loc_stock_quantity greater_than_equal
  end.

Definition validate_update (b : update_body) : validated ProductUpdate :=
  match both (check_opt_price (ub_price b)) (check_opt_stock_quantity (ub_stock_quantity b)) with
  | inr (p, q) => inr (MkProductUpdate p q)
  | inl es => inl es
  end.

(** What an optional field of [ProductUpdate] becomes: [None] when it
    is omitted or [null], the value when it is given and valid. *)
Definition opt_field_ok {A} (ok : A -> Prop) (f : field A) (o : option A) : Prop :=
  match f with
  | Omitted | Null => o = None
  | Given v => ok v /\ o = Some v
  end.

(** [ProductResponse] ([from_attributes = True]): built from the ORM
    object's attributes; [price] is what the attribute holds, a
    [Decimal] once the object was loaded from its row. *)
Record ProductResponse := MkProductResponse {
  resp_id : Z;
  resp_product_name : pystr;
  resp_price : price_val;
  resp_stock_quantity : Z }.

#[export] Instance ProductResponse_eq_dec : EqDecision ProductResponse.
Proof. solve_decision. Defined.

(** ** Lemmas *)

Lemma both_inr {A B} (ra : validated A) (rb : validated B) a b :
  both ra rb = inr (a, b) <-> ra = inr a /\ rb = inr b.
Proof. destruct ra, rb; naive_solver. Qed.

Lemma check_product_name_inr f n :
  check_product_name f = inr n <->
  exists s, f = Given s /\ encodable s /\ 2 <= length s <= 100 /\ ~ Forall space s /\
            n = strip s.
Proof.
  unfold check_product_name, validate_product_name, err.
  destruct f as [| | s]; [naive_solver.. |].
  repeat case_decide; try naive_solver lia.
  destruct (is_blank s) eqn:Hb.
  - apply is_blank_spec in Hb. naive_solver.
  - split; [intros [= <-]; exists s | intros (? & [= <-] & _ & _ & Hs & ->)]; [| done].
    split_and!; [done | destruct (decide (encodable s)); tauto | lia | lia | | done].
    rewrite <- is_blank_spec. by rewrite Hb.
Qed.

Lemma check_price_inr f x :
  check_price f = inr x <-> f = Given x /\ (0 < fl_mant x)%Z.
Proof.
  destruct f as [| | y]; simpl; [naive_solver.. |].
  destruct (Z.ltb_spec 0 (fl_mant y)); naive_solver lia.
Qed.

Lemma check_stock_quantity_inr f n :
  check_stock_quantity f = inr n <-> f = Given n /\ (0 <= n)%Z.
Proof.
  destruct f as [| | m]; simpl; [naive_solver.. |].
  destruct (Z.leb_spec 0 m); naive_solver lia.
Qed.

(** ** Creation payloads *)

(** What a validated creation payload was sent as. *)
Lemma validate_create_inv b pc :
  validate_create b = inr pc ->
  exists s x n,
    b = CreateBody (Given s) (Given x) (Given n) /\
    encodable s /\ 2 <= length s <= 100 /\ ~ Forall space s /\
    (0 < fl_mant x)%Z /\ (0 <= n)%Z /\
    pc = MkProductCreate (strip s) x n.
Proof.
  unfold validate_create.
  destruct (both _ _) as [| [nm [p q]]] eqn:E; [done |]. intros [= <-].
  apply both_inr in E as [Hn Hpq]. apply both_inr in Hpq as [Hp Hq].
  apply check_product_name_inr in Hn as (s & Hs & ? & ? & ? & ->).
  apply check_price_inr in Hp as [Hp ?]. apply check_stock_quantity_inr in Hq as [Hq ?].
  exists s, p, q. destruct b; simpl in *; subst. done.
Qed.

Lemma validate_create_Given s x n :
  encodable s -> 2 <= length s <= 100 -> ~ Forall space s -> (0 < fl_mant x)%Z -> (0 <= n)%Z ->
  validate_create (CreateBody (Given s) (Given x) (Given n)) =
  inr (MkProductCreate (strip s) x n).
Proof.
  intros. unfold validate_create. cbn [cb_product_name cb_price cb_stock_quantity].
  assert (check_product_name (Given s) = inr (strip s)) as -> by
    (apply check_product_name_inr; eauto 10).
  assert (check_price (Given x) = inr x) as -> by (by apply check_price_inr).
  assert (check_stock_quantity (Given n) = inr n) as -> by
    (by apply check_stock_quantity_inr).
  done.
Qed.

(** A validated name is stripped, not blank, and fits [String(100)]. *)
Lemma validate_create_name b pc :
  validate_create b = inr pc ->
  strip (pc_product_name pc) = pc_product_name pc /\
  (pc_product_name pc <> []) /\ length (pc_product_name pc) <= 100 /\
  (0 < fl_mant (pc_price pc))%Z /\ (0 <= pc_stock_quantity pc)%Z /\
  encodable (pc_product_name pc).
Proof.
  intros (s & x & n & -> & He & Hl & Hb & Hx & Hn & ->)%validate_create_inv. simpl.
  split_and!; [apply strip_idem | | | done | done | by apply strip_encodable].
  - intros Hs. apply Hb, is_blank_spec. unfold is_blank. by rewrite Hs.
  - pose proof (strip_length_le s). lia.
Qed.

(** C23: [ProductCreate] accepts a body exactly when the three fields
    are present, the name as sent has no lone surrogate and has 2 to
    100 code points and is not
    all whitespace, the price is positive and the stock non-negative;
    the validated name is the stripped one. *)
Theorem validate_create_ok_iff b pc :
  validate_create b = inr pc <->
  exists s x n,
    b = CreateBody (Given s) (Given x) (Given n) /\
    encodable s /\ 2 <= length s <= 100 /\ ~ Forall space s /\
    (0 < fl_mant x)%Z /\ (0 <= n)%Z /\
    pc = MkProductCreate (strip s) x n.
Proof.
  split; [apply validate_create_inv |].
  intros (s & x & n & -> & ? & ? & ? & ? & ? & ->). by apply validate_create_Given.
Qed.

(** C26: the length bounds are checked before the name is stripped,
    so a name that has a single code point once stripped is accepted
    and stored, although the spec requires 2 to 100 code points after
    trimming. *)
Theorem validate_create_accepts_one_char c x n :
  ~ space c -> is_surrogate c = false -> (0 < fl_mant x)%Z -> (0 <= n)%Z ->
  validate_create (CreateBody (Given [32%Z; c]) (Given x) (Given n)) =
  inr (MkProductCreate [c] x n).
Proof.
  intros Hc Hsur Hx Hn.
  rewrite validate_create_Given; [| by repeat constructor | simpl; lia | | done | done].
  - do 2 f_equal. transitivity (strip [c]).
    + apply (strip_spaces [32%Z] [c] []); repeat constructor.
    + by apply (strip_fix c [] [] c).
  - rewrite !Forall_cons. naive_solver.
Qed.

(** C27: conversely, a name of 100 code points followed by a space is
    refused as too long, although once stripped it has at most 100
    code points, the bound the spec puts on the trimmed name. *)
Theorem validate_create_rejects_padded s x n :
  encodable s -> length s = 100 -> (0 < fl_mant x)%Z -> (0 <= n)%Z ->
  validate_create (CreateBody (Given (s ++ [32%Z])) (Given x) (Given n)) =
    inl [VError loc_product_name string_too_long] /\
  length (strip (s ++ [32%Z])) <= 100.
Proof.
  intros He Hs Hx Hn. split.
  - unfold validate_create. simpl.
    assert (encodable (s ++ [32%Z])) by (apply Forall_app; split; [done | by repeat constructor]).
    rewrite decide_False by tauto.
    rewrite length_app, Hs. simpl.
    destruct (Z.ltb_spec 0 (fl_mant x)); [| lia].
    destruct (Z.leb_spec 0 n); [| lia]. done.
  - rewrite <- (app_nil_l (s ++ _)), strip_spaces by (repeat constructor).
    pose proof (strip_length_le s). lia.
Qed.

(** ** Update payloads *)

(** What a validated update payload guarantees of its fields. *)
Lemma validate_update_inr b pu :
  validate_update b = inr pu ->
  (forall x, pu_price pu = Some x -> (0 < fl_mant x)%Z) /\
  (forall m, pu_stock_quantity pu = Some m -> (0 <= m)%Z).
Proof.
  destruct b as [nm p q]. unfold validate_update.
  destruct p as [| | x], q as [| | m]; simpl;
    try destruct (Z.ltb_spec 0 (fl_mant x)); try destruct (Z.leb_spec 0 m);
    simpl; intros Hv; simplify_eq/=; split; intros; simplify_eq; lia.
Qed.

(** C29: [ProductUpdate] accepts a body exactly when each given field
    is valid; an omitted field and an explicit [null] both become
    [None], and a [product_name] in the body is ignored. *)
Theorem validate_update_ok_iff b pu :
  validate_update b = inr pu <->
  opt_field_ok (fun x => 0 < fl_mant x)%Z (ub_price b) (pu_price pu) /\
  opt_field_ok (fun n => 0 <= n)%Z (ub_stock_quantity b) (pu_stock_quantity pu).
Proof.
  destruct b as [nm p q], pu as [p' q']. unfold validate_update.
  destruct p as [| | x], q as [| | m]; simpl;
    try destruct (Z.ltb_spec 0 (fl_mant x)); try destruct (Z.leb_spec 0 m);
    simpl; split; intros Hv; simplify_eq/=; naive_solver lia.
Qed.


(** ** Witnesses *)

Lemma validate_create_accepts_one_char_witness :
  ~ space 97%Z /\ is_surrogate 97 = false /\
  validate_create (CreateBody (Given [32%Z; 97%Z]) (Given (FloatRepr 1 0)) (Given 1%Z)) =
  inr (MkProductCreate [97%Z] (FloatRepr 1 0) 1).
Proof.
  split_and!; [decide_true | reflexivity |].
  apply validate_create_accepts_one_char; [decide_true | reflexivity | simpl; lia | lia].
Defined.

Lemma validate_create_rejects_padded_witness :
  encodable (replicate 100 97%Z) /\ length (replicate 100 97%Z) = 100 /\
  validate_create (CreateBody (Given (replicate 100 97%Z ++ [32%Z])) (Given (FloatRepr 1 0))
                              (Given 1%Z)) =
    inl [VError loc_product_name string_too_long].
Proof.
  split_and!; [decide_true | reflexivity |].
  apply validate_create_rejects_padded; [decide_true | reflexivity | simpl; lia | lia].
Defined.
