(* ===== verification/Models.v ===== *)
(** * The [products] table: [src/models.py]

    [class Product(Base)] maps the table [products]: an [Integer]
    primary key [id] drawn from the sequence [products_id_seq], a
    unique [product_name] of type [String(100)], a [Numeric(10, 2)]
    [price] (kept here in hundredths), an [Integer] [stock_quantity],
    and the check constraints [stock_non_negative] and
    [price_non_negative].

    The table is a finite map from ids to rows.  The statements are
    the ones the ORM emits for the handlers: [SELECT ... WHERE
    product_name = %s], [SELECT ... WHERE id = %s], [SELECT] of all
    rows, [INSERT ... RETURNING id], [UPDATE ... SET ... WHERE id = %s]
    and [DELETE ... WHERE id = %s].  Each returns its result and the
    new database; the order of the checks is PostgreSQL's: literals are
    coerced to the column types while the statement is planned, the
    sequence is advanced when the row is built (and never rolled back),
    check constraints are tested by name, then the unique indexes, the
    primary key first. *)

From stdpp Require Import base gmap list.
From Stdlib Require Import ZArith Lia.
From S2P Require Import Prelude PyStr SqlTypes.

(** A row of [products]. *)
Record Product := MkProduct {
  id : Z;
  product_name : pystr;
  price : Z;
  stock_quantity : Z }.

#[export] Instance Product_eq_dec : EqDecision Product.
Proof. solve_decision. Defined.

(** The database: the table and the next value of [products_id_seq]. *)
Record DB := MkDB {
  rows : gmap Z Product;
  seq_next : Z }.

(** The table as [Base.metadata.create_all] leaves it. *)
Definition empty_db : DB := MkDB ∅ 1.

(** The first row, in the table's order, that satisfies [P]. *)
Definition find_row (P : Z * Product -> Prop) `{!∀ kr, Decision (P kr)}
    (t : gmap Z Product) : option (Z * Product) :=
  head (filter P (map_to_list t)).

(** [db.query(Product).filter(Product.product_name == name).first()]:
    the driver first writes [name] into the statement. *)
Definition select_by_name (db : DB) (name : pystr) : db_error + option Product :=
  match adapt_str name with
  | inl e => inl e
  | inr nm => inr (snd <$> find_row (fun kr => product_name kr.2 = nm) (rows db))
  end.

(** [db.query(Product).filter(Product.id == product_id).first()]. *)
Definition select_by_id (db : DB) (i : Z) : option Product := rows db !! i.

(** [db.query(Product).all()]: no [ORDER BY], so the order is the
    table's own. *)
Definition select_all (db : DB) : list Product := snd <$> map_to_list (rows db).

(** The checks PostgreSQL makes on a row it is about to write: the
    check constraints by name, then the primary key, then the unique
    name. *)
Definition check_row (t : gmap Z Product) (r : Product) : db_error + Product :=
  if decide (0 <= price r)%Z then
    if decide (0 <= stock_quantity r)%Z then
      if decide (is_Some (t !! id r)) then inl (UniqueViolation products_pkey)
      else match find_row (fun kr => product_name kr.2 = product_name r) t with
           | Some _ => inl (UniqueViolation products_product_name_key)
           | None => inr r
           end
    else inl (CheckViolation stock_non_negative)
  else inl (CheckViolation price_non_negative).

(** The literals of an [INSERT]: the name adapted by the driver, then
    each value coerced to its column type. *)
Definition insert_values (name : pystr) (p : price_val) (q : Z)
    : db_error + (pystr * Z * Z) :=
  match adapt_str name with
  | inl e => inl e
  | inr nm =>
      match coerce_varchar_100 nm with
      | inl e => inl e
      | inr nm' =>
          match coerce_price p with
          | inl e => inl e
          | inr c =>
              match coerce_integer q with
              | inl e => inl e
              | inr n => inr (nm', c, n)
              end
          end
      end
  end.

(** [INSERT INTO products (product_name, price, stock_quantity) VALUES
    (...) RETURNING products.id]. *)
Definition insert_product (db : DB) (name : pystr) (p : price_val) (q : Z)
    : (db_error + Product) * DB :=
  match insert_values name p q with
  | inl e => (inl e, db)
  | inr (nm, c, n) =>
      let i := seq_next db in
      let db1 := MkDB (rows db) (i + 1)%Z in
      match check_row (rows db) (MkProduct i nm c n) with
      | inl e => (inl e, db1)
      | inr r => (inr r, MkDB (<[i := r]> (rows db)) (i + 1)%Z)
      end
  end.

(** The literals of an [UPDATE]: only the attributes the flush sends. *)
Definition update_values (p : option price_val) (q : option Z)
    : db_error + (option Z * option Z) :=
  let rp := match p with
            | None => inr None
            | Some x =>
                match coerce_price x with
                | inl e => inl e
                | inr c => inr (Some c)
                end
            end in
  match rp with
  | inl e => inl e
  | inr c =>
      match q with
      | None => inr (c, None)
      | Some n =>
          match coerce_integer n with
          | inl e => inl e
          | inr n' => inr (c, Some n')
          end
      end
  end.

Definition set_fields (r : Product) (c : option Z) (n : option Z) : Product :=
  MkProduct (id r) (product_name r) (default (price r) c)
            (default (stock_quantity r) n).

(** [UPDATE products SET ... WHERE products.id = %s]; the ORM raises
    [StaleDataError] when no row matched. *)
Definition update_product_row (db : DB) (i : Z) (p : option price_val) (q : option Z)
    : (db_error + Product) * DB :=
  match update_values p q with
  | inl e => (inl e, db)
  | inr (c, n) =>
      match rows db !! i with
      | None => (inl StaleDataError, db)
      | Some r =>
          match check_row (delete i (rows db)) (set_fields r c n) with
          | inl e => (inl e, db)
          | inr r' => (inr r', MkDB (<[i := r']> (rows db)) (seq_next db))
          end
      end
  end.

(** [DELETE FROM products WHERE products.id = %s]; a row count of 0
    only makes the ORM warn. *)
Definition delete_product_row (db : DB) (i : Z) : DB :=
  MkDB (delete i (rows db)) (seq_next db).

(** ** The table invariant *)

(** What the column types and the constraints guarantee of a stored
    row. *)
Definition row_ok (r : Product) : Prop :=
  (0 <= price r < numeric_limit)%Z /\
  (0 <= stock_quantity r <= int32_max)%Z /\
  length (product_name r) <= 100 /\ 0%Z ∉ product_name r.

Definition names_unique (t : gmap Z Product) : Prop :=
  forall k1 k2 r1 r2, t !! k1 = Some r1 -> t !! k2 = Some r2 ->
    product_name r1 = product_name r2 -> k1 = k2.

Definition table_wf (db : DB) : Prop :=
  (1 <= seq_next db)%Z /\
  map_Forall (fun k r => id r = k /\ (1 <= k < seq_next db)%Z /\ row_ok r) (rows db) /\
  names_unique (rows db).

#[export] Instance row_ok_dec r : Decision (row_ok r).
Proof. unfold row_ok. apply _. Defined.

#[export] Instance names_unique_dec t : Decision (names_unique t).
Proof.
  destruct (decide (map_Forall (fun k1 r1 => map_Forall (fun k2 r2 =>
              product_name r1 = product_name r2 -> k1 = k2) t) t)) as [H | H];
    [left | right]; unfold names_unique, map_Forall in *; naive_solver.
Defined.

#[export] Instance table_wf_dec db : Decision (table_wf db).
Proof. unfold table_wf. apply _. Defined.

(** [d'] comes after [d]: the sequence has not moved back, and a key
    of [d'] that [d] did not have was drawn from the sequence after
    [d], so it is no id that [d] had or had issued. *)
Definition db_ext (d d' : DB) : Prop :=
  (seq_next d <= seq_next d')%Z /\
  forall k, rows d !! k = None -> is_Some (rows d' !! k) -> (seq_next d <= k)%Z.

(** ** Lookups *)

Section FindRow.
  Context (P : Z * Product -> Prop) {P_dec : ∀ kr, Decision (P kr)}.

Lemma find_row_Some t k r :
    find_row P t = Some (k, r) -> t !! k = Some r /\ P (k, r).
  Proof.
    unfold find_row. intros H.
    assert ((k, r) ∈ filter P (map_to_list t)) as Hin.
    { destruct (filter P (map_to_list t)); simplify_eq/=. by left. }
    apply list_elem_of_filter in Hin as [HP Hin].
    by apply elem_of_map_to_list in Hin.
  Qed.

Lemma find_row_None t :
    find_row P t = None <-> forall k r, t !! k = Some r -> ~ P (k, r).
  Proof.
    unfold find_row. split.
    - intros H k r Hk HP.
      assert ((k, r) ∈ filter P (map_to_list t)) as Hin.
      { apply list_elem_of_filter. by rewrite elem_of_map_to_list. }
      destruct (filter P (map_to_list t)); [by apply not_elem_of_nil in Hin | done].
    - intros H. destruct (filter P (map_to_list t)) as [|[k r] l] eqn:E; [done |].
      assert ((k, r) ∈ filter P (map_to_list t)) as Hin by (rewrite E; left).
      apply list_elem_of_filter in Hin as [HP Hin].
      apply elem_of_map_to_list in Hin. by destruct (H k r Hin).
  Qed.
End FindRow.

Lemma select_by_name_Some db name r :
  select_by_name db name = inr (Some r) ->
  exists k, rows db !! k = Some r /\ product_name r = name.
Proof.
  unfold select_by_name. destruct (adapt_str name) eqn:Ha; [done |].
  apply adapt_str_inr in Ha as [-> _].
  destruct (find_row _ _) as [[k r']|] eqn:Hf; intros; simplify_eq/=.
  apply find_row_Some in Hf. naive_solver.
Qed.

Lemma select_by_name_None db name :
  select_by_name db name = inr None <->
  (0%Z ∉ name) /\ encodable name /\
  (forall k r, rows db !! k = Some r -> product_name r <> name).
Proof.
  unfold select_by_name. destruct (adapt_str name) eqn:Ha.
  - split; [done |]. intros (Hn & He & _). unfold adapt_str in Ha. by repeat case_decide.
  - apply adapt_str_inr in Ha as (-> & Hn & He).
    destruct (find_row _ _) as [[k r']|] eqn:Hf; simpl.
    + apply find_row_Some in Hf. naive_solver.
    + rewrite find_row_None in Hf. naive_solver.
Qed.

Lemma select_by_name_inl db name e :
  select_by_name db name = inl e ->
  (e = UnicodeEncodeError /\ ~ encodable name) \/ (e = NulCharacter /\ 0%Z ∈ name).
Proof.
  unfold select_by_name, adapt_str. repeat case_decide; [naive_solver | | naive_solver].
  by destruct (find_row _ _).
Qed.

(** ** Statements *)

Lemma check_row_inr t r r' :
  check_row t r = inr r' <->
  r' = r /\ (0 <= price r)%Z /\ (0 <= stock_quantity r)%Z /\ t !! id r = None /\
  forall k r0, t !! k = Some r0 -> product_name r0 <> product_name r.
Proof.
  unfold check_row. repeat case_decide; try naive_solver.
  - split; [done |]. intros (_ & _ & _ & Hn & _). rewrite Hn in H1. by destruct H1.
  - destruct (find_row _ _) as [[k r0]|] eqn:Hf.
    + apply find_row_Some in Hf. naive_solver.
    + rewrite find_row_None in Hf. apply eq_None_not_Some in H1. naive_solver.
Qed.

Lemma insert_values_inr name p q nm c n :
  insert_values name p q = inr (nm, c, n) <->
  nm = name /\ (0%Z ∉ name) /\ encodable name /\ length name <= 100 /\
  c = price_cents p /\ (Z.abs c < numeric_limit)%Z /\
  n = q /\ (int32_min <= q <= int32_max)%Z.
Proof.
  unfold insert_values.
  destruct (adapt_str name) eqn:Ha; [unfold adapt_str in Ha; repeat case_decide; naive_solver |].
  apply adapt_str_inr in Ha as (-> & Hn & He).
  destruct (coerce_varchar_100 _) eqn:Hv;
    [unfold coerce_varchar_100 in Hv; case_decide; naive_solver lia |].
  apply coerce_varchar_100_inr in Hv as [-> Hl].
  destruct (coerce_price p) eqn:Hp.
  - split; [done |]. intros (_ & _ & _ & _ & -> & Hc & _).
    assert (coerce_price p = inr (price_cents p)) by (by apply coerce_price_inr).
    congruence.
  - apply coerce_price_inr in Hp as [-> Hc].
    destruct (coerce_integer q) eqn:Hq.
    + split; [done |]. intros (_ & _ & _ & _ & _ & _ & _ & Hr).
      unfold coerce_integer in Hq.
      destruct (Z.leb_spec int32_min q), (Z.leb_spec q int32_max); simpl in Hq; done || lia.
    + apply coerce_integer_inr in Hq as [-> Hr]. naive_solver.
Qed.

Lemma update_values_inr p q c n :
  update_values p q = inr (c, n) <->
  match p with
  | None => c = None
  | Some x => c = Some (price_cents x) /\ (Z.abs (price_cents x) < numeric_limit)%Z
  end /\
  match q with
  | None => n = None
  | Some m => n = Some m /\ (int32_min <= m <= int32_max)%Z
  end.
Proof.
  unfold update_values.
  destruct p as [x|]; [destruct (coerce_price x) as [e|c'] eqn:Hp |];
    try (apply coerce_price_inr in Hp as [-> ?]);
    destruct q as [m|]; try (destruct (coerce_integer m) as [e'|m'] eqn:Hq;
                             try (apply coerce_integer_inr in Hq as [-> ?]));
    try naive_solver.
  all: try (unfold coerce_integer in Hq;
            destruct (Z.leb_spec int32_min m), (Z.leb_spec m int32_max); simpl in Hq;
            naive_solver lia).
  all: split; [done | intros [[_ Hc] _]].
  all: assert (coerce_price x = inr (price_cents x)) by (by apply coerce_price_inr).
  all: congruence.
Qed.

(** ** Preservation of the invariant *)

Lemma wf_bump_seq db : table_wf db -> table_wf (MkDB (rows db) (seq_next db + 1)).
Proof.
  intros (Hs & Hf & Hu). split_and!; simpl; [lia | | done].
  intros k r Hk. destruct (Hf k r Hk) as (? & ? & ?). split_and!; done || lia.
Qed.

(** Writing row [r] under key [i] keeps the invariant when [r] fits its
    columns and no other row has its name. *)
Lemma wf_insert db i r s' :
  table_wf db -> row_ok r -> id r = i -> (1 <= i < s')%Z -> (seq_next db <= s')%Z ->
  (forall k r0, rows db !! k = Some r0 -> k <> i -> product_name r0 <> product_name r) ->
  table_wf (MkDB (<[i := r]> (rows db)) s').
Proof.
  intros (Hs & Hf & Hu) Hr Hid Hi Hs' Hn. split_and!; simpl; [lia | |].
  - intros k r0. rewrite lookup_insert. case_decide; intros Hk; simplify_eq; [done |].
    destruct (Hf k r0 Hk) as (? & ? & ?). split_and!; done || lia.
  - intros k1 k2 r1 r2. rewrite !lookup_insert.
    repeat case_decide; intros H1 H2 Hname; simplify_eq; [done | ..].
    + by destruct (Hn k2 r2 H2).
    + by destruct (Hn k1 r1 H1).
    + by apply (Hu k1 k2 r1 r2).
Qed.

Lemma wf_delete db i : table_wf db -> table_wf (delete_product_row db i).
Proof.
  intros (Hs & Hf & Hu). split_and!; simpl; [done | |].
  - intros k r. rewrite lookup_delete. case_decide; [done |]. apply Hf.
  - intros k1 k2 r1 r2. rewrite !lookup_delete. repeat case_decide; try done. apply Hu.
Qed.

Theorem insert_product_wf db name p q :
  table_wf db -> table_wf (insert_product db name p q).2.
Proof.
  intros Hwf. unfold insert_product.
  destruct (insert_values name p q) as [e | [[nm c] n]] eqn:Hv; [done |].
  apply insert_values_inr in Hv as (-> & Hnul & _ & Hlen & -> & Hc & -> & Hq).
  destruct (check_row _ _) as [e | r] eqn:Hck; simpl; [by apply wf_bump_seq |].
  apply check_row_inr in Hck as (-> & Hp & Hs & _ & Hn). simpl in *.
  destruct Hwf as (Hseq & ? & ?) eqn:Hwf'.
  apply wf_insert; simpl; try (done || lia).
  - unfold row_ok; simpl. split_and!; done || lia.
  - intros k r0 Hk _. by apply Hn with k.
Qed.

Theorem update_product_row_wf db i p q :
  table_wf db -> table_wf (update_product_row db i p q).2.
Proof.
  intros Hwf. unfold update_product_row.
  destruct (update_values p q) as [e | [c n]] eqn:Hv; [done |].
  destruct (rows db !! i) as [r|] eqn:Hr; [| done].
  destruct (check_row _ _) as [e | r'] eqn:Hck; [done |]. simpl.
  apply check_row_inr in Hck as (-> & Hp & Hs & _ & Hn).
  apply update_values_inr in Hv as [Hc Hn'].
  destruct Hwf as (Hseq & Hf & Hu) eqn:Hwf'.
  destruct (Hf i r Hr) as (Hid & Hi & Hrow).
  apply wf_insert; simpl; try (done || lia).
  - destruct Hrow as (? & ? & ? & ?). unfold row_ok; simpl in *.
    split_and!; try done; [destruct p; naive_solver lia.. | destruct q; naive_solver lia].
  - intros k r0 Hk Hki. apply (Hn k). by rewrite lookup_delete_ne.
Qed.

(** ** Outcomes of the statements *)

Lemma insert_product_inr db name p q r db' :
  insert_product db name p q = (inr r, db') ->
  r = MkProduct (seq_next db) name (price_cents p) q /\
  db' = MkDB (<[seq_next db := r]> (rows db)) (seq_next db + 1) /\
  insert_values name p q = inr (name, price_cents p, q) /\
  rows db !! seq_next db = None /\
  (forall k r0, rows db !! k = Some r0 -> product_name r0 <> name).
Proof.
  unfold insert_product.
  destruct (insert_values name p q) as [e | [[nm c] n]] eqn:Hv; [done |].
  destruct (check_row _ _) as [e | r'] eqn:Hck; [done |]. intros [= <- <-].
  apply check_row_inr in Hck as (-> & _ & _ & Hnone & Hn).
  pose proof Hv as Hv'.
  apply insert_values_inr in Hv as (-> & _ & _ & _ & -> & _ & -> & _). simpl in *. by split_and!.
Qed.

Lemma insert_product_inl db name p q e db' :
  insert_product db name p q = (inl e, db') ->
  rows db' = rows db /\ (seq_next db <= seq_next db' <= seq_next db + 1)%Z.
Proof.
  unfold insert_product.
  destruct (insert_values name p q) as [e' | [[nm c] n]]; [intros [= _ <-]; split; [done | lia] |].
  destruct (check_row _ _); intros [= _ <-]; simpl; split; done || lia.
Qed.

Lemma update_product_row_inr db i p q r' db' :
  update_product_row db i p q = (inr r', db') ->
  exists r c n, rows db !! i = Some r /\ update_values p q = inr (c, n) /\
    r' = set_fields r c n /\ db' = MkDB (<[i := r']> (rows db)) (seq_next db).
Proof.
  unfold update_product_row.
  destruct (update_values p q) as [e | [c n]] eqn:Hv; [done |].
  destruct (rows db !! i) as [r|] eqn:Hr; [| done].
  destruct (check_row _ _) as [e | r0] eqn:Hck; [done |]. intros [= <- <-].
  apply check_row_inr in Hck as [-> _]. eauto 10.
Qed.

Lemma update_product_row_inl db i p q e db' :
  update_product_row db i p q = (inl e, db') -> db' = db.
Proof.
  unfold update_product_row.
  destruct (update_values p q) as [e' | [c n]]; [congruence |].
  destruct (rows db !! i); [| congruence]. destruct (check_row _ _); congruence.
Qed.

(** The statements never move the sequence back. *)
Lemma insert_product_seq db name p q :
  (seq_next db <= seq_next (insert_product db name p q).2)%Z.
Proof.
  destruct (insert_product db name p q) as [[e | r] db'] eqn:Hi; simpl.
  - apply insert_product_inl in Hi. lia.
  - apply insert_product_inr in Hi as (_ & -> & _). simpl. lia.
Qed.

Lemma update_product_row_seq db i p q :
  seq_next (update_product_row db i p q).2 = seq_next db.
Proof.
  destruct (update_product_row db i p q) as [[e | r] db'] eqn:Hu; simpl.
  - by apply update_product_row_inl in Hu as ->.
  - by apply update_product_row_inr in Hu as (? & ? & ? & _ & _ & _ & ->).
Qed.

(** ** The statements issue new ids only from the sequence *)

Lemma db_ext_refl d : db_ext d d.
Proof. split; [lia |]. intros k Hn [r Hr]. congruence. Qed.

Lemma db_ext_trans d1 d2 d3 : db_ext d1 d2 -> db_ext d2 d3 -> db_ext d1 d3.
Proof.
  intros [Hs12 H12] [Hs23 H23]. split; [lia |]. intros k Hn Hk.
  destruct (rows d2 !! k) as [r|] eqn:E2; [apply H12; eauto |].
  specialize (H23 k E2 Hk). lia.
Qed.

Lemma db_ext_rows d rs s :
  (forall k, rows d !! k = None -> rs !! k = None) -> (seq_next d <= s)%Z -> db_ext d (MkDB rs s).
Proof.
  intros Hr Hs. split; [done |]. intros k Hn [r Hk]. simpl in Hk. by rewrite Hr in Hk.
Qed.

Lemma insert_product_ext db name p q : db_ext db (insert_product db name p q).2.
Proof.
  destruct (insert_product db name p q) as [[e | r] db'] eqn:Hi; simpl.
  - apply insert_product_inl in Hi as [Hr Hs]. destruct db' as [rs s]; simpl in *; subst.
    apply db_ext_rows; [auto | lia].
  - apply insert_product_inr in Hi as (_ & -> & _). split; simpl; [lia |].
    intros k Hn [r' Hk]. destruct (decide (k = seq_next db)) as [-> | Hne]; [lia |].
    rewrite lookup_insert_ne in Hk by done. congruence.
Qed.

Lemma update_product_row_ext db i p q : db_ext db (update_product_row db i p q).2.
Proof.
  destruct (update_product_row db i p q) as [[e | r'] db'] eqn:Hu; simpl.
  - apply update_product_row_inl in Hu as ->. apply db_ext_refl.
  - apply update_product_row_inr in Hu as (r & c & n & Hr & _ & _ & ->).
    apply db_ext_rows; [| lia]. intros k Hn.
    destruct (decide (k = i)) as [-> | Hne]; [congruence |]. by rewrite lookup_insert_ne.
Qed.

Lemma delete_product_row_ext db i : db_ext db (delete_product_row db i).
Proof.
  apply db_ext_rows; [| simpl; lia]. intros k Hn. by rewrite lookup_delete_None; right.
Qed.

(** ** Consequences of the invariant *)

Lemma wf_lookup_id db k r : table_wf db -> rows db !! k = Some r -> id r = k.
Proof. intros (_ & Hf & _) Hk. by destruct (Hf k r Hk). Qed.

Lemma wf_lookup_row_ok db k r : table_wf db -> rows db !! k = Some r -> row_ok r.
Proof. intros (_ & Hf & _) Hk. by destruct (Hf k r Hk) as (_ & _ & ?). Qed.

Lemma wf_lookup_lt db k r : table_wf db -> rows db !! k = Some r -> (1 <= k < seq_next db)%Z.
Proof. intros (_ & Hf & _) Hk. by destruct (Hf k r Hk) as (_ & ? & _). Qed.

#[export] Hint Resolve wf_lookup_id wf_lookup_row_ok wf_lookup_lt : inventory.

(** The rows of a well-formed table have distinct ids. *)
Lemma select_all_ids db : table_wf db -> NoDup (id <$> select_all db).
Proof.
  intros Hwf. unfold select_all. rewrite <- list_fmap_compose.
  rewrite (list_fmap_ext (id ∘ snd) fst).
  - apply NoDup_fst_map_to_list.
  - intros j [k r] Hj. simpl. eapply wf_lookup_id; [done |].
    apply elem_of_map_to_list. by eapply list_elem_of_lookup_2.
Qed.

Lemma elem_of_select_all db r : r ∈ select_all db <-> exists k, rows db !! k = Some r.
Proof.
  unfold select_all. rewrite list_elem_of_fmap. split.
  - intros ([k r'] & -> & Hin). apply elem_of_map_to_list in Hin. eauto.
  - intros [k Hk]. exists (k, r). split; [done |]. by apply elem_of_map_to_list.
Qed.

(** A fresh, storable row is inserted under the next id. *)
Lemma insert_product_ok db name p q :
  table_wf db -> 0%Z ∉ name -> encodable name -> length name <= 100 ->
  (0 <= price_cents p)%Z -> (Z.abs (price_cents p) < numeric_limit)%Z ->
  (0 <= q <= int32_max)%Z ->
  (forall k r, rows db !! k = Some r -> product_name r <> name) ->
  insert_product db name p q =
  (inr (MkProduct (seq_next db) name (price_cents p) q),
   MkDB (<[seq_next db := MkProduct (seq_next db) name (price_cents p) q]> (rows db))
        (seq_next db + 1)).
Proof.
  intros Hwf Hnul Henc Hlen Hp Hc Hq Hn. unfold insert_product.
  assert (insert_values name p q = inr (name, price_cents p, q)) as ->.
  { apply insert_values_inr. unfold int32_min, int32_max in *. split_and!; done || lia. }
  assert (rows db !! seq_next db = None) as Hfree.
  { destruct (rows db !! seq_next db) as [r|] eqn:Hr; [| done].
    pose proof (wf_lookup_lt _ _ _ Hwf Hr). lia. }
  assert (check_row (rows db) (MkProduct (seq_next db) name (price_cents p) q) =
          inr (MkProduct (seq_next db) name (price_cents p) q)) as ->.
  { apply check_row_inr. simpl. split_and!; done || lia. }
  done.
Qed.

(** On a well-formed table, an [INSERT] of a fresh name with
    non-negative values fails only in the coercion of its literals. *)
Lemma insert_product_fresh db name p q :
  table_wf db -> (0 <= price_cents p)%Z -> (0 <= q)%Z ->
  (forall k r, rows db !! k = Some r -> product_name r <> name) ->
  insert_product db name p q =
  match insert_values name p q with
  | inl e => (inl e, db)
  | inr (nm, c, n) =>
      (inr (MkProduct (seq_next db) nm c n),
       MkDB (<[seq_next db := MkProduct (seq_next db) nm c n]> (rows db)) (seq_next db + 1))
  end.
Proof.
  intros Hwf Hp Hq Hn. unfold insert_product.
  destruct (insert_values name p q) as [e | [[nm c] n]] eqn:Hv; [done |].
  apply insert_values_inr in Hv as (-> & _ & _ & _ & -> & _ & -> & _).
  assert (rows db !! seq_next db = None) as Hfree.
  { destruct (rows db !! seq_next db) as [r|] eqn:Hr; [| done].
    pose proof (wf_lookup_lt _ _ _ Hwf Hr). lia. }
  assert (check_row (rows db) (MkProduct (seq_next db) name (price_cents p) q) =
          inr (MkProduct (seq_next db) name (price_cents p) q)) as -> by
    (apply check_row_inr; simpl; split_and!; done || lia).
  done.
Qed.

(** On a well-formed table, an [UPDATE] of a stored row with
    non-negative values fails only in the coercion of its literals. *)
Lemma update_product_row_stored db i r p q :
  table_wf db -> rows db !! i = Some r ->
  (forall x, p = Some x -> 0 <= price_cents x)%Z ->
  (forall m, q = Some m -> 0 <= m)%Z ->
  update_product_row db i p q =
  match update_values p q with
  | inl e => (inl e, db)
  | inr (c, n) => (inr (set_fields r c n), MkDB (<[i := set_fields r c n]> (rows db)) (seq_next db))
  end.
Proof.
  intros Hwf Hr Hp Hq. unfold update_product_row.
  destruct (update_values p q) as [e | [c n]] eqn:Hv; [done |]. rewrite Hr.
  apply update_values_inr in Hv as [Hc Hn].
  pose proof (wf_lookup_id _ _ _ Hwf Hr) as Hid.
  destruct (wf_lookup_row_ok _ _ _ Hwf Hr) as (Hpr & Hsq & _).
  destruct Hwf as (_ & _ & Hu).
  assert (check_row (delete i (rows db)) (set_fields r c n) = inr (set_fields r c n)) as ->;
    [| done].
  apply check_row_inr. unfold set_fields; simpl. split_and!; [done | | | |].
  - destruct p as [x|]; [destruct Hc as [-> _]; simpl; by apply Hp | subst c; simpl; lia].
  - destruct q as [m|]; [destruct Hn as [-> _]; simpl; by apply Hq | subst n; simpl; lia].
  - by rewrite Hid, lookup_delete_eq.
  - intros k r0 Hk Hname. rewrite lookup_delete_Some in Hk. destruct Hk as [Hki Hk].
    by apply Hki; symmetry; apply (Hu k i r0 r).
Qed.

(** An [INSERT] of a name a row already has fails on the unique
    constraint, after taking its id from the sequence. *)
Lemma insert_product_taken db name p q k r :
  (0 <= price_cents p)%Z -> (0 <= q)%Z -> rows db !! seq_next db = None ->
  rows db !! k = Some r -> product_name r = name ->
  insert_values name p q = inr (name, price_cents p, q) ->
  insert_product db name p q =
  (inl (UniqueViolation products_product_name_key), MkDB (rows db) (seq_next db + 1)).
Proof.
  intros Hp Hq Hfree Hk Hn Hv. unfold insert_product, check_row. rewrite Hv. simpl.
  rewrite !decide_True by done. rewrite decide_False by (rewrite Hfree; apply is_Some_None).
  destruct (find_row _ _) as [[k' r']|] eqn:Hf; [done |].
  rewrite find_row_None in Hf. by destruct (Hf k r Hk).
Qed.

(** The literals of a statement fail only on the column types, never
    on a constraint. *)
Lemma insert_values_not_unique name p q c : insert_values name p q <> inl (UniqueViolation c).
Proof.
  unfold insert_values, adapt_str, coerce_varchar_100, coerce_price, coerce_numeric_10_2,
    coerce_integer.
  repeat first [case_decide | case_match]; congruence.
Qed.

Lemma update_values_not_unique p q c : update_values p q <> inl (UniqueViolation c).
Proof.
  unfold update_values, coerce_price, coerce_numeric_10_2, coerce_integer.
  repeat case_match; congruence.
Qed.

(** On a well-formed table, an [INSERT] of a fresh name, or an
    [UPDATE] of a stored row, never violates a uniqueness constraint. *)
Lemma insert_product_not_unique db name p q c :
  table_wf db -> (forall k r, rows db !! k = Some r -> product_name r <> name) ->
  (insert_product db name p q).1 <> inl (UniqueViolation c).
Proof.
  intros Hwf Hfresh. unfold insert_product.
  pose proof (insert_values_not_unique name p q c) as Hne.
  destruct (insert_values name p q) as [e | [[nm c'] n]] eqn:Hv; [simpl; congruence |].
  apply insert_values_inr in Hv as (-> & _).
  assert (rows db !! seq_next db = None) as Hfree.
  { destruct (rows db !! seq_next db) as [r|] eqn:Hr; [| done].
    pose proof (wf_lookup_lt _ _ _ Hwf Hr). lia. }
  unfold check_row; simpl. repeat case_decide; simpl; try congruence.
  - rewrite Hfree in *. by destruct H1.
  - destruct (find_row _ _) as [[k r]|] eqn:Hf; simpl; [| congruence].
    apply find_row_Some in Hf as [Hk Hn]. by destruct (Hfresh k r Hk).
Qed.

Lemma update_product_row_not_unique db i r p q c :
  table_wf db -> rows db !! i = Some r ->
  (update_product_row db i p q).1 <> inl (UniqueViolation c).
Proof.
  intros Hwf Hr. unfold update_product_row.
  pose proof (update_values_not_unique p q c) as Hne.
  destruct (update_values p q) as [e | [c' n]]; [simpl; congruence |]. rewrite Hr.
  pose proof (wf_lookup_id _ _ _ Hwf Hr) as Hid. destruct Hwf as (_ & _ & Hu).
  unfold check_row, set_fields; simpl. repeat case_decide; simpl; try congruence.
  - rewrite Hid, lookup_delete_eq in H1. by destruct H1.
  - destruct (find_row _ _) as [[k r0]|] eqn:Hf; simpl; [| congruence].
    apply find_row_Some in Hf as [Hk Hn]. simpl in Hn.
    apply lookup_delete_Some in Hk as [Hki Hk]. by destruct Hki; apply (Hu i k r r0).
Qed.

Lemma select_by_name_exists db name k r :
  0%Z ∉ name -> encodable name -> rows db !! k = Some r -> product_name r = name ->
  exists r', select_by_name db name = inr (Some r').
Proof.
  intros Hnul Henc Hk Hname. unfold select_by_name.
  assert (adapt_str name = inr name) as -> by (by apply adapt_str_inr).
  destruct (find_row _ _) as [[k' r']|] eqn:Hf; [by exists r' |].
  rewrite find_row_None in Hf. by destruct (Hf k r Hk).
Qed.

Lemma wf_seq_mono db s' :
  table_wf db -> (seq_next db <= s')%Z -> table_wf (MkDB (rows db) s').
Proof.
  intros (Hs & Hf & Hu) Hle. split_and!; simpl; [lia | | done].
  intros k r Hk. destruct (Hf k r Hk) as (? & ? & ?). split_and!; done || lia.
Qed.

Lemma empty_db_wf : table_wf empty_db.
Proof. split_and!; simpl; [lia | apply map_Forall_empty | intros ????; by rewrite lookup_empty]. Qed.
