(* ===== verification/Session.v ===== *)
(** * The request's session: [src/database.py] and [get_db]

    [SessionLocal = sessionmaker(bind=engine)] makes one SQLAlchemy
    session per request; [get_db] yields it and closes it in a
    [finally] block.  A session is modelled as

    - [s_db]: the database as this session's transaction sees it;
    - [s_snapshot]: the table when the transaction began, restored by a
      rollback (the id sequence is not transactional and is kept);
    - [s_objs]: the ORM objects the session holds (its identity map and
      its new objects); a Python reference to an object is an index, a
      handle, into this list, so two reads of the same row give the
      same object and an assignment through one reference is seen by
      all;
    - [s_open] and [s_commits].

    A handler is a computation in [M], a state monad over [Session]
    with exceptions [exc]: [HTTPException] raised by a handler,
    [DBException] for the uncaught driver, database and ORM errors.

    [flush] is the unit of work: an [INSERT] for each pending object and
    an [UPDATE] of the changed attributes of each persistent one (none
    when no attribute changed), in order,
    then a [DELETE] for each object marked deleted.  A failed statement
    rolls the transaction back.  [commit] flushes, commits and expires
    every object; a later read of an expired attribute reloads the row.
    Queries autoflush first. *)

From stdpp Require Import base gmap list.
From Stdlib Require Import ZArith Lia.
From S2P Require Import Prelude PyStr SqlTypes Schemas Models.

(** ** ORM objects *)

Inductive obj_status := Pending | Persistent | MarkedDeleted | Deleted.

#[export] Instance obj_status_eq_dec : EqDecision obj_status.
Proof. solve_decision. Defined.

(** The history the ORM keeps of a column attribute since the last
    flush ([committed_state]): not assigned, or assigned when it held
    the loaded value [Some v], or assigned while expired, when the
    loaded value is [NO_VALUE] ([None]). *)
Inductive attr_history (A : Type) :=
| Unmodified
| Modified (loaded : option A).
Arguments Unmodified {A}.
Arguments Modified {A} loaded.

#[export] Instance attr_history_eq_dec `{EqDecision A} : EqDecision (attr_history A).
Proof. solve_decision. Defined.

(** A [Product] instance: its attributes, its state in the session,
    the history of its assignable attributes, and whether its
    attributes are expired. *)
Record obj := MkObj {
  o_id : option Z;
  o_product_name : pystr;
  o_price : price_val;
  o_stock_quantity : Z;
  o_status : obj_status;
  o_price_hist : attr_history price_val;
  o_stock_hist : attr_history Z;
  o_expired : bool }.

#[export] Instance obj_eq_dec : EqDecision obj.
Proof. solve_decision. Defined.

Record Session := MkSession {
  s_db : DB;
  s_snapshot : gmap Z Product;
  s_objs : list obj;
  s_open : bool;
  s_commits : nat }.

(** The two [detail] messages of [src/main.py]. *)
Inductive detail := ProductAlreadyExists | ProductNotFound.

Inductive exc :=
| HTTPException (status_code : Z) (d : detail)
| DBException (e : db_error)
| ResponseValidationError.

#[export] Instance detail_eq_dec : EqDecision detail.
Proof. solve_decision. Defined.
#[export] Instance exc_eq_dec : EqDecision exc.
Proof. solve_decision. Defined.

(** ** The monad *)

Definition M (A : Type) : Type := Session -> (exc + A) * Session.

Definition mret {A} (a : A) : M A := fun s => (inr a, s).

Definition mbind {A B} (m : M A) (k : A -> M B) : M B :=
  fun s => match m s with
           | (inl e, s') => (inl e, s')
           | (inr a, s') => k a s'
           end.

Definition raise {A} (e : exc) : M A := fun s => (inl e, s).

Definition gets {A} (f : Session -> A) : M A := fun s => (inr (f s), s).

Definition modify (f : Session -> Session) : M unit := fun s => (inr tt, f s).

Definition lift_db {A} (r : db_error + A) : M A :=
  match r with inl e => raise (DBException e) | inr a => mret a end.

Declare Scope session_scope.
Delimit Scope session_scope with session.
Notation "'let*' x ':=' m 'in' k" := (mbind m (fun x => k))
  (at level 10, x name, m at level 100, k at level 200) : session_scope.
Notation "m ;; k" := (mbind m (fun _ => k))
  (at level 100, right associativity) : session_scope.
Open Scope session_scope.

(** ** Session state updates *)

Definition set_db (s : Session) (db : DB) : Session :=
  MkSession db (s_snapshot s) (s_objs s) (s_open s) (s_commits s).

Definition set_objs (s : Session) (os : list obj) : Session :=
  MkSession (s_db s) (s_snapshot s) os (s_open s) (s_commits s).

(** The table as the transaction began, with the sequence as it is. *)
Definition rollback (s : Session) (db : DB) : Session :=
  set_db s (MkDB (s_snapshot s) (seq_next db)).

(** ** Objects *)

(** [Product(product_name=..., price=..., stock_quantity=...)], not
    yet added. *)
Definition new_product (name : pystr) (p : price_val) (q : Z) : obj :=
  MkObj None name p q Pending Unmodified Unmodified false.

(** The attributes loaded from a row. *)
Definition load_attrs (o : obj) (r : Product) : obj :=
  MkObj (Some (id r)) (product_name r) (PyDecimal (price r)) (stock_quantity r)
        (o_status o) Unmodified Unmodified false.

Definition obj_of_row (r : Product) : obj :=
  MkObj (Some (id r)) (product_name r) (PyDecimal (price r)) (stock_quantity r)
        Persistent Unmodified Unmodified false.

(** An assignment records the loaded value the first time
    ([ScalarAttributeImpl.set] keeps an existing [committed_state]). *)
Definition record_loaded {A} (h : attr_history A) (cur : A) (expired : bool)
    : attr_history A :=
  match h with
  | Unmodified => Modified (if expired then None else Some cur)
  | Modified _ => h
  end.

Definition assign_price (v : price_val) (o : obj) : obj :=
  MkObj (o_id o) (o_product_name o) v (o_stock_quantity o) (o_status o)
        (record_loaded (o_price_hist o) (o_price o) (o_expired o))
        (o_stock_hist o) (o_expired o).

Definition assign_stock (n : Z) (o : obj) : obj :=
  MkObj (o_id o) (o_product_name o) (o_price o) n (o_status o)
        (o_price_hist o)
        (record_loaded (o_stock_hist o) (o_stock_quantity o) (o_expired o))
        (o_expired o).

Definition with_status (st : obj_status) (o : obj) : obj :=
  MkObj (o_id o) (o_product_name o) (o_price o) (o_stock_quantity o) st
        (o_price_hist o) (o_stock_hist o) (o_expired o).

Definition expire (o : obj) : obj :=
  MkObj (o_id o) (o_product_name o) (o_price o) (o_stock_quantity o) (o_status o)
        (o_price_hist o) (o_stock_hist o) true.

(** ** Flush *)

(** The value a flush writes for an attribute with history [h] and
    current value [cur] ([History.from_scalar_attribute] and
    [_collect_update_commands]): nothing when it was not assigned or
    is [==] to the loaded value, else [cur]. *)
Definition attr_added {A} (eqb : A -> A -> bool) (h : attr_history A) (cur : A)
    : option A :=
  match h with
  | Unmodified => None
  | Modified (Some v) => if eqb cur v then None else Some cur
  | Modified None => Some cur
  end.

(** The statement that saves one object, if any: an [INSERT] of a
    pending object, an [UPDATE] of the changed columns of a
    persistent one, none when no column changed.  The histories are
    reset either way. *)
Definition flush_save (db : DB) (o : obj) : (db_error + obj) * DB :=
  match o_status o with
  | Pending =>
      match insert_product db (o_product_name o) (o_price o) (o_stock_quantity o) with
      | (inl e, db') => (inl e, db')
      | (inr r, db') =>
          (inr (MkObj (Some (id r)) (o_product_name o) (o_price o) (o_stock_quantity o)
                      Persistent Unmodified Unmodified (o_expired o)), db')
      end
  | Persistent =>
      match o_id o with
      | Some i =>
          let o' := MkObj (o_id o) (o_product_name o) (o_price o) (o_stock_quantity o)
                          Persistent Unmodified Unmodified (o_expired o) in
          match attr_added py_price_eqb (o_price_hist o) (o_price o),
                attr_added Z.eqb (o_stock_hist o) (o_stock_quantity o) with
          | None, None => (inr o', db)
          | p, q =>
              match update_product_row db i p q with
              | (inl e, db') => (inl e, db')
              | (inr _, db') => (inr o', db')
              end
          end
      | None => (inr o, db)
      end
  | MarkedDeleted | Deleted => (inr o, db)
  end.

Fixpoint flush_saves (db : DB) (os : list obj) : (db_error + list obj) * DB :=
  match os with
  | [] => (inr [], db)
  | o :: os' =>
      match flush_save db o with
      | (inl e, db1) => (inl e, db1)
      | (inr o', db1) =>
          match flush_saves db1 os' with
          | (inl e, db2) => (inl e, db2)
          | (inr os'', db2) => (inr (o' :: os''), db2)
          end
      end
  end.

Definition flush_delete (db : DB) (o : obj) : obj * DB :=
  match o_status o, o_id o with
  | MarkedDeleted, Some i => (with_status Deleted o, delete_product_row db i)
  | _, _ => (o, db)
  end.

Fixpoint flush_deletes (db : DB) (os : list obj) : list obj * DB :=
  match os with
  | [] => ([], db)
  | o :: os' =>
      let '(o', db1) := flush_delete db o in
      let '(os'', db2) := flush_deletes db1 os' in
      (o' :: os'', db2)
  end.

(** [session.flush()]. *)
Definition flush : M unit := fun s =>
  match flush_saves (s_db s) (s_objs s) with
  | (inl e, db1) => (inl (DBException e), rollback s db1)
  | (inr os, db1) =>
      let '(os', db2) := flush_deletes db1 os in
      (inr tt, set_objs (set_db s db2) os')
  end.

(** [session.commit()]: flush, make the table durable, expire. *)
Definition commit : M unit :=
  flush ;;
  modify (fun s => MkSession (s_db s) (rows (s_db s)) (expire <$> s_objs s)
                             (s_open s) (S (s_commits s))).

(** ** Session operations *)

(** [session.add(o)]: [o] becomes pending; its handle is returned. *)
Definition add (o : obj) : M nat :=
  fun s => (inr (length (s_objs s)), set_objs s (s_objs s ++ [o])).

(** [session.delete(o)]. *)
Definition mark_deleted (o : obj) : obj :=
  match o_status o with
  | Persistent => with_status MarkedDeleted o
  | _ => o
  end.

Definition delete_obj (h : nat) : M unit :=
  modify (fun s => set_objs s (alter mark_deleted h (s_objs s))).

(** [o.price = v] and [o.stock_quantity = n]. *)
Definition set_price (h : nat) (v : price_val) : M unit :=
  modify (fun s => set_objs s (alter (assign_price v) h (s_objs s))).

Definition set_stock_quantity (h : nat) (n : Z) : M unit :=
  modify (fun s => set_objs s (alter (assign_stock n) h (s_objs s))).

(** [session.refresh(o)]: [SELECT ... WHERE id = %s] and reload. *)
Definition refresh (h : nat) : M unit := fun s =>
  match s_objs s !! h with
  | Some o =>
      match o_id o with
      | Some i =>
          match rows (s_db s) !! i with
          | Some r => (inr tt, set_objs s (<[h := load_attrs o r]> (s_objs s)))
          | None => (inl (DBException ObjectDeletedError), s)
          end
      | None => (inl (DBException ObjectDeletedError), s)
      end
  | None => (inl (DBException ObjectDeletedError), s)
  end.

(** Reading an object's attributes; expired ones are reloaded first. *)
Definition get_attrs (h : nat) : M obj := fun s =>
  match s_objs s !! h with
  | Some o => if o_expired o then (refresh h ;; gets (fun s' => default o (s_objs s' !! h))) s
              else (inr o, s)
  | None => (inl (DBException ObjectDeletedError), s)
  end.

(** A row a query returned, through the identity map: the object
    already held for its id, reloaded if expired, or a new one. *)
Definition load_row (r : Product) : M nat := fun s =>
  match list_find (fun o => o_id o = Some (id r)) (s_objs s) with
  | Some (h, o) =>
      (inr h, if o_expired o then set_objs s (<[h := load_attrs o r]> (s_objs s)) else s)
  | None => (inr (length (s_objs s)), set_objs s (s_objs s ++ [obj_of_row r]))
  end.

Fixpoint load_rows (rs : list Product) : M (list nat) :=
  match rs with
  | [] => mret []
  | r :: rs' => let* h := load_row r in let* hs := load_rows rs' in mret (h :: hs)
  end.

(** [db.query(Product).filter(Product.product_name == name).first()]. *)
Definition query_first_by_name (name : pystr) : M (option nat) :=
  flush ;;
  let* db := gets s_db in
  let* o := lift_db (select_by_name db name) in
  match o with
  | None => mret None
  | Some r => let* h := load_row r in mret (Some h)
  end.

(** [db.query(Product).filter(Product.id == product_id).first()]. *)
Definition query_first_by_id (i : Z) : M (option nat) :=
  flush ;;
  let* db := gets s_db in
  match select_by_id db i with
  | None => mret None
  | Some r => let* h := load_row r in mret (Some h)
  end.

(** [db.query(Product).all()]. *)
Definition query_all : M (list nat) :=
  flush ;;
  let* db := gets s_db in
  load_rows (select_all db).

(** ** [get_db] *)

(** [SessionLocal()]. *)
Definition SessionLocal (db : DB) : Session := MkSession db (rows db) [] true 0.

(** [db.close()]: the open transaction is rolled back and the objects
    are released. *)
Definition close (s : Session) : Session :=
  MkSession (MkDB (s_snapshot s) (seq_next (s_db s))) (s_snapshot s) [] false (s_commits s).

(** [get_db] around a handler: [db = SessionLocal(); try: yield db;
    finally: db.close()]. *)
Definition with_session {A} (handler : M A) (db : DB) : (exc + A) * Session :=
  let '(r, s) := handler (SessionLocal db) in (r, close s).

(** The response model read from an object's attributes. *)
Definition to_response (o : obj) : option ProductResponse :=
  match o_id o with
  | Some i => Some (MkProductResponse i (o_product_name o) (o_price o) (o_stock_quantity o))
  | None => None
  end.

Definition respond (h : nat) : M ProductResponse :=
  let* o := get_attrs h in
  match to_response o with
  | Some r => mret r
  | None => raise ResponseValidationError
  end.

(** Unfold the monad and the session operations, so that [simpl]
    runs a handler up to the first statement whose outcome depends on
    the database. *)
Ltac session_unfold :=
  unfold query_first_by_name, query_first_by_id, query_all, respond, get_attrs,
    commit, flush, add, delete_obj, set_price, set_stock_quantity, refresh,
    load_row, to_response, select_by_id, select_all, with_session, SessionLocal, close, rollback,
    set_db, set_objs, lift_db, modify, gets, raise, mret, mbind in *.

(** ** Loading rows through the identity map *)

(** Rows with distinct ids, none already held, become new objects at
    the end of the session, in order. *)
Lemma load_rows_fresh rs s :
  NoDup (id <$> rs) ->
  Forall (fun o => forall r, r ∈ rs -> o_id o <> Some (id r)) (s_objs s) ->
  load_rows rs s =
  (inr (seq (length (s_objs s)) (length rs)), set_objs s (s_objs s ++ (obj_of_row <$> rs))).
Proof.
  revert s. induction rs as [|r rs IH]; intros s Hnd Hfresh.
  - destruct s. simpl. by rewrite app_nil_r.
  - cbn [load_rows]. unfold mbind at 1, load_row.
    rewrite (proj2 (list_find_None _ _)).
    2: { eapply Forall_impl; [done |]. intros o Ho. apply Ho. left. }
    cbn [fmap list_fmap] in Hnd. apply NoDup_cons in Hnd as [Hr Hnd].
    unfold mbind. rewrite IH; [| done |].
    + destruct s. unfold mret, set_objs. simpl.
      by rewrite length_app, <- app_assoc, Nat.add_1_r.
    + simpl. apply Forall_app. split.
      * eapply Forall_impl; [done |]. intros o Ho r' Hr'. apply Ho. by right.
      * constructor; [| done]. intros r' Hr' [= Heq]. apply Hr.
        rewrite Heq. by apply list_elem_of_fmap_2.
Qed.
