(* ===== verification/Proc.v ===== *)
(** * Handlers that can be interrupted between statements

    A handler of [Handlers] runs in one go.  Under concurrency (section
    5 of the spec), a request's session only talks to the database at
    its statements, and other requests may commit in between.  This
    file provides what the model of that needs:

    - equivalence of computations of the session monad [M], pointwise
      on sessions, with [Proper] instances so that [mbind] rewrites
      under it;
    - [proc]: a resumption, a computation that runs up to its next
      database round trip and returns the rest ([Pause]), or has ended
      ([Done]); [exec] runs one without interruption;
    - a compositional judgement [wf_op] that a session operation keeps
      the table invariant, both of the table the transaction sees and
      of the table last committed, with its rules for every operation
      of [Session]; [ext_op], that it issues ids only from the
      sequence ([Models.db_ext]); [rets], what a computation can
      return; and the judgements on clean sessions, exceptions and
      commits that [Concurrency] and [Api] use.

    The hint database [session_ok] and the tactic [session_ok_solve]
    discharge these goals for a handler by its structure. *)

From stdpp Require Import base gmap list.
From Stdlib Require Import ZArith Lia Morphisms.
From S2P Require Import Prelude PyStr SqlTypes Schemas Models Session.

(** ** Definitions *)

#[export] Instance M_equiv {A} : Equiv (M A) := fun m1 m2 => forall s, m1 s = m2 s.

(** ** Resumptions *)

#[warnings="-register-all"]
Inductive proc (A : Type) : Type :=
| Done (a : A)
| Pause (k : M (proc A)).
Arguments Done {A} a.
Arguments Pause {A} k.

(** Running a resumption to its end in one session. *)
Fixpoint exec {A} (p : proc A) : M A :=
  match p with
  | Done a => mret a
  | Pause k => fun s =>
      match k s with
      | (inr p', s') => exec p' s'
      | (inl e, s') => (inl e, s')
      end
  end.

(** The result of a resumption, mapped. *)
Fixpoint pmap {A B} (f : A -> B) (p : proc A) : proc B :=
  match p with
  | Done a => Done (f a)
  | Pause k => Pause (fun s =>
      match k s with
      | (inr p', s') => (inr (pmap f p'), s')
      | (inl e, s') => (inl e, s')
      end)
  end.

(** ** Preservation of the invariant *)

(** The invariant of a session: the table its transaction sees and the
    table it would leave if it ended now ([close]) are well formed. *)
Definition session_ok (s : Session) : Prop := table_wf (s_db s) /\ table_wf (s_db (close s)).

Definition wf_op {A} (m : M A) : Prop := forall s, session_ok s -> session_ok (m s).2.

(** An operation that only changes the session's objects. *)
Definition keeps_table {A} (m : M A) : Prop :=
  forall s, s_db (m s).2 = s_db s /\ s_snapshot (m s).2 = s_snapshot s.

(** What a computation can return. *)
Definition rets {A} (m : M A) (P : A -> Prop) : Prop :=
  forall s a s', m s = (inr a, s') -> P a.

(** Every step of the resumption keeps the invariant. *)
Inductive proc_ok {A} : proc A -> Prop :=
| proc_ok_done a : proc_ok (Done a)
| proc_ok_pause k :
    wf_op k -> (forall s p s', k s = (inr p, s') -> proc_ok p) -> proc_ok (Pause k).

(** The resumption ends after at most [n] more steps. *)
Inductive bounded {A} : nat -> proc A -> Prop :=
| bounded_done n a : bounded n (Done a)
| bounded_pause n k :
    (forall s p s', k s = (inr p, s') -> bounded n p) -> bounded (S n) (Pause k).

(** A session with no uncommitted change: what it sees is what it
    committed, or what was committed when it began. *)
Definition clean (s : Session) : Prop := s_snapshot s = rows (s_db s).

(** An operation that leaves a clean session clean when it succeeds. *)
Definition stable_op {A} (m : M A) : Prop :=
  forall s a s', clean s -> m s = (inr a, s') -> clean s'.

(** The same, for the first operation of a session, which holds no
    objects yet. *)
Definition fresh_stable {A} (m : M A) : Prop :=
  forall s a s', clean s -> s_objs s = [] -> m s = (inr a, s') -> clean s'.

(** Every pause of the resumption leaves a clean session. *)
Inductive proc_stable {A} : proc A -> Prop :=
| proc_stable_done a : proc_stable (Done a)
| proc_stable_pause k : stable_op k -> rets k proc_stable -> proc_stable (Pause k).

(** A resumption started in a fresh session pauses only on clean ones. *)
Definition proc_fresh {A} (p : proc A) : Prop :=
  match p with
  | Done _ => True
  | Pause k => fresh_stable k /\ rets k proc_stable
  end.

(** What a computation can raise. *)
Definition raises {A} (m : M A) (P : exc -> Prop) : Prop :=
  forall s e s', m s = (inl e, s') -> P e.

(** Every step of the resumption raises only exceptions of [P]. *)
Inductive proc_raises {A} (P : exc -> Prop) : proc A -> Prop :=
| proc_raises_done a : proc_raises P (Done a)
| proc_raises_pause k :
    raises k P -> (forall s p s', k s = (inr p, s') -> proc_raises P p) -> proc_raises P (Pause k).

(** An exception that is not an [HTTPException]: the driver's, the
    database's, the ORM's or the response model's. *)
Definition internal (e : exc) : Prop :=
  match e with HTTPException _ _ => False | _ => True end.

(** The computation commits at most [n] times. *)
Definition commits_le {A} (m : M A) (n : nat) : Prop :=
  forall s, s_commits (m s).2 <= s_commits s + n.

(** The tables a session sees and would leave come after [d]
    ([Models.db_ext]): no id issued before [d] comes back. *)
Definition session_from (d : DB) (s : Session) : Prop :=
  db_ext d (s_db s) /\ db_ext d (s_db (close s)).

Definition ext_op {A} (m : M A) : Prop :=
  forall d s, session_from d s -> session_from d (m s).2.

(** Every step of the resumption issues ids only from the sequence. *)
Inductive proc_ext {A} : proc A -> Prop :=
| proc_ext_done a : proc_ext (Done a)
| proc_ext_pause k :
    ext_op k -> (forall s p s', k s = (inr p, s') -> proc_ext p) -> proc_ext (Pause k).

Create HintDb session_ok discriminated.


(** ** Equivalence of computations *)

#[export] Instance M_equivalence {A} : Equivalence (≡@{M A}).
Proof. split; repeat intro; congruence. Qed.

#[export] Instance mbind_proper {A B} :
  Proper ((≡) ==> pointwise_relation A (≡) ==> (≡)) (@mbind A B).
Proof.
  intros m1 m2 Hm k1 k2 Hk s. unfold mbind. rewrite Hm.
  destruct (m2 s) as [[e | a] s']; [done | apply Hk].
Qed.

Lemma mbind_ext {A B} (m1 m2 : M A) (k1 k2 : A -> M B) :
  m1 ≡ m2 -> (forall a, k1 a ≡ k2 a) -> mbind m1 k1 ≡ mbind m2 k2.
Proof. intros Hm Hk. by apply mbind_proper. Qed.

Lemma mbind_assoc {A B C} (m : M A) (k : A -> M B) (h : B -> M C) :
  mbind (mbind m k) h ≡ mbind m (fun a => mbind (k a) h).
Proof. intros s. unfold mbind. by destruct (m s) as [[e | a] s']. Qed.

Lemma mbind_mret_l {A B} (a : A) (k : A -> M B) : mbind (mret a) k ≡ k a.
Proof. done. Qed.

Lemma mbind_mret_r {A} (m : M A) : mbind m mret ≡ m.
Proof. intros s. unfold mbind. by destruct (m s) as [[e | a] s']. Qed.

Lemma mbind_raise_l {A B} e (k : A -> M B) : mbind (raise e) k ≡ raise e.
Proof. done. Qed.

Lemma exec_pause_ext {A} (k1 k2 : M (proc A)) : k1 ≡ k2 -> exec (Pause k1) ≡ exec (Pause k2).
Proof. intros Hk s. simpl. by rewrite Hk. Qed.

Lemma exec_pause_bind {A B} (m : M A) (k : A -> M (proc B)) :
  exec (Pause (mbind m k)) ≡ mbind m (fun a => exec (Pause (k a))).
Proof. intros s. simpl. unfold mbind. by destruct (m s) as [[e | a] s']. Qed.

Lemma exec_pause_ret {A} (p : proc A) : exec (Pause (mret p)) ≡ exec p.
Proof. done. Qed.

Lemma exec_pause_raise {A} e : exec (Pause (A := A) (raise e)) ≡ raise e.
Proof. done. Qed.

Lemma exec_done {A} (a : A) : exec (Done a) ≡ mret a.
Proof. done. Qed.

Lemma exec_pmap {A B} (f : A -> B) p : exec (pmap f p) ≡ mbind (exec p) (fun a => mret (f a)).
Proof.
  revert p. fix IH 1. intros [a | k] s; simpl; [done |].
  unfold mbind. destruct (k s) as [[e | p] s']; simpl; [done |]. apply IH.
Qed.

(** ** The unit of work keeps the table invariant *)

Lemma flush_save_wf db o :
  table_wf db ->
  table_wf (flush_save db o).2 /\ (seq_next db <= seq_next (flush_save db o).2)%Z.
Proof.
  intros Hwf. unfold flush_save.
  destruct (o_status o); [| destruct (o_id o) as [i|] | ..]; try (simpl; split; [done | lia]).
  - pose proof (insert_product_wf db (o_product_name o) (o_price o) (o_stock_quantity o) Hwf).
    pose proof (insert_product_seq db (o_product_name o) (o_price o) (o_stock_quantity o)).
    by destruct (insert_product _ _ _ _) as [[e | r] db'].
  - destruct (attr_added _ _ _) as [p0|], (attr_added _ _ _) as [q0|];
      try (simpl; split; [done | lia]).
    all: match goal with |- context [update_product_row ?d ?j ?p ?q] =>
      pose proof (update_product_row_wf d j p q ltac:(assumption));
      pose proof (update_product_row_seq d j p q) end.
    all: destruct (update_product_row _ _ _ _) as [[e | r] db']; simpl in *; split; done || lia.
Qed.

Lemma flush_saves_wf db os :
  table_wf db ->
  table_wf (flush_saves db os).2 /\ (seq_next db <= seq_next (flush_saves db os).2)%Z.
Proof.
  revert db. induction os as [| o os IH]; intros db Hwf; simpl; [split; [done | lia] |].
  destruct (flush_save_wf db o Hwf) as [Hwf1 Hs1].
  destruct (flush_save db o) as [[e | o'] db1]; simpl in *; [split; [done | lia] |].
  destruct (IH db1 Hwf1) as [Hwf2 Hs2].
  destruct (flush_saves db1 os) as [[e | os'] db2]; simpl in *; split; done || lia.
Qed.

Lemma flush_deletes_wf db os :
  table_wf db ->
  table_wf (flush_deletes db os).2 /\ seq_next (flush_deletes db os).2 = seq_next db.
Proof.
  revert db. induction os as [| o os IH]; intros db Hwf; simpl; [done |].
  assert (table_wf (flush_delete db o).2 /\ seq_next (flush_delete db o).2 = seq_next db)
    as [Hwf1 Hs1].
  { unfold flush_delete. destruct (o_status o), (o_id o); try done. split; [by apply wf_delete | done]. }
  destruct (flush_delete db o) as [o' db1]. simpl in *.
  destruct (IH db1 Hwf1) as [Hwf2 Hs2].
  destruct (flush_deletes db1 os) as [os' db2]. simpl in *. split; [done | congruence].
Qed.

(** ** Operations that keep the invariant *)

Lemma keeps_table_wf_op {A} (m : M A) : keeps_table m -> wf_op m.
Proof.
  intros Hm s [Hdb Hcl]. destruct (Hm s) as [Hd Hs].
  unfold session_ok, close in *; simpl in *. by rewrite Hd, Hs.
Qed.

Lemma wf_op_bind {A B} (m : M A) (k : A -> M B) :
  wf_op m -> (forall a, wf_op (k a)) -> wf_op (mbind m k).
Proof.
  intros Hm Hk s Hs. unfold mbind. specialize (Hm s Hs).
  destruct (m s) as [[e | a] s']; [done |]. by apply Hk.
Qed.

Lemma keeps_table_bind {A B} (m : M A) (k : A -> M B) :
  keeps_table m -> (forall a, keeps_table (k a)) -> keeps_table (mbind m k).
Proof.
  intros Hm Hk s. unfold mbind. specialize (Hm s).
  destruct (m s) as [[e | a] s']; [done |]. simpl in Hm.
  destruct (Hk a s') as [H1 H2], Hm as [H3 H4]. split; congruence.
Qed.

Lemma rets_bind {A B} (m : M A) (k : A -> M B) P :
  (forall a, rets (k a) P) -> rets (mbind m k) P.
Proof.
  intros Hk s b s'. unfold mbind. destruct (m s) as [[e | a] s1]; [done |]. apply Hk.
Qed.

Lemma keeps_table_ret {A} (a : A) : keeps_table (mret a).
Proof. done. Qed.
Lemma keeps_table_raise {A} e : keeps_table (A := A) (raise e).
Proof. done. Qed.
Lemma keeps_table_gets {A} (f : Session -> A) : keeps_table (gets f).
Proof. done. Qed.
Lemma keeps_table_lift_db {A} (r : db_error + A) : keeps_table (lift_db r).
Proof. by destruct r. Qed.
Lemma rets_ret {A} (a : A) (P : A -> Prop) : P a -> rets (mret a) P.
Proof. by intros ? s ? ? [= <- _]. Qed.
Lemma rets_raise {A} e (P : A -> Prop) : rets (raise e) P.
Proof. done. Qed.

#[export] Hint Resolve keeps_table_ret keeps_table_raise keeps_table_gets
  keeps_table_lift_db rets_ret rets_raise : session_ok.

(** ** The operations of the session *)

Lemma wf_op_flush : wf_op flush.
Proof.
  intros s [Hdb Hcl]. unfold flush.
  destruct (flush_saves_wf (s_db s) (s_objs s) Hdb) as [Hwf1 Hs1].
  destruct (flush_saves (s_db s) (s_objs s)) as [[e | os] db1]; simpl in *.
  - assert (table_wf (MkDB (s_snapshot s) (seq_next db1))) as Hr by
      (apply (wf_seq_mono _ _ Hcl); simpl; lia).
    by split.
  - destruct (flush_deletes_wf db1 os Hwf1) as [Hwf2 Hs2].
    destruct (flush_deletes db1 os) as [os' db2]. simpl in *. split; [done |].
    unfold close; simpl. apply (wf_seq_mono _ _ Hcl); simpl; lia.
Qed.

Lemma wf_op_commit : wf_op commit.
Proof.
  apply wf_op_bind; [apply wf_op_flush |]. intros _ s [Hdb _].
  unfold modify, session_ok, close; simpl. by destruct (s_db s).
Qed.

(** ** The unit of work issues ids only from the sequence *)

Lemma flush_save_ext db o : db_ext db (flush_save db o).2.
Proof.
  unfold flush_save.
  destruct (o_status o); [| destruct (o_id o) as [i|] | ..]; try apply db_ext_refl.
  - pose proof (insert_product_ext db (o_product_name o) (o_price o) (o_stock_quantity o)).
    by destruct (insert_product _ _ _ _) as [[e | r] db'].
  - destruct (attr_added _ _ _) as [p0|], (attr_added _ _ _) as [q0|];
      try apply db_ext_refl.
    all: match goal with |- context [update_product_row ?d ?j ?p ?q] =>
      pose proof (update_product_row_ext d j p q) end.
    all: by destruct (update_product_row _ _ _ _) as [[e | r] db'].
Qed.

Lemma flush_saves_ext db os : db_ext db (flush_saves db os).2.
Proof.
  revert db. induction os as [| o os IH]; intros db; simpl; [apply db_ext_refl |].
  pose proof (flush_save_ext db o) as H1.
  destruct (flush_save db o) as [[e | o'] db1]; simpl in *; [done |].
  pose proof (IH db1) as H2. destruct (flush_saves db1 os) as [[e | os'] db2]; simpl in *;
    by eapply db_ext_trans.
Qed.

Lemma flush_deletes_ext db os : db_ext db (flush_deletes db os).2.
Proof.
  revert db. induction os as [| o os IH]; intros db; simpl; [apply db_ext_refl |].
  assert (db_ext db (flush_delete db o).2) as H1.
  { unfold flush_delete. destruct (o_status o), (o_id o); simpl;
      try apply db_ext_refl; apply delete_product_row_ext. }
  destruct (flush_delete db o) as [o' db1]. pose proof (IH db1) as H2.
  destruct (flush_deletes db1 os) as [os' db2]. simpl in *. by eapply db_ext_trans.
Qed.

(** The table a session would leave, once the sequence has moved on. *)
Lemma db_ext_close_seq d s n :
  db_ext d (s_db (close s)) -> (seq_next (s_db s) <= n)%Z -> db_ext d (MkDB (s_snapshot s) n).
Proof.
  intros H Hn. eapply db_ext_trans; [exact H |]. apply db_ext_rows; [auto | simpl; lia].
Qed.

Lemma keeps_table_ext_op {A} (m : M A) : keeps_table m -> ext_op m.
Proof.
  intros Hm d s [Hdb Hcl]. destruct (Hm s) as [Hd Hs].
  unfold session_from, close in *; simpl in *. by rewrite Hd, Hs.
Qed.

Lemma ext_op_bind {A B} (m : M A) (k : A -> M B) :
  ext_op m -> (forall a, ext_op (k a)) -> ext_op (mbind m k).
Proof.
  intros Hm Hk d s Hs. unfold mbind. specialize (Hm d s Hs).
  destruct (m s) as [[e | a] s']; [done |]. by apply Hk.
Qed.

Lemma ext_op_flush : ext_op flush.
Proof.
  intros d s [Hdb Hcl]. unfold flush.
  pose proof (flush_saves_ext (s_db s) (s_objs s)) as H1.
  destruct (flush_saves (s_db s) (s_objs s)) as [[e | os] db1]; simpl in *.
  - assert (db_ext d (MkDB (s_snapshot s) (seq_next db1))) as Hr.
    { apply (db_ext_close_seq d s); [exact Hcl | exact (proj1 H1)]. }
    by split.
  - pose proof (flush_deletes_ext db1 os) as H2.
    destruct (flush_deletes db1 os) as [os' db2]. simpl in *. split.
    + eapply db_ext_trans; [exact Hdb |]. by eapply db_ext_trans.
    + unfold close; simpl. apply (db_ext_close_seq d s); [done |].
      destruct H1 as [H1 _], H2 as [H2 _]. lia.
Qed.

Lemma ext_op_commit : ext_op commit.
Proof.
  apply ext_op_bind; [apply ext_op_flush |]. intros _ d s [Hdb _].
  unfold modify, session_from, close; simpl. by destruct (s_db s).
Qed.

Lemma keeps_table_set_objs {A} (f : Session -> A) (g : Session -> list obj) :
  keeps_table (fun s => (inr (f s), set_objs s (g s))).
Proof. done. Qed.

Lemma keeps_table_add o : keeps_table (add o).
Proof. apply keeps_table_set_objs. Qed.
Lemma keeps_table_delete_obj h : keeps_table (delete_obj h).
Proof. done. Qed.
Lemma keeps_table_set_price h v : keeps_table (set_price h v).
Proof. done. Qed.
Lemma keeps_table_set_stock_quantity h n : keeps_table (set_stock_quantity h n).
Proof. done. Qed.

Lemma keeps_table_refresh h : keeps_table (refresh h).
Proof.
  intros s. unfold refresh.
  destruct (s_objs s !! h) as [o|]; [destruct (o_id o) as [i|] |]; [| done..].
  by destruct (rows (s_db s) !! i).
Qed.

Lemma keeps_table_get_attrs h : keeps_table (get_attrs h).
Proof.
  intros s. unfold get_attrs. destruct (s_objs s !! h) as [o|]; [| done].
  destruct (o_expired o); [| done].
  apply keeps_table_bind; [apply keeps_table_refresh | intros; apply keeps_table_gets].
Qed.

Lemma keeps_table_load_row r : keeps_table (load_row r).
Proof.
  intros s. unfold load_row.
  destruct (list_find _ _) as [[h o]|]; [| done]. by destruct (o_expired o).
Qed.

Lemma keeps_table_load_rows rs : keeps_table (load_rows rs).
Proof.
  induction rs as [| r rs IH]; simpl; [apply keeps_table_ret |].
  apply keeps_table_bind; [apply keeps_table_load_row | intros h].
  apply keeps_table_bind; [done | intros hs]. apply keeps_table_ret.
Qed.

Lemma keeps_table_respond h : keeps_table (respond h).
Proof.
  apply keeps_table_bind; [apply keeps_table_get_attrs | intros o].
  destruct (to_response o); [apply keeps_table_ret | apply keeps_table_raise].
Qed.

#[export] Hint Resolve wf_op_flush wf_op_commit keeps_table_add keeps_table_delete_obj
  keeps_table_set_price keeps_table_set_stock_quantity keeps_table_refresh
  keeps_table_get_attrs keeps_table_load_row keeps_table_load_rows keeps_table_respond
  keeps_table_wf_op : session_ok.

 

(** ** Resumptions that keep the invariant, and that end *)

Lemma proc_ok_pause_rets {A} (k : M (proc A)) : wf_op k -> rets k proc_ok -> proc_ok (Pause k).
Proof. intros Hk Hr. constructor; [done |]. intros s p s'. apply Hr. Qed.

Lemma bounded_pause_rets {A} n (k : M (proc A)) : rets k (bounded n) -> bounded (S n) (Pause k).
Proof. intros Hr. constructor. intros s p s'. apply Hr. Qed.

Lemma bounded_mono {A} n m (p : proc A) : bounded n p -> n <= m -> bounded m p.
Proof.
  intros Hb. revert m. induction Hb as [n a | n k _ IH]; intros m Hm; [constructor |].
  destruct m as [| m]; [lia |]. constructor. intros s p s' Hk. apply (IH s p s' Hk). lia.
Qed.

(** A step of [pmap f (Pause k)] is a step of [k], its result mapped. *)
Lemma pmap_step_inr {A B} (f : A -> B) (k : M (proc A)) s q s' :
  (match k s with
   | (inr p', s1) => (inr (pmap f p'), s1)
   | (inl e, s1) => (inl e, s1)
   end) = (inr q, s') ->
  exists p, k s = (inr p, s') /\ q = pmap f p.
Proof. destruct (k s) as [[e | p] s1]; intros [=]; subst; eauto. Qed.

Lemma proc_ok_pmap {A B} (f : A -> B) p : proc_ok p -> proc_ok (pmap f p).
Proof.
  induction 1 as [a | k Hk _ IH]; simpl; constructor.
  - intros s Hs. specialize (Hk s Hs). by destruct (k s) as [[e | p] s'].
  - intros s q s' (p & Hp & ->)%pmap_step_inr. by apply (IH s p s').
Qed.

Lemma bounded_pmap {A B} (f : A -> B) n p : bounded n p -> bounded n (pmap f p).
Proof.
  induction 1 as [n a | n k _ IH]; simpl; constructor.
  intros s q s' (p & Hp & ->)%pmap_step_inr. by apply (IH s p s').
Qed.

Lemma proc_ext_pause_rets {A} (k : M (proc A)) : ext_op k -> rets k proc_ext -> proc_ext (Pause k).
Proof. intros Hk Hr. constructor; [done |]. intros s p s'. apply Hr. Qed.

Lemma proc_ext_pmap {A B} (f : A -> B) p : proc_ext p -> proc_ext (pmap f p).
Proof.
  induction 1 as [a | k Hk _ IH]; simpl; constructor.
  - intros d s Hs. specialize (Hk d s Hs). by destruct (k s) as [[e | p] s'].
  - intros s q s' (p & Hp & ->)%pmap_step_inr. by apply (IH s p s').
Qed.

#[export] Hint Resolve proc_ok_pause_rets bounded_pause_rets proc_ok_done bounded_done
  proc_ext_pause_rets proc_ext_done ext_op_flush ext_op_commit keeps_table_ext_op
  : session_ok.

(** ** Clean sessions *)

Lemma clean_close s : clean s -> s_db (close s) = s_db s.
Proof. unfold clean, close; simpl. intros ->. by destruct (s_db s). Qed.

Lemma stable_bind {A B} (m : M A) (k : A -> M B) :
  stable_op m -> (forall a, stable_op (k a)) -> stable_op (mbind m k).
Proof.
  intros Hm Hk s b s' Hs. unfold mbind.
  destruct (m s) as [[e | a] s1] eqn:E; [done |]. apply Hk. by eapply Hm.
Qed.

Lemma fresh_stable_bind {A B} (m : M A) (k : A -> M B) :
  fresh_stable m -> (forall a, stable_op (k a)) -> fresh_stable (mbind m k).
Proof.
  intros Hm Hk s b s' Hs Ho. unfold mbind.
  destruct (m s) as [[e | a] s1] eqn:E; [done |]. apply Hk. by eapply Hm.
Qed.

Lemma keeps_table_stable {A} (m : M A) : keeps_table m -> stable_op m.
Proof.
  intros Hm s a s' Hs E. destruct (Hm s) as [Hd Hsn]. rewrite E in Hd, Hsn.
  unfold clean in *. simpl in *. by rewrite Hd, Hsn.
Qed.

Lemma stable_commit : stable_op commit.
Proof.
  intros s a s' _. unfold commit, mbind, modify.
  destruct (flush s) as [[e | []] s1]; intros [= _ <-]; done.
Qed.

(** [flush] does nothing in a session that holds no objects. *)
Lemma flush_no_objs s : s_objs s = [] -> flush s = (inr tt, s).
Proof. intros Ho. unfold flush. rewrite Ho. simpl. by destruct s; simpl in *; subst. Qed.

Lemma fresh_stable_flush : fresh_stable flush.
Proof. intros s [] s' Hs Ho. rewrite flush_no_objs by done. by intros [= <-]. Qed.

Lemma proc_stable_pmap {A B} (f : A -> B) p : proc_stable p -> proc_stable (pmap f p).
Proof.
  induction 1 as [a | k Hk Hr IH]; simpl; constructor.
  - intros s q s' Hs E. destruct (k s) as [[e | p] s1] eqn:Ek; simplify_eq. by eapply Hk.
  - intros s q s' (p & Hp & ->)%pmap_step_inr. by apply (IH s p s').
Qed.

Lemma proc_fresh_pmap {A B} (f : A -> B) p : proc_fresh p -> proc_fresh (pmap f p).
Proof.
  destruct p as [a | k]; simpl; [done |]. intros [Hk Hr]. split.
  - intros s q s' Hs Ho E. destruct (k s) as [[e | p] s1] eqn:Ek; simplify_eq. by eapply Hk.
  - intros s q s' (p & Hp & ->)%pmap_step_inr. apply proc_stable_pmap. by apply (Hr s p s').
Qed.

#[export] Hint Resolve keeps_table_stable stable_commit fresh_stable_flush proc_stable_done
  : session_ok.

(** Decompose a [wf_op], [keeps_table] or [rets] goal along the binds
    and the case analyses of a handler, and close the leaves with the
    rules above. *)
Ltac session_ok_solve :=
  repeat first
    [ solve [eauto with session_ok]
    | apply wf_op_bind; [| intros ?]
    | apply ext_op_bind; [| intros ?]
    | apply keeps_table_bind; [| intros ?]
    | apply rets_bind; intros ?
    | apply rets_ret
    | apply proc_ok_pause_rets
    | apply proc_ext_pause_rets
    | apply bounded_pause_rets
    | apply stable_bind; [| intros ?]
    | apply fresh_stable_bind; [| intros ?]
    | apply proc_stable_pause
    | match goal with |- context [match ?x with _ => _ end] => destruct x end ].

Lemma wf_op_query_first_by_name name : wf_op (query_first_by_name name).
Proof. unfold query_first_by_name. session_ok_solve. Qed.

Lemma wf_op_query_first_by_id i : wf_op (query_first_by_id i).
Proof. unfold query_first_by_id. session_ok_solve. Qed.

Lemma wf_op_query_all : wf_op query_all.
Proof. unfold query_all. session_ok_solve. Qed.

Lemma ext_op_query_first_by_name name : ext_op (query_first_by_name name).
Proof. unfold query_first_by_name. session_ok_solve. Qed.

Lemma ext_op_query_first_by_id i : ext_op (query_first_by_id i).
Proof. unfold query_first_by_id. session_ok_solve. Qed.

Lemma ext_op_query_all : ext_op query_all.
Proof. unfold query_all. session_ok_solve. Qed.

#[export] Hint Resolve wf_op_query_first_by_name wf_op_query_first_by_id wf_op_query_all
  ext_op_query_first_by_name ext_op_query_first_by_id ext_op_query_all
  : session_ok.

(** ** What the session operations raise *)

Lemma raises_bind {A B} (m : M A) (k : A -> M B) P :
  raises m P -> (forall a, raises (k a) P) -> raises (mbind m k) P.
Proof.
  intros Hm Hk s e s'. unfold mbind.
  destruct (m s) as [[e' | a] s1] eqn:E; [intros [= <- _]; by eapply Hm | apply Hk].
Qed.

Lemma raises_ret {A} (a : A) P : raises (mret a) P.
Proof. done. Qed.

Lemma raises_raise {A} e (P : exc -> Prop) : P e -> raises (A := A) (raise e) P.
Proof. by intros ? s ? ? [= <- _]. Qed.

Lemma raises_weaken {A} (m : M A) (P Q : exc -> Prop) :
  raises m P -> (forall e, P e -> Q e) -> raises m Q.
Proof. intros Hm HPQ s e s' E. apply HPQ. by eapply Hm. Qed.

Lemma raises_lift_db {A} (r : db_error + A) : raises (lift_db r) internal.
Proof. destruct r; [by apply raises_raise | apply raises_ret]. Qed.

Lemma raises_flush : raises flush internal.
Proof.
  intros s e s'. unfold flush. destruct (flush_saves _ _) as [[e' | os] db1]; [by intros [= <- _] |].
  by destruct (flush_deletes db1 os).
Qed.

Lemma raises_refresh h : raises (refresh h) internal.
Proof.
  intros s e s'. unfold refresh.
  destruct (s_objs s !! h) as [o|]; [destruct (o_id o) as [i|] |]; [| by intros [= <- _]..].
  destruct (rows (s_db s) !! i); by intros [= <- _].
Qed.

Lemma raises_get_attrs h : raises (get_attrs h) internal.
Proof.
  intros s e s'. unfold get_attrs. destruct (s_objs s !! h) as [o|]; [| by intros [= <- _]].
  destruct (o_expired o); [| done]. intros E.
  eapply (raises_bind _ _ internal); [apply raises_refresh | | exact E].
  intros a s1 e1 s2. unfold gets. congruence.
Qed.

Lemma raises_load_row r P : raises (load_row r) P.
Proof. intros s e s'. unfold load_row. by destruct (list_find _ _) as [[h o]|]. Qed.

Lemma raises_load_rows rs : raises (load_rows rs) internal.
Proof.
  induction rs as [| r rs IH]; simpl; [apply raises_ret |].
  apply raises_bind; [apply raises_load_row | intros h].
  apply raises_bind; [done | intros; apply raises_ret].
Qed.

Lemma raises_no_exc {A} (m : M A) P : (forall s, exists a s', m s = (inr a, s')) -> raises m P.
Proof. intros Hm s e s' E. destruct (Hm s) as (a & s1 & E'). congruence. Qed.

Lemma raises_modify f P : raises (modify f) P.
Proof. done. Qed.

Lemma raises_commit : raises commit internal.
Proof. apply raises_bind; [apply raises_flush | intros; apply raises_modify]. Qed.

Lemma raises_respond h : raises (respond h) internal.
Proof.
  apply raises_bind; [apply raises_get_attrs | intros o].
  destruct (to_response o); [apply raises_ret | by apply raises_raise].
Qed.

#[export] Hint Resolve raises_lift_db raises_flush raises_refresh raises_get_attrs
  raises_load_rows raises_commit raises_respond raises_ret raises_modify raises_load_row : session_ok.

(** Decompose a [raises] goal along the binds and the case analyses
    of a handler; a session operation raises only [internal]
    exceptions, which the goal's predicate must allow. *)
Ltac raises_solve :=
  repeat first
    [ apply raises_ret
    | apply raises_load_row
    | apply raises_raise; simpl; tauto
    | apply raises_bind; [| intros ?]
    | apply raises_no_exc; intros ?; eexists _, _; reflexivity
    | eapply raises_weaken; [solve [eauto with session_ok] | intros [] ?; simpl in *; tauto]
    | match goal with |- context [match ?x with _ => _ end] => destruct x end ].

Lemma proc_raises_pause_rets {A} P (k : M (proc A)) :
  raises k P -> rets k (proc_raises P) -> proc_raises P (Pause k).
Proof. intros Hk Hr. constructor; [done |]. intros s p s'. apply Hr. Qed.

Lemma proc_raises_pmap {A B} (f : A -> B) P p : proc_raises P p -> proc_raises P (pmap f p).
Proof.
  induction 1 as [a | k Hk _ IH]; simpl; constructor.
  - intros s e s' E. destruct (k s) as [[e' | p] s1] eqn:Ek; simplify_eq. by eapply Hk.
  - intros s q s' (p & Hp & ->)%pmap_step_inr. by apply (IH s p s').
Qed.

#[export] Hint Resolve proc_raises_done : session_ok.

(** ** Commits *)

Lemma commits_bind0 {A B} (m : M A) (k : A -> M B) n :
  commits_le m 0 -> (forall a, commits_le (k a) n) -> commits_le (mbind m k) n.
Proof.
  intros Hm Hk s. unfold mbind. specialize (Hm s).
  destruct (m s) as [[e | a] s'] eqn:E; simpl in *; [lia |]. specialize (Hk a s'). lia.
Qed.

Lemma commits_bind1 {A B} (m : M A) (k : A -> M B) :
  commits_le m 1 -> (forall a, commits_le (k a) 0) -> commits_le (mbind m k) 1.
Proof.
  intros Hm Hk s. unfold mbind. specialize (Hm s).
  destruct (m s) as [[e | a] s'] eqn:E; simpl in *; [lia |]. specialize (Hk a s'). lia.
Qed.

Lemma commits_weaken {A} (m : M A) n : commits_le m 0 -> commits_le m n.
Proof. intros Hm s. specialize (Hm s). lia. Qed.

Lemma commits_set_objs {A} (f : Session -> A) (g : Session -> list obj) :
  commits_le (fun s => (inr (f s), set_objs s (g s))) 0.
Proof. intros s. simpl. lia. Qed.

Lemma commits_flush : commits_le flush 0.
Proof.
  intros s. unfold flush. destruct (flush_saves _ _) as [[e | os] db1]; simpl; [lia |].
  destruct (flush_deletes db1 os); simpl; lia.
Qed.

Lemma commits_commit : commits_le commit 1.
Proof.
  apply commits_bind0; [apply commits_flush |]. intros _ s. simpl. lia.
Qed.

Lemma commits_keeps {A} (m : M A) :
  (forall s, s_commits (m s).2 = s_commits s) -> commits_le m 0.
Proof. intros Hm s. rewrite Hm. lia. Qed.

Lemma commits_refresh h : commits_le (refresh h) 0.
Proof.
  apply commits_keeps. intros s. unfold refresh.
  destruct (s_objs s !! h) as [o|]; [destruct (o_id o) as [i|] |]; [| done..].
  by destruct (rows (s_db s) !! i).
Qed.

Lemma commits_get_attrs h : commits_le (get_attrs h) 0.
Proof.
  intros s. unfold get_attrs. destruct (s_objs s !! h) as [o|]; simpl; [| lia].
  destruct (o_expired o); simpl; [| lia].
  apply commits_bind0; [apply commits_refresh | intros; intros s'; simpl; lia].
Qed.

Lemma commits_load_row r : commits_le (load_row r) 0.
Proof.
  apply commits_keeps. intros s. unfold load_row.
  destruct (list_find _ _) as [[h o]|]; [by destruct (o_expired o) | done].
Qed.

Lemma commits_ret {A} (a : A) n : commits_le (mret a) n.
Proof. intros s. simpl. lia. Qed.
Lemma commits_raise {A} e n : commits_le (A := A) (raise e) n.
Proof. intros s. simpl. lia. Qed.
Lemma commits_gets {A} (f : Session -> A) n : commits_le (gets f) n.
Proof. intros s. simpl. lia. Qed.
Lemma commits_modify_objs f n : commits_le (modify (fun s => set_objs s (f s))) n.
Proof. intros s. simpl. lia. Qed.
Lemma commits_lift_db {A} (r : db_error + A) n : commits_le (lift_db r) n.
Proof. destruct r; [apply commits_raise | apply commits_ret]. Qed.

Lemma commits_add o : commits_le (add o) 0.
Proof. apply commits_set_objs. Qed.
Lemma commits_delete_obj h : commits_le (delete_obj h) 0.
Proof. apply commits_modify_objs. Qed.
Lemma commits_set_price h v : commits_le (set_price h v) 0.
Proof. apply commits_modify_objs. Qed.
Lemma commits_set_stock_quantity h n : commits_le (set_stock_quantity h n) 0.
Proof. apply commits_modify_objs. Qed.

Lemma commits_respond h : commits_le (respond h) 0.
Proof.
  apply commits_bind0; [apply commits_get_attrs | intros o].
  destruct (to_response o); [apply commits_ret | apply commits_raise].
Qed.

Lemma commits_load_rows rs : commits_le (load_rows rs) 0.
Proof.
  induction rs as [| r rs IH]; simpl; [apply commits_ret |].
  apply commits_bind0; [apply commits_load_row | intros h].
  apply commits_bind0; [done | intros; apply commits_ret].
Qed.

#[export] Hint Resolve commits_add commits_delete_obj commits_set_price
  commits_set_stock_quantity commits_respond commits_load_rows : session_ok.

#[export] Hint Resolve commits_flush commits_commit commits_refresh commits_get_attrs
  commits_load_row commits_ret commits_raise commits_gets commits_modify_objs
  commits_lift_db : session_ok.

(** Count the commits of a handler along its binds: an operation that
    does not commit, then the rest; or the one commit, then nothing
    that commits. *)
Ltac commits_solve :=
  repeat first
    [ solve [eauto with session_ok]
    | apply commits_bind0; [solve [commits_solve] | intros ?]
    | apply commits_bind1; [solve [eauto with session_ok] | intros ?]
    | match goal with |- context [match ?x with _ => _ end] => destruct x end
    | match goal with
      | |- commits_le _ 0 => fail 1
      | |- commits_le _ _ => apply commits_weaken
      end ].
