(* ===== verification/Handlers.v ===== *)
(** * The request handlers: [src/main.py]

    Each handler is a computation in the session monad of [Session],
    written as the Python function is: the same queries, the same
    early [raise HTTPException(...)], the same [add], attribute
    assignments, [delete], [commit] and [refresh], in the same order.
    [run h db] runs [h] inside [get_db] on the database [db] and
    returns its outcome with the database as the request leaves it.

    The theorems reduce each handler, on every branch, to the SQL
    statements of [Models] it performs; from these follow the spec's
    testable properties (section 8) and the preservation of the table
    invariant by every handler. *)

From stdpp Require Import base gmap list.
From Stdlib Require Import ZArith Lia.
From S2P Require Import Prelude PyStr SqlTypes Schemas Models Session.

Open Scope session_scope.

(** The columns the flush of [update_product] sends for a row [r]
    loaded by the handler: the payload's value of an attribute unless
    it is [==] to the loaded one. *)
Definition price_change (r : Product) (p : option float_repr) : option price_val :=
  p ≫= fun x => attr_added py_price_eqb (Modified (Some (PyDecimal (price r)))) (PyFloat x).

Definition stock_change (r : Product) (q : option Z) : option Z :=
  q ≫= fun n => attr_added Z.eqb (Modified (Some (stock_quantity r))) n.

(** The flush of the object [update_product] loaded from row [r]
    and assigned the payload's [p] and [q]: no statement when no
    column changed, else the [UPDATE] of the changed ones. *)
Definition flush_update (db : DB) (i : Z) (r : Product) (p : option float_repr)
    (q : option Z) : (db_error + Product) * DB :=
  match price_change r p, stock_change r q with
  | None, None => (inr r, db)
  | p', q' => update_product_row db i p' q'
  end.

(** The two [{"message": ...}] bodies. *)
Inductive message := ApiRunning | ProductDeletedSuccessfully.

#[export] Instance message_eq_dec : EqDecision message.
Proof. solve_decision. Defined.

(** [GET /]: [home]. *)
Definition home : M message := mret ApiRunning.

(** [POST /products]: [create_product]. *)
Definition create_product (product : ProductCreate) : M ProductResponse :=
  let* existing := query_first_by_name (pc_product_name product) in
  match existing with
  | Some _ => raise (HTTPException 400 ProductAlreadyExists)
  | None =>
      let* new_product := add (new_product (strip (pc_product_name product))
                                           (PyFloat (pc_price product))
                                           (pc_stock_quantity product)) in
      commit ;;
      refresh new_product ;;
      respond new_product
  end.

(** The [List[ProductResponse]] of [get_products], object by object. *)
Fixpoint respond_all (hs : list nat) : M (list ProductResponse) :=
  match hs with
  | [] => mret []
  | h :: hs' => let* r := respond h in let* rs := respond_all hs' in mret (r :: rs)
  end.

(** [GET /products]: [get_products]. *)
Definition get_products : M (list ProductResponse) :=
  let* products := query_all in
  respond_all products.

(** [GET /products/{product_id}]: [get_product]. *)
Definition get_product (product_id : Z) : M ProductResponse :=
  let* product := query_first_by_id product_id in
  match product with
  | None => raise (HTTPException 404 ProductNotFound)
  | Some h => respond h
  end.

(** [PATCH /products/{product_id}]: [update_product]. *)
Definition update_product (product_id : Z) (product_data : ProductUpdate) : M ProductResponse :=
  let* product := query_first_by_id product_id in
  match product with
  | None => raise (HTTPException 404 ProductNotFound)
  | Some h =>
      match pu_price product_data with
      | Some p => set_price h (PyFloat p)
      | None => mret tt
      end ;;
      match pu_stock_quantity product_data with
      | Some n => set_stock_quantity h n
      | None => mret tt
      end ;;
      commit ;;
      refresh h ;;
      respond h
  end.

(** [DELETE /products/{product_id}]: [delete_product]. *)
Definition delete_product (product_id : Z) : M message :=
  let* product := query_first_by_id product_id in
  match product with
  | None => raise (HTTPException 404 ProductNotFound)
  | Some h =>
      delete_obj h ;;
      commit ;;
      mret ProductDeletedSuccessfully
  end.

(** A handler inside [get_db]: its outcome and the database afterwards. *)
Definition run {A} (handler : M A) (db : DB) : (exc + A) * DB :=
  let '(r, s) := with_session handler db in (r, s_db s).

(** The response of a stored row. *)
Definition response_of_row (r : Product) : ProductResponse :=
  MkProductResponse (id r) (product_name r) (PyDecimal (price r)) (stock_quantity r).

(** The spec's example product (section 8): "Widget" at 9.99 with 10
    in stock, the state after it was created, and a body naming it. *)
Definition widget : pystr := [87; 105; 100; 103; 101; 116]%Z.

Definition widget_body : create_body :=
  CreateBody (Given widget) (Given (FloatRepr 999 (-2))) (Given 10%Z).

Definition widget_pc : ProductCreate := MkProductCreate widget (FloatRepr 999 (-2)) 10.

Definition widget_db : DB := (run (create_product widget_pc) empty_db).2.

(** ** Handler specifications *)

Theorem get_product_spec db i :
  run (get_product i) db =
  match rows db !! i with
  | None => (inl (HTTPException 404 ProductNotFound), db)
  | Some r => (inr (response_of_row r), db)
  end.
Proof.
  destruct db as [t n]. unfold run, get_product. session_unfold. simpl.
  destruct (t !! i) as [r|] eqn:Hr; simpl.
  - reflexivity.
  - reflexivity.
Qed.

Theorem create_product_spec db pc :
  run (create_product pc) db =
  match select_by_name db (pc_product_name pc) with
  | inl e => (inl (DBException e), db)
  | inr (Some _) => (inl (HTTPException 400 ProductAlreadyExists), db)
  | inr None =>
      match insert_product db (strip (pc_product_name pc)) (PyFloat (pc_price pc))
                           (pc_stock_quantity pc) with
      | (inl e, db') => (inl (DBException e), MkDB (rows db) (seq_next db'))
      | (inr r, db') => (inr (response_of_row r), db')
      end
  end.
Proof.
  destruct db as [t n]. unfold run, create_product. session_unfold. simpl.
  destruct (select_by_name _ _) as [e | [r0|]] eqn:Hs; simpl; [done | done |].
  unfold flush_save, new_product. simpl.
  destruct (insert_product _ _ _ _) as [[e | r] db1] eqn:Hi; simpl; [done |].
  apply insert_product_inr in Hi as (-> & -> & _). simpl.
  by rewrite lookup_insert_eq.
Qed.

Theorem delete_product_spec db i :
  table_wf db ->
  run (delete_product i) db =
  match rows db !! i with
  | None => (inl (HTTPException 404 ProductNotFound), db)
  | Some _ => (inr ProductDeletedSuccessfully, delete_product_row db i)
  end.
Proof.
  intros Hwf. destruct (rows db !! i) as [r|] eqn:Hr;
    [pose proof (wf_lookup_id _ _ _ Hwf Hr) as Hid |];
    destruct db as [t n]; unfold run, delete_product; session_unfold; simpl in *;
    rewrite Hr; simpl; [| done].
  unfold flush_save, flush_delete, mark_deleted, with_status. simpl.
  by rewrite Hid.
Qed.

Theorem update_product_spec db i pu :
  table_wf db ->
  run (update_product i pu) db =
  match rows db !! i with
  | None => (inl (HTTPException 404 ProductNotFound), db)
  | Some r =>
      match flush_update db i r (pu_price pu) (pu_stock_quantity pu) with
      | (inl e, _) => (inl (DBException e), db)
      | (inr r', db') => (inr (response_of_row r'), db')
      end
  end.
Proof.
  intros Hwf. destruct (rows db !! i) as [r|] eqn:Hr;
    [pose proof (wf_lookup_id _ _ _ Hwf Hr) as Hid |];
    destruct db as [t n]; unfold run, update_product; session_unfold; simpl in *;
    rewrite Hr; simpl; [| done].
  destruct pu as [[p|] [q|]]; unfold flush_update, price_change, stock_change;
    simpl; unfold flush_save; simpl; rewrite Hid;
    [destruct (float_eq_decimal p (price r)), (q =? stock_quantity r)%Z
    | destruct (float_eq_decimal p (price r))
    | destruct (q =? stock_quantity r)%Z | ]; simpl; try by rewrite Hr.
  all: destruct (update_product_row _ _ _ _) as [[e | r'] db'] eqn:Hu; simpl;
    [apply update_product_row_inl in Hu; by subst db' |].
  all: apply update_product_row_inr in Hu as (r0 & c & m & Hr0 & _ & -> & ->); simpl.
  all: by rewrite lookup_insert_eq.
Qed.

(** A price the flush leaves out is the one the row holds already. *)
Lemma price_change_default r p :
  default (price r) (price_cents <$> price_change r p) = default (price r) (to_cents <$> p).
Proof.
  destruct p as [x|]; [| done]. unfold price_change; simpl.
  destruct (float_eq_decimal x (price r)) eqn:He; [| done].
  symmetry. by apply (py_price_eqb_cents (PyFloat x)).
Qed.

Lemma stock_change_default r q :
  default (stock_quantity r) (stock_change r q) = default (stock_quantity r) q.
Proof.
  destruct q as [m|]; [| done]. unfold stock_change; simpl.
  by destruct (Z.eqb_spec m (stock_quantity r)) as [-> |].
Qed.

(** A price that does not round to the stored one is sent. *)
Lemma price_change_Some r x :
  to_cents x <> price r -> price_change r (Some x) = Some (PyFloat x).
Proof.
  intros Hne. unfold price_change; simpl.
  destruct (float_eq_decimal x (price r)) eqn:He; [| done].
  by apply (py_price_eqb_cents (PyFloat x)) in He.
Qed.

(** Leaving out the unchanged columns changes neither the outcome
    nor the row: [flush_update] is the [UPDATE] of every column the
    payload sets, under the check constraints' signs. *)
Lemma flush_update_stored db i r p q :
  table_wf db -> rows db !! i = Some r ->
  (forall x, p = Some x -> 0 <= to_cents x)%Z -> (forall m, q = Some m -> 0 <= m)%Z ->
  flush_update db i r p q =
  match update_values (PyFloat <$> p) q with
  | inl e => (inl e, db)
  | inr (c, n) => (inr (set_fields r c n), MkDB (<[i := set_fields r c n]> (rows db)) (seq_next db))
  end.
Proof.
  intros Hwf Hr Hp Hq.
  destruct (wf_lookup_row_ok _ _ _ Hwf Hr) as (Hpr & Hsq & _).
  assert (MkDB (<[i := r]> (rows db)) (seq_next db) = db) as Hdb
    by (destruct db; simpl; by rewrite insert_id).
  unfold flush_update, price_change, stock_change.
  destruct p as [x|], q as [m|]; simpl;
    try destruct (float_eq_decimal x (price r)) eqn:Hx;
    try destruct (Z.eqb_spec m (stock_quantity r)) as [-> |];
    try (apply (py_price_eqb_cents (PyFloat x)) in Hx; simpl in Hx);
    rewrite ?(update_product_row_stored db i r)
      by first [done | intros ? [= <-]; by apply Hp | intros ? [= <-]; by apply Hq
               | intros ? [=]];
    unfold update_values; simpl;
    try (assert (coerce_numeric_10_2 x = inr (price r)) as ->
           by (apply coerce_numeric_inr; lia));
    try (assert (coerce_integer (stock_quantity r) = inr (stock_quantity r)) as ->
           by (apply coerce_integer_inr; unfold int32_min in *; lia));
    repeat case_match; simplify_eq; try done;
    destruct r; unfold set_fields in *; simpl in *; subst; by rewrite ?Hdb.
Qed.

Lemma price_change_Some_inv r p v :
  price_change r p = Some v -> exists x, p = Some x /\ v = PyFloat x.
Proof.
  destruct p as [x|]; [| done]. unfold price_change; simpl.
  destruct (float_eq_decimal x (price r)); [done |]. intros [= <-]. eauto.
Qed.

Lemma stock_change_Some_inv r q m : stock_change r q = Some m -> q = Some m.
Proof.
  destruct q as [m'|]; [| done]. unfold stock_change; simpl.
  by destruct (m' =? stock_quantity r)%Z; [| intros [= ->]].
Qed.

(** The values of the changed columns fit when those of the payload do. *)
Lemma update_values_change r p q c n :
  update_values (PyFloat <$> p) q = inr (c, n) ->
  update_values (price_change r p) (stock_change r q) =
  inr (price_cents <$> price_change r p, stock_change r q).
Proof.
  rewrite !update_values_inr.
  destruct (price_change r p) as [v|] eqn:Ep, (stock_change r q) as [m|] eqn:Eq;
    try apply price_change_Some_inv in Ep as (x & -> & ->);
    try apply stock_change_Some_inv in Eq as ->; simpl; naive_solver.
Qed.

(** The flush of an object loaded from row [r], on a table whose row
    [i] is now [r0]: the columns that differ from [r] are written on
    [r0], and the table stays well formed. *)
Lemma flush_update_current db i r r0 p q c n :
  table_wf db -> rows db !! i = Some r0 ->
  (forall x, p = Some x -> 0 <= to_cents x)%Z -> (forall m, q = Some m -> 0 <= m)%Z ->
  update_values (PyFloat <$> p) q = inr (c, n) ->
  let db' := MkDB (<[i := set_fields r0 (price_cents <$> price_change r p) (stock_change r q)]>
                     (rows db)) (seq_next db) in
  exists r', flush_update db i r p q = (inr r', db') /\ table_wf db'.
Proof.
  intros Hwf Hr Hp Hq Hu db'. apply (update_values_change r) in Hu.
  assert (forall v, price_change r p = Some v -> 0 <= price_cents v)%Z as Hpos
    by (intros v (x & -> & ->)%price_change_Some_inv; by apply Hp).
  assert (forall m, stock_change r q = Some m -> 0 <= m)%Z as Hqos
    by (intros m Hm%stock_change_Some_inv; by apply Hq).
  pose proof (update_product_row_stored db i r0 _ _ Hwf Hr Hpos Hqos) as Hs. rewrite Hu in Hs.
  pose proof (update_product_row_wf db i (price_change r p) (stock_change r q) Hwf) as Hw.
  rewrite Hs in Hw. unfold flush_update, db' in *.
  destruct (price_change r p), (stock_change r q); try by eexists.
  exists r. split; [| done]. do 2 f_equal. destruct r0, db; unfold set_fields; simpl in *.
  by rewrite insert_id.
Qed.

(** On the row it loaded, the flush writes what the payload sets. *)
Lemma set_fields_change r p q c n :
  update_values (PyFloat <$> p) q = inr (c, n) ->
  set_fields r (price_cents <$> price_change r p) (stock_change r q) = set_fields r c n.
Proof.
  intros Hu%update_values_inr. unfold set_fields.
  rewrite price_change_default, stock_change_default.
  destruct p, q; simpl in *; destruct_and?; by subst.
Qed.

(** A validated update of a stored row whose values fit their columns
    succeeds and stores the payload's fields. *)
Lemma update_product_stored db i r b pu c n :
  table_wf db -> rows db !! i = Some r -> validate_update b = inr pu ->
  update_values (PyFloat <$> pu_price pu) (pu_stock_quantity pu) = inr (c, n) ->
  run (update_product i pu) db =
  (inr (response_of_row (set_fields r c n)),
   MkDB (<[i := set_fields r c n]> (rows db)) (seq_next db)).
Proof.
  intros Hwf Hr Hv Hu. destruct (validate_update_inr _ _ Hv) as [Hp Hq].
  rewrite update_product_spec, Hr by done.
  rewrite flush_update_stored, Hu; [done | done | done | | done].
  intros x Hx. apply to_cents_nonneg_lemma. specialize (Hp x Hx). lia.
Qed.

(** Responding to the objects loaded from [rs], in order. *)
Lemma respond_all_rows rs s m :
  (forall j r, rs !! j = Some r -> s_objs s !! (m + j) = Some (obj_of_row r)) ->
  respond_all (seq m (length rs)) s = (inr (response_of_row <$> rs), s).
Proof.
  revert m. induction rs as [|r rs IH]; intros m Hl; [done |].
  cbn [respond_all seq length]. unfold mbind at 1, respond, get_attrs, mbind.
  pose proof (Hl 0 r eq_refl) as H0. rewrite Nat.add_0_r in H0. rewrite H0. simpl.
  rewrite IH; [done |]. intros j r' Hj.
  replace (S m + j) with (m + S j) by lia. by apply (Hl (S j)).
Qed.

Lemma query_all_fresh db :
  table_wf db ->
  query_all (SessionLocal db) =
  (inr (seq 0 (length (select_all db))), set_objs (SessionLocal db) (obj_of_row <$> select_all db)).
Proof.
  intros Hwf. unfold query_all, mbind, flush, gets. simpl.
  rewrite load_rows_fresh; [by destruct db | by apply select_all_ids | constructor].
Qed.

Theorem get_products_spec db :
  table_wf db ->
  run get_products db = (inr (response_of_row <$> select_all db), db).
Proof.
  intros Hwf. unfold run, with_session, get_products, mbind at 1.
  rewrite query_all_fresh by done.
  rewrite respond_all_rows with (m := 0).
  - by destruct db.
  - intros j r Hj. simpl. by rewrite list_lookup_fmap, Hj.
Qed.

(** ** Properties of the handlers *)

(** C3: a product [create_product] returns resolves, under the
    returned id, through [get_product] to the same representation. *)
Theorem create_then_get db pc resp db' :
  run (create_product pc) db = (inr resp, db') ->
  run (get_product (resp_id resp)) db' = (inr resp, db').
Proof.
  rewrite create_product_spec.
  destruct (select_by_name _ _) as [e | [r0|]]; [done | done |].
  destruct (insert_product _ _ _ _) as [[e | r] db1] eqn:Hi; [done |].
  intros [= <- <-]. apply insert_product_inr in Hi as (-> & -> & _).
  rewrite get_product_spec. simpl. by rewrite lookup_insert_eq.
Qed.

(** C4: a valid creation payload whose name is not stored, has no
    NUL character, and whose price and stock fit their columns is
    stored under the next id of the sequence, with the name stripped
    and the price rounded to hundredths, and returned. *)
Theorem create_product_stores db b pc :
  table_wf db -> validate_create b = inr pc ->
  0%Z ∉ pc_product_name pc ->
  (forall k r, rows db !! k = Some r -> product_name r <> pc_product_name pc) ->
  (Z.abs (to_cents (pc_price pc)) < numeric_limit)%Z ->
  (pc_stock_quantity pc <= int32_max)%Z ->
  run (create_product pc) db =
  (inr (MkProductResponse (seq_next db) (pc_product_name pc)
          (PyDecimal (to_cents (pc_price pc))) (pc_stock_quantity pc)),
   MkDB (<[seq_next db := MkProduct (seq_next db) (pc_product_name pc)
                            (to_cents (pc_price pc)) (pc_stock_quantity pc)]> (rows db))
        (seq_next db + 1)).
Proof.
  intros Hwf Hv Hnul Hfresh Hc Hq.
  destruct (validate_create_name _ _ Hv) as (Hstrip & _ & Hlen & Hx & Hn & Henc).
  rewrite create_product_spec.
  assert (select_by_name db (pc_product_name pc) = inr None) as -> by
    (apply select_by_name_None; split_and!; done).
  rewrite Hstrip, insert_product_ok; try done.
  all: first [apply to_cents_nonneg_lemma; lia | lia].
Qed.

(** C5: creating a product whose validated name equals a stored
    product's name fails with [400 Product already exists] and leaves
    the database as it was. *)
Theorem create_duplicate_conflict db b pc k r :
  table_wf db -> validate_create b = inr pc ->
  rows db !! k = Some r -> product_name r = pc_product_name pc ->
  run (create_product pc) db = (inl (HTTPException 400 ProductAlreadyExists), db).
Proof.
  intros Hwf Hv Hk Hname. rewrite create_product_spec.
  destruct (wf_lookup_row_ok _ _ _ Hwf Hk) as (_ & _ & _ & Hnul).
  destruct (validate_create_name _ _ Hv) as (_ & _ & _ & _ & _ & Henc).
  rewrite Hname in Hnul.
  by destruct (select_by_name_exists db _ k r Hnul Henc Hk Hname) as [r' ->].
Qed.

(** C7: for an id with no row, [get_product], [update_product] and
    [delete_product] all fail with [404 Product not found] and change
    nothing. *)
Theorem absent_id_not_found db i pu :
  table_wf db -> rows db !! i = None ->
  run (get_product i) db = (inl (HTTPException 404 ProductNotFound), db) /\
  run (update_product i pu) db = (inl (HTTPException 404 ProductNotFound), db) /\
  run (delete_product i) db = (inl (HTTPException 404 ProductNotFound), db).
Proof.
  intros Hwf Hi.
  rewrite get_product_spec, update_product_spec, delete_product_spec by done.
  by rewrite Hi.
Qed.

(** C6: a successful update writes exactly the fields present in the
    payload (the price rounded to hundredths) and leaves the id, the
    name, the other field and every other row unchanged; the response
    is the updated row. *)
Theorem update_product_fields db i pu resp db' :
  table_wf db ->
  run (update_product i pu) db = (inr resp, db') ->
  exists r,
    rows db !! i = Some r /\
    let r' := MkProduct i (product_name r)
                (default (price r) (to_cents <$> pu_price pu))
                (default (stock_quantity r) (pu_stock_quantity pu)) in
    db' = MkDB (<[i := r']> (rows db)) (seq_next db) /\ resp = response_of_row r'.
Proof.
  intros Hwf Hrun. rewrite update_product_spec in Hrun by done.
  destruct (rows db !! i) as [r|] eqn:Hr; [| done]. unfold flush_update in Hrun.
  pose proof (wf_lookup_id _ _ _ Hwf Hr) as Hid.
  exists r. split; [done |].
  rewrite <- (price_change_default r), <- (stock_change_default r).
  destruct (price_change r _) as [v|], (stock_change r _) as [m|]; simpl in Hrun |- *.
  4: { injection Hrun as <- <-. destruct r; simpl in *; subst.
       split; [| done]. destruct db; simpl. by rewrite insert_id. }
  all: destruct (update_product_row _ _ _ _) as [[e | r'] db1] eqn:Hu; [done |].
  all: injection Hrun as <- <-.
  all: apply update_product_row_inr in Hu as (r0 & c & n & Hr0 & Hv & -> & ->).
  all: rewrite Hr in Hr0; simplify_eq; apply update_values_inr in Hv as [Hc Hn].
  all: match goal with r : Product |- _ => destruct r end; simpl in *; destruct_and?; subst; done.
Qed.

(** C8: after a successful delete, [get_product] on the same id
    fails with [404 Product not found]. *)
Theorem delete_then_get db i m db' :
  table_wf db ->
  run (delete_product i) db = (inr m, db') ->
  run (get_product i) db' = (inl (HTTPException 404 ProductNotFound), db').
Proof.
  intros Hwf. rewrite delete_product_spec by done.
  destruct (rows db !! i); [| done]. intros [= <- <-].
  rewrite get_product_spec. simpl. by rewrite lookup_delete_eq.
Qed.

(** C22: ids are never reused: the product created after a delete
    gets an id different from the deleted one, because the sequence is
    not reset by a delete. *)
Theorem delete_then_create_fresh_id db i m db1 pc resp db2 :
  table_wf db ->
  run (delete_product i) db = (inr m, db1) ->
  run (create_product pc) db1 = (inr resp, db2) ->
  resp_id resp <> i.
Proof.
  intros Hwf. rewrite delete_product_spec by done.
  destruct (rows db !! i) as [r|] eqn:Hr; [| done]. intros [= <- <-].
  pose proof (wf_lookup_lt _ _ _ Hwf Hr).
  rewrite create_product_spec.
  destruct (select_by_name _ _) as [e | [r0|]]; [done | done |].
  destruct (insert_product _ _ _ _) as [[e | r'] db'] eqn:Hi; [done |].
  intros [= <- <-]. apply insert_product_inr in Hi as (-> & _). simpl in *. lia.
Qed.

(** C30: validation puts no upper bound on the stock, but the
    [Integer] column does: a valid, fresh creation payload with a stock
    above 2^31 - 1 fails with the driver's "integer out of range" (an
    HTTP 500), and no row is written. *)
Theorem create_stock_overflow db b pc :
  validate_create b = inr pc ->
  0%Z ∉ pc_product_name pc ->
  (forall k r, rows db !! k = Some r -> product_name r <> pc_product_name pc) ->
  (Z.abs (to_cents (pc_price pc)) < numeric_limit)%Z ->
  (int32_max < pc_stock_quantity pc)%Z ->
  run (create_product pc) db = (inl (DBException IntegerOutOfRange), db).
Proof.
  intros Hv Hnul Hfresh Hc Hq.
  destruct (validate_create_name _ _ Hv) as (Hstrip & _ & Hlen & _ & _ & Henc).
  rewrite create_product_spec.
  assert (select_by_name db (pc_product_name pc) = inr None) as -> by
    (apply select_by_name_None; split_and!; done).
  rewrite Hstrip. unfold insert_product, insert_values.
  assert (adapt_str (pc_product_name pc) = inr (pc_product_name pc)) as -> by
    (apply adapt_str_inr; split_and!; done).
  assert (coerce_varchar_100 (pc_product_name pc) = inr (pc_product_name pc)) as -> by
    (by apply coerce_varchar_100_inr).
  assert (coerce_price (PyFloat (pc_price pc)) = inr (to_cents (pc_price pc))) as -> by
    (by apply coerce_price_inr).
  unfold coerce_integer. destruct (Z.leb_spec (pc_stock_quantity pc) int32_max); [lia |].
  rewrite andb_false_r. by destruct db.
Qed.

(** C31: validation puts no upper bound on a new price either: a
    price of 99999999.995 or more makes the update fail with "numeric
    field overflow" (an HTTP 500) and the row keeps its old values. *)
Theorem update_price_overflow db i x :
  table_wf db -> is_Some (rows db !! i) -> (0 <= fl_mant x)%Z ->
  ((2 * numeric_limit - 1) * cents_scale x <= 2 * fl_scaled x)%Z ->
  run (update_product i (MkProductUpdate (Some x) None)) db =
  (inl (DBException NumericFieldOverflow), db).
Proof.
  intros Hwf [r Hr] Hm Hbig. rewrite update_product_spec by done. rewrite Hr.
  assert (coerce_numeric_10_2 x = inl NumericFieldOverflow) as Hov.
  2: { destruct (wf_lookup_row_ok _ _ _ Hwf Hr) as [Hp _].
       cbn [pu_price pu_stock_quantity]. unfold flush_update. rewrite price_change_Some; simpl.
       - unfold update_product_row, update_values. simpl. by rewrite Hov.
       - unfold coerce_numeric_10_2 in Hov.
         destruct (Z.ltb_spec (Z.abs (to_cents x)) numeric_limit); [done | lia]. }
  pose proof (to_cents_nonneg_lemma x Hm).
  unfold coerce_numeric_10_2. rewrite Z.abs_eq by lia.
  destruct (Z.ltb_spec (to_cents x) numeric_limit); [| done].
  destruct (to_cents_cases x) as [[Hs Hc] | [Hs Hc]]; rewrite Hc in *.
  - rewrite Hs in Hbig. lia.
  - rewrite Hs in Hbig. apply (round_half_away_ge_iff _ _ numeric_limit) in Hbig;
      [lia | apply cents_scale_pos | done].
Qed.

(** ** The invariant, handler by handler *)

(** C17: without concurrency, no request fails on a uniqueness
    constraint of the table: on a well-formed table, [create_product]
    of a validated payload, [update_product], [delete_product] and
    [get_product] never end in a unique violation.  The existence
    check and the insert use the same name because the validator has
    already stripped it, so the handler's second [strip()] changes
    nothing. *)
Theorem sequential_no_unique_violation db b pc i pu c :
  table_wf db -> validate_create b = inr pc ->
  (run (create_product pc) db).1 <> inl (DBException (UniqueViolation c)) /\
  (run (update_product i pu) db).1 <> inl (DBException (UniqueViolation c)) /\
  (run (delete_product i) db).1 <> inl (DBException (UniqueViolation c)) /\
  (run (get_product i) db).1 <> inl (DBException (UniqueViolation c)).
Proof.
  intros Hwf Hv. destruct (validate_create_name _ _ Hv) as (Hstrip & _).
  rewrite create_product_spec, update_product_spec, delete_product_spec, get_product_spec
    by done.
  split_and!.
  - destruct (select_by_name _ _) as [e | [r|]] eqn:Hs; simpl;
      [apply select_by_name_inl in Hs as [[-> _] | [-> _]]; congruence | congruence |].
    apply select_by_name_None in Hs as (_ & _ & Hfresh). rewrite Hstrip.
    pose proof (insert_product_not_unique db (pc_product_name pc) (PyFloat (pc_price pc))
                  (pc_stock_quantity pc) c Hwf Hfresh) as Hne.
    destruct (insert_product _ _ _ _) as [[e | r] db']; simpl in *; congruence.
  - destruct (rows db !! i) as [r|] eqn:Hr; simpl; [| congruence].
    unfold flush_update. destruct (price_change _ _), (stock_change _ _); simpl; try congruence.
    all: match goal with |- context [update_product_row ?d ?j ?p ?q] =>
           pose proof (update_product_row_not_unique d j r p q c Hwf Hr) as Hne;
           destruct (update_product_row d j p q) as [[e | r'] d']; simpl in *; congruence end.
  - destruct (rows db !! i); simpl; congruence.
  - destruct (rows db !! i); simpl; congruence.
Qed.

Lemma create_product_wf db pc : table_wf db -> table_wf (run (create_product pc) db).2.
Proof.
  intros Hwf. rewrite create_product_spec.
  destruct (select_by_name _ _) as [e | [r0|]]; [done | done |].
  destruct (insert_product _ _ _ _) as [[e | r] db1] eqn:Hi; simpl.
  - apply insert_product_inl in Hi as [_ ?]. apply wf_seq_mono; [done | lia].
  - pose proof (insert_product_wf db (strip (pc_product_name pc)) (PyFloat (pc_price pc))
                  (pc_stock_quantity pc) Hwf) as Hw.
    by rewrite Hi in Hw.
Qed.

Lemma update_product_wf db i pu : table_wf db -> table_wf (run (update_product i pu) db).2.
Proof.
  intros Hwf. rewrite update_product_spec by done.
  destruct (rows db !! i); [| done].
  unfold flush_update. destruct (price_change _ _), (stock_change _ _); simpl; try done.
  all: match goal with |- context [update_product_row ?d ?j ?p ?q] =>
         pose proof (update_product_row_wf d j p q Hwf) as Hw end.
  all: destruct (update_product_row _ _ _ _) as [[e | r'] db1]; done.
Qed.

Lemma delete_product_wf db i : table_wf db -> table_wf (run (delete_product i) db).2.
Proof.
  intros Hwf. rewrite delete_product_spec by done.
  destruct (rows db !! i); [by apply wf_delete | done].
Qed.

(** ** Witnesses *)

Lemma create_then_get_witness :
  run (create_product widget_pc) empty_db =
    (inr (MkProductResponse 1 widget (PyDecimal 999) 10), widget_db) /\
  run (get_product 1) widget_db =
    (inr (MkProductResponse 1 widget (PyDecimal 999) 10), widget_db).
Proof.
  split; [vm_compute; reflexivity |].
  apply (create_then_get empty_db widget_pc (MkProductResponse 1 widget (PyDecimal 999) 10)).
  vm_compute. reflexivity.
Defined.

Lemma create_product_stores_witness :
  table_wf empty_db /\ validate_create widget_body = inr widget_pc /\
  run (create_product widget_pc) empty_db =
  (inr (MkProductResponse 1 widget (PyDecimal 999) 10),
   MkDB (<[1%Z := MkProduct 1 widget 999 10]> ∅) 2).
Proof.
  split; [decide_true |]. split; [vm_compute; reflexivity |].
  apply (create_product_stores empty_db widget_body).
  - decide_true.
  - vm_compute. reflexivity.
  - decide_true.
  - by intros k r Hk.
  - vm_compute. reflexivity.
  - vm_compute. discriminate.
Defined.

Lemma create_duplicate_conflict_witness :
  table_wf widget_db /\ rows widget_db !! 1%Z = Some (MkProduct 1 widget 999 10) /\
  run (create_product widget_pc) widget_db =
    (inl (HTTPException 400 ProductAlreadyExists), widget_db).
Proof.
  split; [decide_true |]. split; [vm_compute; reflexivity |].
  apply (create_duplicate_conflict widget_db widget_body widget_pc 1
           (MkProduct 1 widget 999 10)).
  - decide_true.
  - vm_compute. reflexivity.
  - vm_compute. reflexivity.
  - reflexivity.
Defined.

Lemma absent_id_not_found_witness :
  rows widget_db !! 2%Z = None /\
  run (delete_product 2) widget_db = (inl (HTTPException 404 ProductNotFound), widget_db).
Proof.
  split; [vm_compute; reflexivity |].
  apply (absent_id_not_found widget_db 2 (MkProductUpdate None None)).
  - decide_true.
  - vm_compute. reflexivity.
Defined.

Lemma update_product_fields_witness :
  run (update_product 1 (MkProductUpdate None (Some 5%Z))) widget_db =
    (inr (MkProductResponse 1 widget (PyDecimal 999) 5),
     (run (update_product 1 (MkProductUpdate None (Some 5%Z))) widget_db).2) /\
  exists r, rows widget_db !! 1%Z = Some r /\
    (run (update_product 1 (MkProductUpdate None (Some 5%Z))) widget_db).2 =
    MkDB (<[1%Z := MkProduct 1 (product_name r) (price r) 5]> (rows widget_db))
         (seq_next widget_db).
Proof.
  split; [vm_compute; reflexivity |].
  destruct (update_product_fields widget_db 1 (MkProductUpdate None (Some 5%Z))
              (MkProductResponse 1 widget (PyDecimal 999) 5)
              (run (update_product 1 (MkProductUpdate None (Some 5%Z))) widget_db).2)
    as (r & Hr & Hdb & _).
  - decide_true.
  - vm_compute. reflexivity.
  - exists r. split; [exact Hr | exact Hdb].
Defined.

Lemma delete_then_get_witness :
  run (delete_product 1) widget_db =
    (inr ProductDeletedSuccessfully, (run (delete_product 1) widget_db).2) /\
  run (get_product 1) (run (delete_product 1) widget_db).2 =
    (inl (HTTPException 404 ProductNotFound), (run (delete_product 1) widget_db).2).
Proof.
  split; [vm_compute; reflexivity |].
  apply (delete_then_get widget_db 1 ProductDeletedSuccessfully).
  - decide_true.
  - vm_compute. reflexivity.
Defined.

Lemma delete_then_create_fresh_id_witness :
  run (create_product widget_pc) (run (delete_product 1) widget_db).2 =
    (inr (MkProductResponse 2 widget (PyDecimal 999) 10),
     (run (create_product widget_pc) (run (delete_product 1) widget_db).2).2) /\
  (2 <> 1)%Z.
Proof.
  split; [vm_compute; reflexivity |].
  apply (delete_then_create_fresh_id widget_db 1 ProductDeletedSuccessfully
           (run (delete_product 1) widget_db).2 widget_pc
           (MkProductResponse 2 widget (PyDecimal 999) 10)
           (run (create_product widget_pc) (run (delete_product 1) widget_db).2).2).
  - decide_true.
  - vm_compute. reflexivity.
  - vm_compute. reflexivity.
Defined.

Lemma create_stock_overflow_witness :
  validate_create (CreateBody (Given widget) (Given (FloatRepr 999 (-2)))
                              (Given 2147483648%Z)) =
    inr (MkProductCreate widget (FloatRepr 999 (-2)) 2147483648) /\
  run (create_product (MkProductCreate widget (FloatRepr 999 (-2)) 2147483648)) empty_db =
    (inl (DBException IntegerOutOfRange), empty_db).
Proof.
  split; [vm_compute; reflexivity |].
  apply (create_stock_overflow empty_db
           (CreateBody (Given widget) (Given (FloatRepr 999 (-2))) (Given 2147483648%Z))).
  - vm_compute. reflexivity.
  - decide_true.
  - by intros k r Hk.
  - vm_compute. reflexivity.
  - vm_compute. reflexivity.
Defined.

Lemma update_price_overflow_witness :
  coerce_numeric_10_2 (FloatRepr 1 8) = inl NumericFieldOverflow /\
  run (update_product 1 (MkProductUpdate (Some (FloatRepr 1 8)) None)) widget_db =
    (inl (DBException NumericFieldOverflow), widget_db).
Proof.
  split; [vm_compute; reflexivity |].
  apply update_price_overflow.
  - decide_true.
  - vm_compute. by eexists.
  - vm_compute. discriminate.
  - vm_compute. discriminate.
Defined.

Lemma sequential_no_unique_violation_witness :
  table_wf widget_db /\ validate_create widget_body = inr widget_pc /\
  (run (create_product widget_pc) widget_db).1
    <> inl (DBException (UniqueViolation products_product_name_key)) /\
  (run (update_product 1 (MkProductUpdate None (Some 5%Z))) widget_db).1
    <> inl (DBException (UniqueViolation products_product_name_key)) /\
  (run (delete_product 1) widget_db).1
    <> inl (DBException (UniqueViolation products_product_name_key)) /\
  (run (get_product 1) widget_db).1
    <> inl (DBException (UniqueViolation products_product_name_key)).
Proof.
  assert (table_wf widget_db) as Hwf by decide_true.
  assert (validate_create widget_body = inr widget_pc) as Hv by reflexivity.
  split; [exact Hwf |]. split; [exact Hv |].
  exact (sequential_no_unique_violation widget_db widget_body widget_pc 1
           (MkProductUpdate None (Some 5%Z)) products_product_name_key Hwf Hv).
Defined.
