(* ===== verification/Api.v ===== *)
(** * The HTTP surface: the routes of [src/main.py]

    A request is one of the six routes, with its path parameter already
    an [int] and its body already decoded into the fields of [Schemas].
    [serve] is what FastAPI does with it: validate the body (a failure
    is a 422 with pydantic's errors and no database access), run the
    handler inside [get_db], and turn the outcome into a status code and
    a JSON body: the handler's value with 200, an [HTTPException] with
    its status and [{"detail": ...}], any other exception with 500.

    The server is the step relation [serve] on the database; the
    reachable databases are those [serve] leads to from the empty table
    [Base.metadata.create_all] creates.  The table invariant holds in
    every reachable state. *)

From stdpp Require Import base gmap list.
From Stdlib Require Import ZArith Lia.
From S2P Require Import Prelude PyStr SqlTypes Schemas Models Session Proc Handlers.

Inductive request :=
| GetRoot
| PostProducts (b : create_body)
| GetProducts
| GetProduct (product_id : Z)
| PatchProduct (product_id : Z) (b : update_body)
| DeleteProduct (product_id : Z).

(** The JSON bodies the service sends. *)
Inductive json :=
| JMessage (m : message)
| JProduct (r : ProductResponse)
| JProducts (rs : list ProductResponse)
| JDetail (d : detail)
| JValidationErrors (es : list validation_error)
| JInternalServerError.

Record response := MkResponse { status : Z; body : json }.

#[export] Instance json_eq_dec : EqDecision json.
Proof. solve_decision. Defined.
#[export] Instance response_eq_dec : EqDecision response.
Proof. solve_decision. Defined.

(** FastAPI's rendering of a handler's outcome. *)
Definition reply {A} (ok : A -> json) (o : exc + A) : response :=
  match o with
  | inr a => MkResponse 200 (ok a)
  | inl (HTTPException code d) => MkResponse code (JDetail d)
  | inl (DBException _) | inl ResponseValidationError => MkResponse 500 JInternalServerError
  end.

Definition reply_run {A} (ok : A -> json) (h : M A) (db : DB) : response * DB :=
  let '(o, db') := run h db in (reply ok o, db').

Definition serve (req : request) (db : DB) : response * DB :=
  match req with
  | GetRoot =>
      (** [home] has no [Depends(get_db)]. *)
      let '(o, _) := home (SessionLocal db) in (reply JMessage o, db)
  | PostProducts b =>
      match validate_create b with
      | inl es => (MkResponse 422 (JValidationErrors es), db)
      | inr pc => reply_run JProduct (create_product pc) db
      end
  | GetProducts => reply_run JProducts get_products db
  | GetProduct i => reply_run JProduct (get_product i) db
  | PatchProduct i b =>
      match validate_update b with
      | inl es => (MkResponse 422 (JValidationErrors es), db)
      | inr pu => reply_run JProduct (update_product i pu) db
      end
  | DeleteProduct i => reply_run JMessage (delete_product i) db
  end.

(** The databases the service can reach. *)
Inductive reachable : DB -> Prop :=
| reachable_init : reachable empty_db
| reachable_step db req : reachable db -> reachable (serve req db).2.

(** A sequence of requests, served in order. *)
Fixpoint serve_all (reqs : list request) (db : DB) : list response * DB :=
  match reqs with
  | [] => ([], db)
  | req :: reqs' =>
      let '(resp, db1) := serve req db in
      let '(resps, db2) := serve_all reqs' db1 in
      (resp :: resps, db2)
  end.

(** The example scenarios of the spec (section 8). *)
Definition spec_scenarios : list request :=
  [ PostProducts (CreateBody (Given widget) (Given (FloatRepr 999 (-2))) (Given 10%Z));
    PostProducts (CreateBody (Given widget) (Given (FloatRepr 999 (-2))) (Given 10%Z));
    GetProduct 1;
    PatchProduct 1 (UpdateBody Omitted Omitted (Given 5%Z));
    DeleteProduct 1;
    GetProduct 1;
    PostProducts (CreateBody (Given [32%Z]) (Given (FloatRepr 1 0)) (Given 1%Z)) ].

(** The exceptions a handler raises itself: [HTTPException(400)] and
    [HTTPException(404)]; every other exception is internal. *)
Definition handler_exc (e : exc) : Prop :=
  match e with HTTPException code _ => code = 400%Z \/ code = 404%Z | _ => True end.

(** ** Lemmas *)

Lemma reply_run_db {A} (ok : A -> json) h db : (reply_run ok h db).2 = (run h db).2.
Proof. unfold reply_run. by destruct (run h db). Qed.

Lemma run_get_products_db db : table_wf db -> (run get_products db).2 = db.
Proof. intros Hwf. by rewrite get_products_spec. Qed.

Lemma run_get_product_db db i : (run (get_product i) db).2 = db.
Proof. rewrite get_product_spec. by destruct (rows db !! i). Qed.

(** ** The invariant *)

(** Every request keeps the table invariant. *)
Lemma serve_keeps_wf req db : table_wf db -> table_wf (serve req db).2.
Proof.
  intros Hwf. destruct req as [| b | | i | i b | i]; simpl.
  - done.
  - destruct (validate_create b); [done |].
    rewrite reply_run_db. by apply create_product_wf.
  - rewrite reply_run_db. by rewrite run_get_products_db.
  - rewrite reply_run_db. by rewrite run_get_product_db.
  - destruct (validate_update b); [done |].
    rewrite reply_run_db. by apply update_product_wf.
  - rewrite reply_run_db. by apply delete_product_wf.
Qed.

(** C1: in every state the service reaches from the empty table,
    whatever the requests, the table invariant holds: each row fits its
    columns ([Numeric(10,2)], [Integer], [String(100)], no NUL) and
    satisfies the check constraints, names are unique, and each row is
    stored under its own id, below the sequence's next value. *)
Theorem reachable_wf db : reachable db -> table_wf db.
Proof.
  induction 1 as [| db req _ IH]; [apply empty_db_wf |]. by apply serve_keeps_wf.
Qed.

(** ** Failed requests write nothing *)

Lemma reply_not_200 {A} (ok : A -> json) o :
  status (reply ok o) <> 200%Z -> exists e, o = inl e.
Proof. destruct o as [e | a]; [eauto | done]. Qed.

Lemma create_product_err_rows db pc e db' :
  run (create_product pc) db = (inl e, db') -> rows db' = rows db.
Proof.
  rewrite create_product_spec.
  destruct (select_by_name _ _) as [e' | [r0|]]; [congruence | congruence |].
  destruct (insert_product _ _ _ _) as [[e' | r] db1]; [| done].
  intros [= _ <-]. done.
Qed.

Lemma update_product_err_rows db i pu e db' :
  table_wf db -> run (update_product i pu) db = (inl e, db') -> rows db' = rows db.
Proof.
  intros Hwf. rewrite update_product_spec by done.
  destruct (rows db !! i); [| congruence].
  unfold flush_update. destruct (price_change _ _), (stock_change _ _); try congruence.
  all: destruct (update_product_row _ _ _ _) as [[e' | r'] db1]; congruence.
Qed.

Lemma delete_product_err_rows db i e db' :
  table_wf db -> run (delete_product i) db = (inl e, db') -> rows db' = rows db.
Proof.
  intros Hwf. rewrite delete_product_spec by done.
  destruct (rows db !! i); congruence.
Qed.

Lemma reply_run_err {A} (ok : A -> json) h db resp db' :
  reply_run ok h db = (resp, db') -> status resp <> 200%Z ->
  exists e, run h db = (inl e, db').
Proof.
  unfold reply_run. destruct (run h db) as [o db1]. intros [= <- <-] Hs.
  destruct (reply_not_200 ok o Hs) as [e ->]. eauto.
Qed.

(** C9: a request that does not succeed (any status but 200) leaves
    every row as it was: there is no partial write, because each handler
    performs at most one commit and a failed flush rolls back. *)
Theorem failed_request_no_write req db resp db' :
  table_wf db -> serve req db = (resp, db') -> status resp <> 200%Z ->
  rows db' = rows db.
Proof.
  intros Hwf Hserve Hs. destruct req as [| b | | i | i b | i]; simpl in Hserve.
  - by simplify_eq.
  - destruct (validate_create b); [by simplify_eq |].
    destruct (reply_run_err _ _ _ _ _ Hserve Hs) as [e He].
    by eapply create_product_err_rows.
  - destruct (reply_run_err _ _ _ _ _ Hserve Hs) as [e He].
    rewrite get_products_spec in He by done. congruence.
  - destruct (reply_run_err _ _ _ _ _ Hserve Hs) as [e He].
    pose proof (run_get_product_db db i) as Hdb. rewrite He in Hdb. by subst.
  - destruct (validate_update b); [by simplify_eq |].
    destruct (reply_run_err _ _ _ _ _ Hserve Hs) as [e He].
    by eapply update_product_err_rows.
  - destruct (reply_run_err _ _ _ _ _ Hserve Hs) as [e He].
    by eapply delete_product_err_rows.
Qed.

(** ** Validation at the boundary *)

(** C24: a creation payload with a price [<= 0] or a negative stock is
    answered with 422 before any database access, so no row (and no id
    of the sequence) is used. *)
Theorem post_invalid_rejected b db :
  (exists x, cb_price b = Given x /\ (fl_mant x <= 0)%Z) \/
  (exists n, cb_stock_quantity b = Given n /\ (n < 0)%Z) ->
  exists es, serve (PostProducts b) db = (MkResponse 422 (JValidationErrors es), db).
Proof.
  intros Hbad. simpl. destruct (validate_create b) as [es | pc] eqn:Hv; [by exists es |].
  apply validate_create_inv in Hv as (s & x & n & -> & _ & _ & _ & Hx & Hn & _).
  simpl in Hbad. destruct Hbad as [(y & [= <-] & Hy) | (m & [= <-] & Hm)]; lia.
Qed.

(** C25: a creation payload whose name holds a lone surrogate (a JSON
    [\ud800] escape that pairs with nothing) is answered with 422
    [string_unicode] at [product_name] before any database access:
    pydantic refuses the string, so the driver, which cannot encode
    it, never sees it. *)
Theorem post_surrogate_rejected b db s :
  cb_product_name b = Given s -> ~ encodable s ->
  exists es, serve (PostProducts b) db = (MkResponse 422 (JValidationErrors es), db) /\
             VError loc_product_name string_unicode ∈ es.
Proof.
  intros Hn Henc. simpl. unfold validate_create. rewrite Hn.
  unfold check_product_name. rewrite decide_True by done.
  destruct (both (check_price _) (check_stock_quantity _)) as [es2 | [p q]]; simpl;
    eexists; (split; [reflexivity | set_solver]).
Qed.

(** C28: an explicit [null] in a PATCH body is treated as an omitted
    field: [{"price": null, "stock_quantity": null}] on an existing
    product succeeds and changes nothing, although the spec says only
    omission is a no-op. *)
Theorem patch_null_is_noop db i r nm :
  table_wf db -> rows db !! i = Some r ->
  serve (PatchProduct i (UpdateBody nm Null Null)) db =
  (MkResponse 200 (JProduct (response_of_row r)), db).
Proof.
  intros Hwf Hr. simpl. unfold reply_run.
  rewrite update_product_spec by done. by rewrite Hr.
Qed.

(** C20: [GET /products] answers 200 with one representation per
    stored row, each the row's own, with distinct ids, and changes
    nothing. *)
Theorem list_products db :
  table_wf db ->
  exists rs,
    serve GetProducts db = (MkResponse 200 (JProducts rs), db) /\
    (forall x, x ∈ rs <-> exists k r, rows db !! k = Some r /\ x = response_of_row r) /\
    NoDup (resp_id <$> rs).
Proof.
  intros Hwf. exists (response_of_row <$> select_all db). split_and!.
  - simpl. unfold reply_run. by rewrite get_products_spec.
  - intros x. rewrite list_elem_of_fmap. setoid_rewrite elem_of_select_all. naive_solver.
  - rewrite <- list_fmap_compose. apply select_all_ids, Hwf.
Qed.

(** ** Status codes *)

Lemma raises_respond_all hs : raises (respond_all hs) internal.
Proof.
  induction hs as [| h hs IH]; simpl; [apply raises_ret |].
  apply raises_bind; [apply raises_respond | intros r].
  apply raises_bind; [done | intros; apply raises_ret].
Qed.

#[local] Hint Resolve raises_respond_all : session_ok.

Lemma raises_create_product pc : raises (create_product pc) handler_exc.
Proof. unfold create_product. raises_solve. Qed.
Lemma raises_get_products : raises get_products handler_exc.
Proof. unfold get_products. raises_solve. Qed.
Lemma raises_get_product i : raises (get_product i) handler_exc.
Proof. unfold get_product. raises_solve. Qed.
Lemma raises_update_product i pu : raises (update_product i pu) handler_exc.
Proof. unfold update_product. raises_solve. Qed.
Lemma raises_delete_product i : raises (delete_product i) handler_exc.
Proof. unfold delete_product. raises_solve. Qed.

Lemma reply_run_status {A} (ok : A -> json) (h : M A) db :
  raises h handler_exc -> status (reply_run ok h db).1 ∈ [200; 400; 404; 500]%Z.
Proof.
  intros Hh. unfold reply_run, run, with_session.
  destruct (h (SessionLocal db)) as [[e | a] s] eqn:E; simpl; [| set_solver].
  specialize (Hh _ _ _ E). destruct e as [code d | e | ]; simpl in *; [| set_solver..].
  destruct Hh as [-> | ->]; set_solver.
Qed.

(** C21: every answer of the service has one of the status codes 200,
    400, 404, 422 and 500: the handlers raise only the 400 and the 404
    of [src/main.py], validation answers 422, and any other exception
    becomes a 500, a status section 6 of the spec does not list. *)
Theorem serve_status req db : status (serve req db).1 ∈ [200; 400; 404; 422; 500]%Z.
Proof.
  assert (forall A (ok : A -> json) h, raises h handler_exc ->
            status (reply_run ok h db).1 ∈ [200; 400; 404; 422; 500]%Z) as Hr.
  { intros A ok h Hh. pose proof (reply_run_status ok h db Hh). set_solver. }
  destruct req as [| b | | i | i b | i]; simpl;
    [| destruct (validate_create b) | | | destruct (validate_update b) |];
    first [set_solver | apply Hr].
  - apply raises_create_product.
  - apply raises_get_products.
  - apply raises_get_product.
  - apply raises_update_product.
  - apply raises_delete_product.
Qed.

(** ** At most one commit *)

Lemma commits_respond_all hs : commits_le (respond_all hs) 0.
Proof.
  induction hs as [| h hs IH]; simpl; [apply commits_ret |].
  apply commits_bind0; [apply commits_respond | intros r].
  apply commits_bind0; [done | intros; apply commits_ret].
Qed.

#[local] Hint Resolve commits_respond_all : session_ok.

Lemma with_session_commits {A} (h : M A) n db :
  commits_le h n -> s_commits (with_session h db).2 <= n.
Proof.
  intros Hh. unfold with_session. specialize (Hh (SessionLocal db)).
  destruct (h (SessionLocal db)) as [o s]. simpl in *. lia.
Qed.

(** C18: each handler commits at most once in its session, as section
    7 of the spec says: there is no retry and no second transaction. *)
Theorem handlers_commit_at_most_once db pc i pu :
  s_commits (with_session (create_product pc) db).2 <= 1 /\
  s_commits (with_session get_products db).2 <= 1 /\
  s_commits (with_session (get_product i) db).2 <= 1 /\
  s_commits (with_session (update_product i pu) db).2 <= 1 /\
  s_commits (with_session (delete_product i) db).2 <= 1.
Proof.
  split_and!; apply with_session_commits;
    unfold create_product, get_products, get_product, update_product, delete_product,
      query_first_by_name, query_first_by_id, query_all;
    commits_solve.
Qed.

(** ** Witnesses *)

Lemma reachable_wf_witness :
  reachable (serve (PostProducts widget_body) empty_db).2 /\
  table_wf (serve (PostProducts widget_body) empty_db).2.
Proof.
  split; [apply reachable_step, reachable_init |].
  apply reachable_wf, reachable_step, reachable_init.
Defined.

Lemma failed_request_no_write_witness :
  serve (PostProducts widget_body) widget_db =
    (MkResponse 400 (JDetail ProductAlreadyExists), widget_db) /\
  rows widget_db = rows widget_db.
Proof.
  split; [vm_compute; reflexivity |].
  apply (failed_request_no_write (PostProducts widget_body) widget_db
           (MkResponse 400 (JDetail ProductAlreadyExists))).
  - decide_true.
  - vm_compute. reflexivity.
  - simpl. lia.
Defined.

Lemma post_invalid_rejected_witness :
  exists es, serve (PostProducts (CreateBody (Given widget) (Given (FloatRepr 0 0))
                                              (Given 1%Z))) widget_db =
             (MkResponse 422 (JValidationErrors es), widget_db).
Proof.
  apply post_invalid_rejected. left. exists (FloatRepr 0 0). split; [reflexivity | simpl; lia].
Defined.

Lemma post_surrogate_rejected_witness :
  ~ encodable [87; 55296]%Z /\
  exists es, serve (PostProducts (CreateBody (Given [87; 55296]%Z) (Given (FloatRepr 999 (-2)))
                                              (Given 10%Z))) widget_db =
             (MkResponse 422 (JValidationErrors es), widget_db) /\
             VError loc_product_name string_unicode ∈ es.
Proof.
  assert (~ encodable [87; 55296]%Z) as Henc by decide_true.
  split; [exact Henc |].
  exact (post_surrogate_rejected (CreateBody (Given [87; 55296]%Z) (Given (FloatRepr 999 (-2)))
           (Given 10%Z)) widget_db [87; 55296]%Z eq_refl Henc).
Defined.

Lemma patch_null_is_noop_witness :
  serve (PatchProduct 1 (UpdateBody Omitted Null Null)) widget_db =
  (MkResponse 200 (JProduct (response_of_row (MkProduct 1 widget 999 10))), widget_db).
Proof.
  apply patch_null_is_noop.
  - decide_true.
  - vm_compute. reflexivity.
Defined.

Lemma list_products_witness :
  table_wf widget_db /\
  exists rs, serve GetProducts widget_db = (MkResponse 200 (JProducts rs), widget_db) /\
    NoDup (resp_id <$> rs).
Proof.
  split; [decide_true |].
  destruct (list_products widget_db) as (rs & Hs & _ & Hnd); [decide_true |].
  by exists rs.
Defined.
