(* ===== verification/Store.v ===== *)
(** * The spec's product table and the refinement of the service

    Section 4.3 of the spec describes the service as operations on a
    table of products: create (with a conflict on an existing name),
    list, get, update of the present fields, and delete, each failing
    with "not found" on an absent id; section 7 adds that a payload
    error is a 422 and a driver error is propagated (a 500).  This file
    states that description as a relation [astep] on an abstract store,
    a finite map from ids to the stored representation of a product,
    with no sequence, no session and no ORM object; the choice of a
    fresh id and the order of the listing are left open.

    [abs] forgets of a [Models.DB] everything but the rows, and
    [serve_refines] shows that every request [Api.serve] answers on a
    well-formed table is a step the abstract table allows, from [abs]
    of the table before to [abs] of the table after; [serve_all_refines]
    extends it to any sequence of requests. *)

From stdpp Require Import base gmap list.
From Stdlib Require Import ZArith Lia.
From S2P Require Import Prelude PyStr SqlTypes Schemas Models Session Handlers Api.

(** A stored product as the spec's table sees it: name, price in
    hundredths and stock. *)
Record item := Item { it_name : pystr; it_cents : Z; it_stock : Z }.

#[export] Instance item_eq_dec : EqDecision item.
Proof. solve_decision. Defined.

Abbreviation store := (gmap Z item).

Definition item_of (r : Product) : item := Item (product_name r) (price r) (stock_quantity r).

(** The abstraction of the table: its rows, without the sequence. *)
Definition abs (db : DB) : store := item_of <$> rows db.

(** The outbound representation of the product stored under [k]. *)
Definition repr (k : Z) (it : item) : ProductResponse :=
  MkProductResponse k (it_name it) (PyDecimal (it_cents it)) (it_stock it).

Definition name_taken (σ : store) (n : pystr) : Prop :=
  exists k it, σ !! k = Some it /\ it_name it = n.

(** "apply only present fields, leave others untouched". *)
Definition apply_update (it : item) (c n : option Z) : item :=
  Item (it_name it) (default (it_cents it) c) (default (it_stock it) n).

Definition not_found : response := MkResponse 404 (JDetail ProductNotFound).
Definition driver_error : response := MkResponse 500 JInternalServerError.

(** The operations of section 4.3, with the failures of section 7.  The
    values stored are those the column types keep ([insert_values],
    [update_values]); when they do not fit, the storage refuses them
    and the request fails with a driver error. *)
Inductive astep : request -> store -> response -> store -> Prop :=
| astep_home σ :
    astep GetRoot σ (MkResponse 200 (JMessage ApiRunning)) σ
| astep_create_invalid b es σ :
    validate_create b = inl es ->
    astep (PostProducts b) σ (MkResponse 422 (JValidationErrors es)) σ
| astep_create_conflict b pc σ :
    validate_create b = inr pc -> name_taken σ (pc_product_name pc) ->
    astep (PostProducts b) σ (MkResponse 400 (JDetail ProductAlreadyExists)) σ
| astep_create b pc σ i nm c n :
    validate_create b = inr pc -> ~ name_taken σ (pc_product_name pc) ->
    insert_values (pc_product_name pc) (PyFloat (pc_price pc)) (pc_stock_quantity pc)
      = inr (nm, c, n) ->
    σ !! i = None -> (1 <= i)%Z ->
    astep (PostProducts b) σ (MkResponse 200 (JProduct (repr i (Item nm c n))))
          (<[i := Item nm c n]> σ)
| astep_create_error b pc σ e :
    validate_create b = inr pc -> ~ name_taken σ (pc_product_name pc) ->
    insert_values (pc_product_name pc) (PyFloat (pc_price pc)) (pc_stock_quantity pc)
      = inl e ->
    astep (PostProducts b) σ driver_error σ
| astep_list σ rs :
    rs ≡ₚ uncurry repr <$> map_to_list σ ->
    astep GetProducts σ (MkResponse 200 (JProducts rs)) σ
| astep_get σ i it :
    σ !! i = Some it -> astep (GetProduct i) σ (MkResponse 200 (JProduct (repr i it))) σ
| astep_get_absent σ i :
    σ !! i = None -> astep (GetProduct i) σ not_found σ
| astep_update_invalid i b es σ :
    validate_update b = inl es ->
    astep (PatchProduct i b) σ (MkResponse 422 (JValidationErrors es)) σ
| astep_update_absent i b pu σ :
    validate_update b = inr pu -> σ !! i = None -> astep (PatchProduct i b) σ not_found σ
| astep_update i b pu σ it c n :
    validate_update b = inr pu -> σ !! i = Some it ->
    update_values (PyFloat <$> pu_price pu) (pu_stock_quantity pu) = inr (c, n) ->
    astep (PatchProduct i b) σ (MkResponse 200 (JProduct (repr i (apply_update it c n))))
          (<[i := apply_update it c n]> σ)
| astep_update_error i b pu σ it e :
    validate_update b = inr pu -> σ !! i = Some it ->
    update_values (PyFloat <$> pu_price pu) (pu_stock_quantity pu) = inl e ->
    astep (PatchProduct i b) σ driver_error σ
| astep_delete σ i it :
    σ !! i = Some it ->
    astep (DeleteProduct i) σ (MkResponse 200 (JMessage ProductDeletedSuccessfully)) (delete i σ)
| astep_delete_absent σ i :
    σ !! i = None -> astep (DeleteProduct i) σ not_found σ.


(** ** The abstraction *)

Lemma abs_lookup db k : abs db !! k = item_of <$> rows db !! k.
Proof. unfold abs. by rewrite lookup_fmap. Qed.

Lemma abs_rows db s : abs (MkDB (rows db) s) = abs db.
Proof. done. Qed.

Lemma abs_lookup_None db k : abs db !! k = None <-> rows db !! k = None.
Proof. rewrite abs_lookup. by destruct (rows db !! k). Qed.

Lemma name_taken_abs db n :
  name_taken (abs db) n <-> exists k r, rows db !! k = Some r /\ product_name r = n.
Proof.
  unfold name_taken. setoid_rewrite abs_lookup. split.
  - intros (k & it & Hk & <-). destruct (rows db !! k) as [r|] eqn:Hr; simplify_eq/=. eauto.
  - intros (k & r & Hk & <-). exists k, (item_of r). by rewrite Hk.
Qed.

Lemma response_of_row_repr db k r :
  table_wf db -> rows db !! k = Some r -> response_of_row r = repr k (item_of r).
Proof. intros Hwf Hk. unfold response_of_row, repr. by rewrite (wf_lookup_id _ _ _ Hwf Hk). Qed.

#[export] Hint Rewrite abs_lookup abs_rows : inventory_rw.

(** ** Refinement, request by request *)

Lemma create_refines db b pc :
  table_wf db -> validate_create b = inr pc ->
  let '(resp, db') := reply_run JProduct (create_product pc) db in
  astep (PostProducts b) (abs db) resp (abs db').
Proof.
  intros Hwf Hv. unfold reply_run. rewrite create_product_spec.
  destruct (validate_create_name _ _ Hv) as (Hstrip & _ & _ & Hx & Hq & Henc).
  assert (0 <= price_cents (PyFloat (pc_price pc)))%Z by (apply to_cents_nonneg_lemma; lia).
  destruct (select_by_name db _) as [e | [r|]] eqn:Hs.
  - apply select_by_name_inl in Hs as [[-> Hne] | [-> Hnul]]; [contradiction |].
    eapply astep_create_error; [done | |].
    + intros (k & r & Hk & Hn)%name_taken_abs. rewrite <- Hn in Hnul.
      by destruct (wf_lookup_row_ok _ _ _ Hwf Hk) as (_ & _ & _ & []).
    + unfold insert_values, adapt_str. by repeat case_decide.
  - apply select_by_name_Some in Hs as (k & Hk & Hn).
    apply (astep_create_conflict b pc); [done |]. apply name_taken_abs. eauto.
  - apply select_by_name_None in Hs as (_ & _ & Hfresh).
    assert (~ name_taken (abs db) (pc_product_name pc)) as Hnt.
    { intros (k & r & Hk & Hn)%name_taken_abs. by apply (Hfresh k r). }
    rewrite Hstrip, insert_product_fresh by done.
    destruct (insert_values _ _ _) as [e | [[nm c] n]] eqn:Hi; simpl.
    + by eapply astep_create_error.
    + unfold abs; cbn [rows]. rewrite fmap_insert. apply (astep_create b pc); [done.. | |].
      * apply abs_lookup_None. destruct (rows db !! seq_next db) eqn:Hr; [| done].
        pose proof (wf_lookup_lt _ _ _ Hwf Hr). lia.
      * destruct Hwf; lia.
Qed.

Lemma update_refines db i b pu :
  table_wf db -> validate_update b = inr pu ->
  let '(resp, db') := reply_run JProduct (update_product i pu) db in
  astep (PatchProduct i b) (abs db) resp (abs db').
Proof.
  intros Hwf Hv. unfold reply_run. rewrite update_product_spec by done.
  destruct (validate_update_inr _ _ Hv) as [Hp Hq].
  destruct (rows db !! i) as [r|] eqn:Hr.
  2: { eapply astep_update_absent; [done |]. by apply abs_lookup_None. }
  assert (abs db !! i = Some (item_of r)) as Ha by by rewrite abs_lookup, Hr.
  assert (flush_update db i r (pu_price pu) (pu_stock_quantity pu) =
          match update_values (PyFloat <$> pu_price pu) (pu_stock_quantity pu) with
          | inl e => (inl e, db)
          | inr (c, n) => (inr (set_fields r c n),
                           MkDB (<[i := set_fields r c n]> (rows db)) (seq_next db))
          end) as ->.
  { apply flush_update_stored; [done | done | | done].
    intros x Hx. apply to_cents_nonneg_lemma. specialize (Hp x Hx). lia. }
  destruct pu as [p q]; simpl.
  all: destruct (update_values _ _) as [e | [c n]] eqn:Hvals; simpl;
    [by eapply astep_update_error |].
  all: unfold abs; cbn [rows]; rewrite fmap_insert.
  all: replace (response_of_row (set_fields r c n)) with (repr i (apply_update (item_of r) c n))
    by (unfold repr, response_of_row; simpl; by rewrite (wf_lookup_id _ _ _ Hwf Hr)).
  all: replace (item_of (set_fields r c n)) with (apply_update (item_of r) c n) by done.
  all: by eapply astep_update.
Qed.

(** The listing is the abstract table's entries, in [map_to_list]
    order. *)
Lemma select_all_repr db :
  table_wf db ->
  response_of_row <$> select_all db = uncurry repr <$> map_to_list (abs db).
Proof.
  intros Hwf. unfold select_all, abs. rewrite map_to_list_fmap, <- !list_fmap_compose.
  apply list_fmap_ext. intros j [k r] Hj. simpl.
  apply (response_of_row_repr db k r Hwf), elem_of_map_to_list.
  by eapply list_elem_of_lookup_2.
Qed.

Lemma delete_refines db i :
  table_wf db ->
  let '(resp, db') := reply_run JMessage (delete_product i) db in
  astep (DeleteProduct i) (abs db) resp (abs db').
Proof.
  intros Hwf. unfold reply_run. rewrite delete_product_spec by done.
  destruct (rows db !! i) as [r|] eqn:Hr; simpl.
  - unfold abs, delete_product_row; cbn [rows]. rewrite fmap_delete.
    apply (astep_delete _ _ (item_of r)). by rewrite lookup_fmap, Hr.
  - apply astep_delete_absent. by apply abs_lookup_None.
Qed.

Lemma get_refines db i :
  table_wf db ->
  let '(resp, db') := reply_run JProduct (get_product i) db in
  astep (GetProduct i) (abs db) resp (abs db').
Proof.
  intros Hwf. unfold reply_run. rewrite get_product_spec.
  destruct (rows db !! i) as [r|] eqn:Hr; simpl.
  - rewrite (response_of_row_repr db i r Hwf Hr). apply astep_get. by rewrite abs_lookup, Hr.
  - apply astep_get_absent. by apply abs_lookup_None.
Qed.

(** ** The refinement theorems *)

(** C2: every answer [serve] gives on a well-formed table is one the
    spec's table of operations allows: the response and the rows
    afterwards are those of an [astep] from the rows before. *)
Theorem serve_refines req db :
  table_wf db ->
  astep req (abs db) (serve req db).1 (abs (serve req db).2).
Proof.
  intros Hwf. destruct req as [| b | | i | i b | i]; simpl.
  - apply astep_home.
  - destruct (validate_create b) as [es | pc] eqn:Hv; [by apply astep_create_invalid |].
    pose proof (create_refines db b pc Hwf Hv). by destruct (reply_run _ _ _).
  - unfold reply_run. rewrite get_products_spec by done. simpl.
    apply astep_list. by rewrite select_all_repr.
  - pose proof (get_refines db i Hwf). by destruct (reply_run _ _ _).
  - destruct (validate_update b) as [es | pu] eqn:Hv; [by apply astep_update_invalid |].
    pose proof (update_refines db i b pu Hwf Hv). by destruct (reply_run _ _ _).
  - pose proof (delete_refines db i Hwf). by destruct (reply_run _ _ _).
Qed.


(** ** Witnesses *)

Lemma serve_refines_witness :
  table_wf widget_db /\
  astep (PostProducts widget_body) (abs widget_db)
        (serve (PostProducts widget_body) widget_db).1
        (abs (serve (PostProducts widget_body) widget_db).2).
Proof.
  assert (table_wf widget_db) as Hwf by decide_true.
  split; [exact Hwf | exact (serve_refines (PostProducts widget_body) widget_db Hwf)].
Defined.

