(* ===== verification/Concurrency.v ===== *)
(** * Concurrent requests (section 5 of the spec)

    The service serves requests concurrently, each in its own session;
    the database is the only shared state.  A request's handler talks
    to the database only at its statements, so it is modelled here as
    a resumption ([Proc.proc]) that pauses before each database round
    trip of [src/main.py]:

    - [create_product]: the [SELECT] by name; the [INSERT] and the
      [COMMIT] of [db.commit()]; the [SELECT] of [db.refresh];
    - [get_product], [get_products]: the [SELECT];
    - [update_product]: the [SELECT] by id; the [UPDATE] and [COMMIT];
      the [SELECT] of [db.refresh];
    - [delete_product]: the [SELECT] by id; the [DELETE] and [COMMIT].

    The [INSERT] (or [UPDATE], [DELETE]) and its [COMMIT] are one step:
    under PostgreSQL's default isolation, READ COMMITTED, no other
    transaction sees the row before the commit, and a concurrent
    [INSERT] of the same name waits on the unique index until it, so
    the outcomes are those of the two statements taken together.

    A world is the committed table and the requests' threads; a step
    of thread [j] runs its resumption up to the next pause against the
    table as last committed ([begin_stmt]: each statement of a READ
    COMMITTED transaction sees the latest committed data), then makes
    what it committed the shared table ([close] gives the committed
    table and the sequence, which is not transactional).  A schedule
    is any list of thread indices: every interleaving is one.

    The theorems: each resumption runs, without interruption, exactly
    as its handler, so requests scheduled one after the other are
    served as [Api.serve_all] serves them; the table invariant holds
    under every schedule; under any schedule no id is issued twice
    ([Models.db_ext], by the judgement [Proc.ext_op]) and every answer
    has a status of [Api.serve_status].  The races of two requests on
    one product are in [Races].  These theorems use only what the class
    [Paused] states of a handler's resumption; each handler of
    [src/main.py] is shown to be an instance. *)

From stdpp Require Import base gmap list.
From Stdlib Require Import ZArith Lia Morphisms.
From S2P Require Import Prelude PyStr SqlTypes Schemas Models Session Proc Handlers Api.

(** ** The handlers, paused at their database round trips *)

(** [db.refresh(obj); return obj], the last round trip of
    [create_product] and [update_product]. *)
Definition refresh_respond (h : nat) : M (proc ProductResponse) :=
  refresh h ;;
  let* r := respond h in
  mret (Done r).

(** [create_product], one definition per round trip: the existence
    check, the [INSERT] with its [COMMIT], the [refresh]. *)
Definition create_write (product : ProductCreate) : M (proc ProductResponse) :=
  let* new_product := add (new_product (strip (pc_product_name product))
                                       (PyFloat (pc_price product))
                                       (pc_stock_quantity product)) in
  commit ;;
  mret (Pause (refresh_respond new_product)).

Definition create_check (product : ProductCreate) : M (proc ProductResponse) :=
  let* existing := query_first_by_name (pc_product_name product) in
  match existing with
  | Some _ => raise (HTTPException 400 ProductAlreadyExists)
  | None => mret (Pause (create_write product))
  end.

Definition create_product_proc (product : ProductCreate) : proc ProductResponse :=
  Pause (create_check product).

Definition get_products_proc : proc (list ProductResponse) :=
  Pause (
    let* products := query_all in
    let* rs := respond_all products in
    mret (Done rs)).

Definition get_product_proc (product_id : Z) : proc ProductResponse :=
  Pause (
    let* product := query_first_by_id product_id in
    match product with
    | None => raise (HTTPException 404 ProductNotFound)
    | Some h => let* r := respond h in mret (Done r)
    end).

(** [update_product]: the [SELECT] by id; the assignments and the
    [UPDATE] with its [COMMIT]; the [refresh]. *)
Definition update_write (h : nat) (product_data : ProductUpdate) : M (proc ProductResponse) :=
  match pu_price product_data with
  | Some p => set_price h (PyFloat p)
  | None => mret tt
  end ;;
  match pu_stock_quantity product_data with
  | Some n => set_stock_quantity h n
  | None => mret tt
  end ;;
  commit ;;
  mret (Pause (refresh_respond h)).

Definition update_check (product_id : Z) (product_data : ProductUpdate)
    : M (proc ProductResponse) :=
  let* product := query_first_by_id product_id in
  match product with
  | None => raise (HTTPException 404 ProductNotFound)
  | Some h => mret (Pause (update_write h product_data))
  end.

Definition update_product_proc (product_id : Z) (product_data : ProductUpdate)
    : proc ProductResponse :=
  Pause (update_check product_id product_data).

(** [delete_product]: the [SELECT] by id; the [DELETE] with its
    [COMMIT]. *)
Definition delete_write (h : nat) : M (proc message) :=
  delete_obj h ;;
  commit ;;
  mret (Done ProductDeletedSuccessfully).

Definition delete_check (product_id : Z) : M (proc message) :=
  let* product := query_first_by_id product_id in
  match product with
  | None => raise (HTTPException 404 ProductNotFound)
  | Some h => mret (Pause (delete_write h))
  end.

Definition delete_product_proc (product_id : Z) : proc message :=
  Pause (delete_check product_id).

(** What a request becomes once FastAPI has validated it: an answer
    that needs no database ([inl]), or a resumption whose result is the
    JSON body of a 200 ([inr]). *)
Definition request_proc (req : request) : response + proc json :=
  match req with
  | GetRoot => inl (MkResponse 200 (JMessage ApiRunning))
  | PostProducts b =>
      match validate_create b with
      | inl es => inl (MkResponse 422 (JValidationErrors es))
      | inr pc => inr (pmap JProduct (create_product_proc pc))
      end
  | GetProducts => inr (pmap JProducts get_products_proc)
  | GetProduct i => inr (pmap JProduct (get_product_proc i))
  | PatchProduct i b =>
      match validate_update b with
      | inl es => inl (MkResponse 422 (JValidationErrors es))
      | inr pu => inr (pmap JProduct (update_product_proc i pu))
      end
  | DeleteProduct i => inr (pmap JMessage (delete_product_proc i))
  end.

(** ** Threads and schedules *)

Inductive thread :=
| Running (p : proc json) (s : Session)
| Finished (r : response).

Record world := World { w_db : DB; w_threads : list thread }.

(** A statement of a READ COMMITTED transaction sees the table as last
    committed; the session keeps its objects. *)
Definition begin_stmt (db : DB) (s : Session) : Session :=
  MkSession db (rows db) (s_objs s) (s_open s) (s_commits s).

(** One step of a thread against the shared table [db]: the new shared
    table and the thread afterwards. *)
Definition thread_step (db : DB) (t : thread) : DB * thread :=
  match t with
  | Finished r => (db, Finished r)
  | Running (Done j) s => (db, Finished (reply (fun j : json => j) (inr j)))
  | Running (Pause k) s =>
      match k (begin_stmt db s) with
      | (inr p, s') => (s_db (close s'), Running p s')
      | (inl e, s') => (s_db (close s'), Finished (reply (fun j : json => j) (inl e)))
      end
  end.

Definition world_step (j : nat) (w : world) : world :=
  match w_threads w !! j with
  | Some t =>
      let '(db', t') := thread_step (w_db w) t in
      World db' (<[j := t']> (w_threads w))
  | None => w
  end.

Fixpoint run_schedule (js : list nat) (w : world) : world :=
  match js with
  | [] => w
  | j :: js' => run_schedule js' (world_step j w)
  end.

(** The requests [reqs], received together on the table [db]. *)
Definition start (db : DB) (req : request) : thread :=
  match request_proc req with
  | inl r => Finished r
  | inr p => Running p (SessionLocal db)
  end.

Definition spawn (reqs : list request) (db : DB) : world := World db (start db <$> reqs).

(** A world's threads keep the invariant at each of their steps. *)
Definition thread_ok (t : thread) : Prop :=
  match t with Running p _ => proc_ok p | Finished _ => True end.

Definition world_ok (w : world) : Prop := table_wf (w_db w) /\ Forall thread_ok (w_threads w).

(** A thread that raises only the handlers' own exceptions, or has
    answered with one of the statuses of [Api.serve_status]. *)
Definition thread_status (t : thread) : Prop :=
  match t with
  | Running p _ => proc_raises handler_exc p
  | Finished r => status r ∈ [200; 400; 404; 422; 500]%Z
  end.

(** A thread whose remaining steps issue ids only from the sequence. *)
Definition thread_ext (t : thread) : Prop :=
  match t with Running p _ => proc_ext p | Finished _ => True end.

(** The interface between a handler and the concurrent runtime: what
    its resumption [p] promises.  Run without interruption it is the
    handler [h]; each of its steps keeps the invariant, leaves a fresh
    session clean, issues ids only from the sequence and raises only
    the handlers' own [HTTPException]s or internal errors; it ends
    within three pauses.  The theorems of this file are proved from
    these promises, and each handler of [src/main.py] keeps them. *)
Class Paused {A} (h : M A) (p : proc A) : Prop := {
  paused_exec : exec p ≡ h;
  paused_ok : proc_ok p;
  paused_bounded : bounded 3 p;
  paused_fresh : proc_fresh p;
  paused_ext : proc_ext p;
  paused_raises : proc_raises handler_exc p }.

(** ** Each resumption is its handler *)

(** Push [exec] through the binds of a resumption's steps, then match
    them with the handler's binds. *)
Ltac exec_simpl :=
  repeat first
    [ setoid_rewrite exec_pause_bind | setoid_rewrite exec_pause_ret
    | setoid_rewrite exec_pause_raise | setoid_rewrite exec_done ].

Ltac exec_equiv :=
  repeat first
    [ reflexivity
    | apply mbind_mret_r
    | progress exec_simpl
    | apply mbind_ext; [reflexivity | intros ?]
    | match goal with |- context [match ?x with _ => _ end] => destruct x end ].

Lemma create_product_proc_exec pc : exec (create_product_proc pc) ≡ create_product pc.
Proof.
  unfold create_product_proc, create_check, create_write, refresh_respond, create_product.
  exec_equiv.
Qed.

Lemma get_products_proc_exec : exec get_products_proc ≡ get_products.
Proof. unfold get_products_proc, get_products. exec_equiv. Qed.

Lemma get_product_proc_exec i : exec (get_product_proc i) ≡ get_product i.
Proof. unfold get_product_proc, get_product. exec_equiv. Qed.

Lemma update_product_proc_exec i pu : exec (update_product_proc i pu) ≡ update_product i pu.
Proof.
  unfold update_product_proc, update_check, update_write, refresh_respond, update_product.
  exec_equiv.
Qed.

Lemma delete_product_proc_exec i : exec (delete_product_proc i) ≡ delete_product i.
Proof.
  unfold delete_product_proc, delete_check, delete_write, delete_product.
  exec_equiv.
Qed.

(** ** Each handler keeps the promises of [Paused] *)

Lemma keeps_table_respond_all hs : keeps_table (respond_all hs).
Proof.
  induction hs as [| h hs IH]; simpl; [apply keeps_table_ret |].
  apply keeps_table_bind; [apply keeps_table_respond | intros r].
  apply keeps_table_bind; [done | intros rs]. apply keeps_table_ret.
Qed.

#[local] Hint Resolve keeps_table_respond_all raises_respond_all : session_ok.

Ltac paused_solve :=
  match goal with
  | |- proc_fresh _ => simpl; split; session_ok_solve
  | |- proc_raises _ _ =>
      repeat first
        [ apply proc_raises_done
        | apply proc_raises_pause_rets; [raises_solve |]
        | apply rets_bind; intros ?
        | apply rets_ret
        | apply rets_raise
        | match goal with |- context [match ?x with _ => _ end] => destruct x end ]
  | |- _ => session_ok_solve
  end.

Lemma create_product_paused pc : Paused (create_product pc) (create_product_proc pc).
Proof.
  split; [apply create_product_proc_exec | ..];
    unfold create_product_proc, create_check, create_write, refresh_respond; paused_solve.
Qed.

Lemma get_products_paused : Paused get_products get_products_proc.
Proof. split; [apply get_products_proc_exec | ..]; unfold get_products_proc; paused_solve. Qed.

Lemma get_product_paused i : Paused (get_product i) (get_product_proc i).
Proof. split; [apply get_product_proc_exec | ..]; unfold get_product_proc; paused_solve. Qed.

Lemma update_product_paused i pu : Paused (update_product i pu) (update_product_proc i pu).
Proof.
  split; [apply update_product_proc_exec | ..];
    unfold update_product_proc, update_check, update_write, refresh_respond; paused_solve.
Qed.

Lemma delete_product_paused i : Paused (delete_product i) (delete_product_proc i).
Proof.
  split; [apply delete_product_proc_exec | ..];
    unfold delete_product_proc, delete_check, delete_write; paused_solve.
Qed.

#[export] Existing Instances create_product_paused get_products_paused get_product_paused
  update_product_paused delete_product_paused.

(** A request that reaches its handler runs a paused handler, its
    result rendered as [serve] renders it. *)
Lemma request_proc_paused req p :
  request_proc req = inr p ->
  exists A (f : A -> json) (h : M A) (q : proc A),
    p = pmap f q /\ Paused h q /\ forall db, serve req db = reply_run f h db.
Proof.
  unfold request_proc. destruct req as [| b | | i | i b | i];
    [done | destruct (validate_create b) eqn:Hv | | | destruct (validate_update b) eqn:Hv |];
    intros; simplify_eq.
  all: do 4 eexists; split_and!; [reflexivity | apply _ | intros db; simpl; rewrite ?Hv; reflexivity].
Qed.

(** The promises of [Paused], for the resumption of a request. *)
Lemma request_proc_laws req p :
  request_proc req = inr p ->
  proc_ok p /\ bounded 3 p /\ proc_fresh p /\ proc_ext p /\ proc_raises handler_exc p.
Proof.
  intros (A & f & h & q & -> & Hq & _)%request_proc_paused.
  split_and!; [apply proc_ok_pmap, paused_ok | apply bounded_pmap, paused_bounded
              | apply proc_fresh_pmap, paused_fresh | apply proc_ext_pmap, paused_ext
              | apply proc_raises_pmap, paused_raises].
Qed.

(** ** The invariant under every schedule *)

Lemma begin_stmt_ok db s : table_wf db -> session_ok (begin_stmt db s).
Proof. intros Hwf. split; [done |]. unfold close, begin_stmt; simpl. by destruct db. Qed.

Lemma thread_step_ok db t :
  table_wf db -> thread_ok t ->
  table_wf (thread_step db t).1 /\ thread_ok (thread_step db t).2.
Proof.
  intros Hwf Hok. destruct t as [[j | k] s | r]; simpl; [done | | done].
  inversion Hok as [| k' Hk Hr]; subst.
  pose proof (Hk _ (begin_stmt_ok db s Hwf)) as [_ Hcl].
  destruct (k (begin_stmt db s)) as [[e | p] s'] eqn:E; simpl in *; [done |].
  split; [done | by eapply Hr].
Qed.

Lemma world_step_ok j w : world_ok w -> world_ok (world_step j w).
Proof.
  intros [Hwf Hts]. unfold world_step.
  destruct (w_threads w !! j) as [t|] eqn:Ht; [| done].
  pose proof (thread_step_ok (w_db w) t Hwf (Forall_lookup_1 _ _ _ _ Hts Ht)) as [H1 H2].
  destruct (thread_step (w_db w) t) as [db' t']. split; [done |]. by apply Forall_insert.
Qed.

Lemma run_schedule_ok js w : world_ok w -> world_ok (run_schedule js w).
Proof. revert w. induction js; simpl; auto using world_step_ok. Qed.

Lemma spawn_ok reqs db : table_wf db -> world_ok (spawn reqs db).
Proof.
  intros Hwf. split; [done |]. apply Forall_fmap, Forall_forall. intros req _.
  unfold compose, start. destruct (request_proc req) as [r | p] eqn:Hp; [done |].
  by apply (request_proc_laws req p).
Qed.

(** C10: however the steps of concurrent requests interleave, the
    shared table keeps the invariant: the constraints hold, names are
    unique and ids are keys below the sequence. *)
Theorem concurrent_wf reqs db js :
  table_wf db -> table_wf (w_db (run_schedule js (spawn reqs db))).
Proof. intros Hwf. apply run_schedule_ok, spawn_ok, Hwf. Qed.

Lemma run_schedule_app js1 js2 w : run_schedule (js1 ++ js2) w = run_schedule js2 (run_schedule js1 w).
Proof. revert w. induction js1; simpl; auto. Qed.
(** ** Ids are never issued twice *)

Lemma begin_stmt_from db s : session_from db (begin_stmt db s).
Proof. split; [apply db_ext_refl |]. unfold close, begin_stmt; simpl. destruct db. apply db_ext_refl. Qed.

Lemma thread_step_ext db t :
  thread_ext t -> db_ext db (thread_step db t).1 /\ thread_ext (thread_step db t).2.
Proof.
  intros Hok. destruct t as [[j | k] s | r]; simpl; [split; [apply db_ext_refl | done] | |
    split; [apply db_ext_refl | done]].
  inversion Hok as [| k' Hk Hr]; subst.
  pose proof (Hk _ _ (begin_stmt_from db s)) as [_ Hcl].
  destruct (k (begin_stmt db s)) as [[e | p] s'] eqn:E; simpl in *; [done |].
  split; [done | by eapply Hr].
Qed.

Lemma run_schedule_ext js w :
  Forall thread_ext (w_threads w) ->
  db_ext (w_db w) (w_db (run_schedule js w)) /\ Forall thread_ext (w_threads (run_schedule js w)).
Proof.
  revert w. induction js as [| j js IH]; intros w Hts; simpl; [split; [apply db_ext_refl | done] |].
  assert (db_ext (w_db w) (w_db (world_step j w)) /\ Forall thread_ext (w_threads (world_step j w)))
    as [H1 H2].
  { unfold world_step. destruct (w_threads w !! j) as [t|] eqn:Ht; [| split; [apply db_ext_refl | done]].
    pose proof (thread_step_ext (w_db w) t (Forall_lookup_1 _ _ _ _ Hts Ht)) as [Hd Ht'].
    destruct (thread_step (w_db w) t) as [db' t']. split; [done |]. by apply Forall_insert. }
  destruct (IH _ H2) as [H3 H4]. split; [by eapply db_ext_trans | done].
Qed.

Lemma spawn_ext reqs db : Forall thread_ext (w_threads (spawn reqs db)).
Proof.
  apply Forall_fmap, Forall_forall. intros req _.
  unfold compose, start. destruct (request_proc req) as [r | p] eqn:Hp; [done |].
  by apply (request_proc_laws req p).
Qed.

(** C12: ids are never reused, however requests interleave: a row
    that is in the table at the end of a schedule but was not at some
    earlier point has an id at or above the sequence's value then, so
    it is no row that was stored, or deleted, before that point. *)
Theorem concurrent_ids_fresh reqs db js1 js2 k r :
  rows (w_db (run_schedule (js1 ++ js2) (spawn reqs db))) !! k = Some r ->
  rows (w_db (run_schedule js1 (spawn reqs db))) !! k = None ->
  (seq_next (w_db (run_schedule js1 (spawn reqs db))) <= k)%Z.
Proof.
  rewrite run_schedule_app. intros Hk Hn.
  destruct (run_schedule_ext js1 (spawn reqs db) (spawn_ext reqs db)) as [_ Hts].
  destruct (run_schedule_ext js2 _ Hts) as [[_ Hext] _].
  apply Hext; [done | by eexists].
Qed.

(** ** Every answer has a listed status *)

Lemma reply_status (e : exc) :
  handler_exc e -> status (reply (fun j : json => j) (inl e)) ∈ [200; 400; 404; 422; 500]%Z.
Proof. destruct e as [code d | e |]; simpl; [intros [-> | ->] | ..]; set_solver. Qed.

Lemma thread_step_status db t : thread_status t -> thread_status (thread_step db t).2.
Proof.
  intros Ht. destruct t as [[j | k] s | r]; simpl; [set_solver | | done].
  inversion Ht as [| k' Hk Hr]; subst.
  destruct (k (begin_stmt db s)) as [[e | p] s'] eqn:E; simpl.
  - apply reply_status. by eapply Hk.
  - by eapply Hr.
Qed.

Lemma run_schedule_status js w :
  Forall thread_status (w_threads w) -> Forall thread_status (w_threads (run_schedule js w)).
Proof.
  revert w. induction js as [| j js IH]; intros w Hts; simpl; [done |]. apply IH.
  unfold world_step. destruct (w_threads w !! j) as [t|] eqn:Ht; [| done].
  pose proof (thread_step_status (w_db w) t (Forall_lookup_1 _ _ _ _ Hts Ht)) as H.
  destruct (thread_step (w_db w) t) as [db' t']. by apply Forall_insert.
Qed.

Lemma spawn_status reqs db : Forall thread_status (w_threads (spawn reqs db)).
Proof.
  apply Forall_fmap, Forall_forall. intros req _.
  unfold compose, start. destruct (request_proc req) as [r | p] eqn:Hp.
  - destruct req as [| b | | i | i b | i]; simpl in Hp;
      [| destruct (validate_create b) | | | destruct (validate_update b) |]; simplify_eq; set_solver.
  - by apply (request_proc_laws req p).
Qed.

(** C13: whatever the interleaving, every request that has been
    answered has one of the statuses 200, 400, 404, 422 and 500: the
    races only add answers 500, from the database's or the ORM's
    errors, which [src/main.py] does not catch. *)
Theorem concurrent_status reqs db js j r :
  w_threads (run_schedule js (spawn reqs db)) !! j = Some (Finished r) ->
  status r ∈ [200; 400; 404; 422; 500]%Z.
Proof.
  intros Hj. pose proof (run_schedule_status js _ (spawn_status reqs db)) as H.
  exact (Forall_lookup_1 _ _ _ _ H Hj).
Qed.

(** ** A thread run alone is served as [Api.serve] serves it *)

Lemma world_step_at j db ts t :
  ts !! j = Some t ->
  world_step j (World db ts) = let '(db', t') := thread_step db t in World db' (<[j := t']> ts).
Proof. intros Ht. unfold world_step. simpl. rewrite Ht. by destruct (thread_step db t). Qed.

Lemma run_schedule_finished_at js j db ts r :
  ts !! j = Some (Finished r) -> Forall (eq j) js ->
  run_schedule js (World db ts) = World db ts.
Proof.
  intros Ht Hjs. induction Hjs as [| j' js <- _ IH]; [done |].
  cbn [run_schedule]. rewrite (world_step_at j db ts _ Ht). cbn [thread_step].
  by rewrite list_insert_id.
Qed.

Lemma Forall_eq_repeat (j m : nat) : Forall (eq j) (repeat j m).
Proof. induction m; by constructor. Qed.

Lemma run_schedule_finished_insert m j db ts r :
  j < length ts ->
  run_schedule (repeat j m) (World db (<[j := Finished r]> ts)) = World db (<[j := Finished r]> ts).
Proof.
  intros Hj. apply (run_schedule_finished_at _ j _ _ r); [by apply list_lookup_insert_eq |].
  apply Forall_eq_repeat.
Qed.

Lemma begin_stmt_clean s : clean s -> begin_stmt (s_db s) s = s.
Proof. unfold clean, begin_stmt. intros Hs. destruct s; simpl in *. by rewrite Hs. Qed.

(** The thread [j], in a clean session, stepped alone runs its
    resumption to the end as [exec] does, and commits what [exec]
    commits; the other threads are left as they are. *)
Lemma run_alone_stable j n p s ts :
  ts !! j = Some (Running p s) -> bounded n p -> proc_stable p -> clean s ->
  run_schedule (repeat j (S n)) (World (s_db s) ts) =
  World (s_db (close (exec p s).2))
        (<[j := Finished (reply (fun j : json => j) (exec p s).1)]> ts).
Proof.
  intros Ht Hb. revert s ts Ht. induction Hb as [n a | n k Hk IH]; intros s ts Ht Hst Hs.
  - cbn [repeat run_schedule]. rewrite (world_step_at j _ ts _ Ht). cbn [thread_step exec mret fst snd].
    rewrite (clean_close s Hs). apply run_schedule_finished_insert. by eapply lookup_lt_Some.
  - inversion Hst as [| k' Hsk Hr]; subst.
    replace (repeat j (S (S n))) with (j :: repeat j (S n)) by done. cbn [run_schedule exec]. rewrite (world_step_at j _ ts _ Ht). cbn [thread_step].
    rewrite begin_stmt_clean by done.
    destruct (k s) as [[e | p] s'] eqn:E; cbv beta iota.
    + apply run_schedule_finished_insert. by eapply lookup_lt_Some.
    + assert (clean s') as Hs' by (by eapply Hsk).
      rewrite (clean_close s' Hs'), (IH s p s'); [| done | | by eapply Hr | done].
      * by rewrite list_insert_insert_eq.
      * apply list_lookup_insert_eq. by eapply lookup_lt_Some.
Qed.

(** The same for a thread that has not run yet: its session, opened
    on an older table, begins its first statement on the current one. *)
Lemma run_alone_fresh j n p db0 db ts :
  ts !! j = Some (Running p (SessionLocal db0)) -> bounded n p -> proc_fresh p ->
  run_schedule (repeat j (S n)) (World db ts) =
  World (s_db (close (exec p (SessionLocal db)).2))
        (<[j := Finished (reply (fun j : json => j) (exec p (SessionLocal db)).1)]> ts).
Proof.
  intros Ht Hb Hf.
  destruct Hb as [n a | n k Hk].
  - cbn [repeat run_schedule]. rewrite (world_step_at j _ ts _ Ht). cbn [thread_step exec mret fst snd].
    replace (s_db (close (SessionLocal db))) with db by by destruct db.
    apply run_schedule_finished_insert. by eapply lookup_lt_Some.
  - destruct Hf as [Hfs Hr].
    replace (repeat j (S (S n))) with (j :: repeat j (S n)) by done. cbn [run_schedule exec]. rewrite (world_step_at j _ ts _ Ht). cbn [thread_step].
    replace (begin_stmt db (SessionLocal db0)) with (SessionLocal db) by by destruct db.
    destruct (k (SessionLocal db)) as [[e | p] s'] eqn:E; cbv beta iota.
    + apply run_schedule_finished_insert. by eapply lookup_lt_Some.
    + assert (clean s') as Hs' by (eapply Hfs; [| | exact E]; done).
      rewrite (clean_close s' Hs'), (run_alone_stable j n p s').
      all: first [ by rewrite list_insert_insert_eq | by eapply Hk | by eapply Hr | done
                 | apply list_lookup_insert_eq; by eapply lookup_lt_Some ].
Qed.

Lemma run_alone_reply {A} (f : A -> json) (q : proc A) (h : M A) db :
  exec q ≡ h ->
  (reply (fun j : json => j) (exec (pmap f q) (SessionLocal db)).1,
   s_db (close (exec (pmap f q) (SessionLocal db)).2)) = reply_run f h db.
Proof.
  intros Hq. rewrite (exec_pmap f q (SessionLocal db)). unfold mbind. rewrite (Hq (SessionLocal db)).
  unfold reply_run, run, with_session.
  destruct (h (SessionLocal db)) as [[e | a] s]; simpl; [by destruct e | done].
Qed.

(** [serve] is the run of the request's resumption in a fresh session,
    or the answer given before any handler runs. *)
Lemma request_proc_serve req db :
  serve req db =
  match request_proc req with
  | inl r => (r, db)
  | inr p => (reply (fun j : json => j) (exec p (SessionLocal db)).1,
              s_db (close (exec p (SessionLocal db)).2))
  end.
Proof.
  destruct (request_proc req) as [r | p] eqn:Hp.
  - destruct req as [| b | | i | i b | i]; unfold request_proc, serve in *;
      [| destruct (validate_create b) | | | destruct (validate_update b) |]; by simplify_eq.
  - destruct (request_proc_paused req p Hp) as (A & f & h & q & -> & Hq & Hs).
    rewrite Hs. symmetry. apply run_alone_reply, paused_exec.
Qed.

(** The thread of a request, stepped four times alone, answers it as
    [serve] does on the table as it is then, and leaves the table
    [serve] leaves. *)
Lemma run_thread_serves j req db0 db ts :
  ts !! j = Some (start db0 req) ->
  run_schedule (repeat j 4) (World db ts) =
  World (serve req db).2 (<[j := Finished (serve req db).1]> ts).
Proof.
  intros Ht. rewrite request_proc_serve. unfold start in Ht.
  destruct (request_proc req) as [r | p] eqn:Hp; cbn [fst snd].
  - rewrite list_insert_id by done. apply (run_schedule_finished_at _ j _ _ r Ht).
    apply Forall_eq_repeat.
  - destruct (request_proc_laws req p Hp) as (_ & Hb & Hf & _).
    exact (run_alone_fresh j 3 p db0 db ts Ht Hb Hf).
Qed.

(** ** Serial schedules are the sequential service *)

Lemma run_serial_from k done rest db0 db :
  length done = k ->
  run_schedule (flat_map (fun j => repeat j 4) (seq k (length rest)))
    (World db ((Finished <$> done) ++ (start db0 <$> rest))) =
  World (serve_all rest db).2 (Finished <$> (done ++ (serve_all rest db).1)).
Proof.
  revert k done db. induction rest as [| req rest IH]; intros k done db Hk.
  - simpl. by rewrite !app_nil_r.
  - cbn [length seq flat_map]. rewrite run_schedule_app.
    rewrite (run_thread_serves k req db0 db).
    2: { rewrite lookup_app_r; rewrite length_fmap; [| lia]. by rewrite Hk, Nat.sub_diag. }
    cbn [serve_all]. destruct (serve req db) as [resp db1]. cbn [fst snd].
    rewrite insert_app_r_alt by (rewrite length_fmap; lia).
    rewrite length_fmap, Hk, Nat.sub_diag. cbn [fmap list_fmap insert list_insert].
    replace ((Finished <$> done) ++ Finished resp :: (start db0 <$> rest))
      with ((Finished <$> (done ++ [resp])) ++ (start db0 <$> rest))
      by (rewrite fmap_app, <- app_assoc; done).
    rewrite (IH (S k) (done ++ [resp]) db1); [| rewrite length_app; simpl; lia].
    destruct (serve_all rest db1) as [resps db2]. cbn [fst snd]. by rewrite <- app_assoc.
Qed.

(** Requests received together and scheduled one after the other,
    each running to its end before the next begins, are answered and
    leave the table as [Api.serve_all] serves them in order. *)
Theorem serial_is_serve_all reqs db :
  run_schedule (flat_map (fun j => repeat j 4) (seq 0 (length reqs))) (spawn reqs db) =
  World (serve_all reqs db).2 (Finished <$> (serve_all reqs db).1).
Proof. exact (run_serial_from 0 [] reqs db db eq_refl). Qed.

(** ** Witnesses *)

Lemma concurrent_wf_witness :
  table_wf empty_db /\
  table_wf (w_db (run_schedule [0; 1; 0; 1; 0; 1; 0; 1]
                   (spawn [PostProducts widget_body; PostProducts widget_body] empty_db))).
Proof.
  assert (table_wf empty_db) as Hwf by decide_true.
  split; [exact Hwf |].
  exact (concurrent_wf [PostProducts widget_body; PostProducts widget_body] empty_db
           [0; 1; 0; 1; 0; 1; 0; 1] Hwf).
Defined.

Lemma concurrent_ids_fresh_witness :
  rows (w_db (run_schedule ([0; 0; 0; 0; 1; 1; 1; 1] ++ [2; 2; 2; 2])%nat
     (spawn [PostProducts widget_body; DeleteProduct 1; PostProducts widget_body] empty_db))) !! 2%Z
    = Some (MkProduct 2 widget 999 10) /\
  rows (w_db (run_schedule [0; 0; 0; 0; 1; 1; 1; 1]%nat
     (spawn [PostProducts widget_body; DeleteProduct 1; PostProducts widget_body] empty_db))) !! 2%Z
    = None /\
  (seq_next (w_db (run_schedule [0; 0; 0; 0; 1; 1; 1; 1]%nat
     (spawn [PostProducts widget_body; DeleteProduct 1; PostProducts widget_body] empty_db))) <= 2)%Z.
Proof.
  assert (rows (w_db (run_schedule ([0; 0; 0; 0; 1; 1; 1; 1] ++ [2; 2; 2; 2])%nat
     (spawn [PostProducts widget_body; DeleteProduct 1; PostProducts widget_body] empty_db))) !! 2%Z
    = Some (MkProduct 2 widget 999 10)) as H1 by (vm_compute; reflexivity).
  assert (rows (w_db (run_schedule [0; 0; 0; 0; 1; 1; 1; 1]%nat
     (spawn [PostProducts widget_body; DeleteProduct 1; PostProducts widget_body] empty_db))) !! 2%Z
    = None) as H2 by (vm_compute; reflexivity).
  split_and!; [exact H1 | exact H2 |].
  exact (concurrent_ids_fresh _ _ _ _ _ _ H1 H2).
Defined.

Lemma concurrent_status_witness :
  w_threads (run_schedule [0; 1; 0; 1; 0; 1; 0; 1]%nat
               (spawn [PostProducts widget_body; PostProducts widget_body] empty_db)) !! 1%nat
    = Some (Finished (MkResponse 500 JInternalServerError)) /\
  (500 ∈ [200; 400; 404; 422; 500])%Z.
Proof.
  assert (w_threads (run_schedule [0; 1; 0; 1; 0; 1; 0; 1]%nat
            (spawn [PostProducts widget_body; PostProducts widget_body] empty_db)) !! 1%nat
          = Some (Finished (MkResponse 500 JInternalServerError))) as H by (vm_compute; reflexivity).
  split; [exact H |].
  exact (concurrent_status _ _ _ _ _ H).
Defined.
