(* ===== verification/Races.v ===== *)
(** * Races between concurrent requests

    Schedules of two requests on one product, in the model of
    [Concurrency], that interleave their database round trips: both
    requests run their [SELECT] before either commits.

    - two creates of one name ([create_product] twice): 200 and 500,
      one row, and an id lost (section 5 of the spec);
    - a PATCH and a DELETE of one row: the DELETE is answered 200, the
      PATCH 500 ([StaleDataError] or [ObjectDeletedError]), not 404;
    - two DELETEs of one row: both are answered 200;
    - two PATCHes of one row: both are answered 200; the second
      [UPDATE] writes only the columns whose value differs from the
      row it loaded, so a column it sets back to that value keeps the
      first PATCH's value (a lost update), where run one after the
      other the second PATCH's value wins.

    The proofs run the schedule step by step with the lemmas that give
    one step of each resumption of [Concurrency]. *)

From stdpp Require Import base gmap list.
From Stdlib Require Import ZArith Lia.
From S2P Require Import Prelude PyStr SqlTypes Schemas Models Session Proc Handlers Api Concurrency.

(** ** The race of two creates of one name *)

Lemma create_check_fresh pc s :
  s_objs s = [] -> select_by_name (s_db s) (pc_product_name pc) = inr None ->
  create_check pc s = (inr (Pause (create_write pc)), s).
Proof.
  intros Ho Hs. unfold create_check, query_first_by_name, mbind, gets, lift_db.
  rewrite flush_no_objs by done. by rewrite Hs.
Qed.

Lemma create_write_ok pc s r db' :
  s_objs s = [] -> strip (pc_product_name pc) = pc_product_name pc ->
  insert_product (s_db s) (pc_product_name pc) (PyFloat (pc_price pc)) (pc_stock_quantity pc)
    = (inr r, db') ->
  create_write pc s =
  (inr (Pause (refresh_respond 0)),
   MkSession db' (rows db') [MkObj (Some (id r)) (pc_product_name pc) (PyFloat (pc_price pc)) (pc_stock_quantity pc)
          Persistent Unmodified Unmodified true] (s_open s) (S (s_commits s))).
Proof.
  intros Ho Hstrip Hi. unfold create_write, add, commit, flush, mbind, modify.
  rewrite Ho. simpl. unfold flush_save, new_product. simpl. rewrite Hstrip, Hi. done.
Qed.

Lemma create_write_err pc s e db' :
  s_objs s = [] -> strip (pc_product_name pc) = pc_product_name pc ->
  insert_product (s_db s) (pc_product_name pc) (PyFloat (pc_price pc)) (pc_stock_quantity pc)
    = (inl e, db') ->
  (create_write pc s).1 = inl (DBException e) /\
  s_db (close (create_write pc s).2) = MkDB (s_snapshot s) (seq_next db').
Proof.
  intros Ho Hstrip Hi. unfold create_write, add, commit, flush, mbind, modify.
  rewrite Ho. simpl. unfold flush_save, new_product. simpl. rewrite Hstrip, Hi. done.
Qed.

Lemma refresh_respond_ok s i o r :
  s_objs s = [o] -> o_id o = Some i -> rows (s_db s) !! i = Some r ->
  (refresh_respond 0 s).1 = inr (Done (response_of_row r)) /\
  s_db (close (refresh_respond 0 s).2) = s_db (close s).
Proof.
  intros Ho Hi Hr. unfold refresh_respond, refresh, respond, get_attrs, mbind, mret.
  rewrite Ho. simpl. rewrite Hi, Hr. simpl. done.
Qed.

Lemma world_step_0 db t0 t1 :
  world_step 0 (World db [t0; t1]) = let '(db', t') := thread_step db t0 in World db' [t'; t1].
Proof. unfold world_step. simpl. by destruct (thread_step db t0). Qed.

Lemma world_step_1 db t0 t1 :
  world_step 1 (World db [t0; t1]) = let '(db', t') := thread_step db t1 in World db' [t0; t'].
Proof. unfold world_step. simpl. by destruct (thread_step db t1). Qed.

Lemma thread_step_pmap_pause {A} (f : A -> json) db k s :
  thread_step db (Running (pmap f (Pause k)) s) =
  match k (begin_stmt db s) with
  | (inr p, s') => (s_db (close s'), Running (pmap f p) s')
  | (inl e, s') => (s_db (close s'), Finished (reply (fun j : json => j) (inl e)))
  end.
Proof. simpl. by destruct (k (begin_stmt db s)) as [[e | p] s']. Qed.

Section Race.
  Context (db : DB) (pc : ProductCreate).
  Context (Hwf : table_wf db).
  Context (Hstrip : strip (pc_product_name pc) = pc_product_name pc).
  Context (Hs : select_by_name db (pc_product_name pc) = inr None).
  Context (Hx : (0 < fl_mant (pc_price pc))%Z) (Hq0 : (0 <= pc_stock_quantity pc)%Z).
  Context (Hlen : length (pc_product_name pc) <= 100).
  Context (Hc : (Z.abs (to_cents (pc_price pc)) < numeric_limit)%Z).
  Context (Hq : (pc_stock_quantity pc <= int32_max)%Z).

Let p_start := pmap JProduct (create_product_proc pc).
Let row1 := MkProduct (seq_next db) (pc_product_name pc) (to_cents (pc_price pc)) (pc_stock_quantity pc).
Let committed_obj := MkObj (Some (seq_next db)) (pc_product_name pc) (PyFloat (pc_price pc))
    (pc_stock_quantity pc) Persistent Unmodified Unmodified true.
Let table1 := MkDB (<[seq_next db := row1]> (rows db)) (seq_next db + 1).

Lemma race_checks :
    run_schedule [0; 1] (World db [Running p_start (SessionLocal db); Running p_start (SessionLocal db)]) =
    World db [Running (pmap JProduct (Pause (create_write pc))) (SessionLocal db);
              Running (pmap JProduct (Pause (create_write pc))) (SessionLocal db)].
  Proof.
    cbn [run_schedule]. unfold p_start, create_product_proc.
    rewrite world_step_0, thread_step_pmap_pause.
    replace (begin_stmt db (SessionLocal db)) with (SessionLocal db) by by destruct db.
    rewrite create_check_fresh by done. cbv beta iota.
    rewrite world_step_1, thread_step_pmap_pause.
    replace (s_db (close (SessionLocal db))) with db by by destruct db.
    replace (begin_stmt db (SessionLocal db)) with (SessionLocal db) by by destruct db.
    rewrite create_check_fresh by done. cbv beta iota.
    by replace (s_db (close (SessionLocal db))) with db by by destruct db.
  Qed.

Lemma race_writes :
    run_schedule [0; 1] (World db [Running (pmap JProduct (Pause (create_write pc))) (SessionLocal db);
                                   Running (pmap JProduct (Pause (create_write pc))) (SessionLocal db)]) =
    World (MkDB (rows table1) (seq_next db + 2))
          [Running (pmap JProduct (Pause (refresh_respond 0)))
                   (MkSession table1 (rows table1) [committed_obj] true 1);
           Finished (MkResponse 500 JInternalServerError)].
  Proof.
    pose proof Hs as Hs'. apply select_by_name_None in Hs' as (Hnul & Henc & Hfresh).
    assert (0 <= to_cents (pc_price pc))%Z by (apply to_cents_nonneg_lemma; lia).
    assert (insert_product db (pc_product_name pc) (PyFloat (pc_price pc)) (pc_stock_quantity pc)
            = (inr row1, table1)) as Hins by (by rewrite insert_product_ok by (simpl; done || lia)).
    cbn [run_schedule]. rewrite world_step_0, thread_step_pmap_pause.
    replace (begin_stmt db (SessionLocal db)) with (SessionLocal db) by by destruct db.
    rewrite (create_write_ok pc (SessionLocal db) row1 table1) by done. cbv beta iota.
    rewrite world_step_1, thread_step_pmap_pause.
    assert (rows table1 !! seq_next table1 = None) as Hfree.
    { simpl. rewrite lookup_insert_ne by lia.
      destruct (rows db !! (seq_next db + 1)%Z) eqn:E; [| done].
      pose proof (wf_lookup_lt _ _ _ Hwf E). lia. }
    assert (insert_values (pc_product_name pc) (PyFloat (pc_price pc)) (pc_stock_quantity pc)
            = inr (pc_product_name pc, price_cents (PyFloat (pc_price pc)), pc_stock_quantity pc))
      as Hv by (apply insert_values_inr; unfold int32_min in *; split_and!; done || lia).
    destruct (create_write_err pc (begin_stmt (s_db (close (MkSession table1 (rows table1)
                [committed_obj] true 1))) (SessionLocal db))
                (UniqueViolation products_product_name_key) (MkDB (rows table1) (seq_next table1 + 1)))
      as [He Hcl]; [done | done | |].
    { simpl. replace (MkDB (rows table1) (seq_next table1)) with table1 by done.
      apply (insert_product_taken table1 _ _ _ (seq_next db) row1); try done.
      simpl. by rewrite lookup_insert_eq. }
    destruct (create_write pc _) as [o s'] eqn:E. simpl in He. cbn [snd] in Hcl. subst o. cbv beta iota.
    rewrite Hcl. simpl. by replace (seq_next db + 1 + 1)%Z with (seq_next db + 2)%Z by lia.
  Qed.

Lemma race_end :
    run_schedule [0; 1; 0; 1]
      (World (MkDB (rows table1) (seq_next db + 2))
          [Running (pmap JProduct (Pause (refresh_respond 0)))
                   (MkSession table1 (rows table1) [committed_obj] true 1);
           Finished (MkResponse 500 JInternalServerError)]) =
    World (MkDB (rows table1) (seq_next db + 2))
          [Finished (MkResponse 200 (JProduct (response_of_row row1)));
           Finished (MkResponse 500 JInternalServerError)].
  Proof.
    cbn [run_schedule]. rewrite world_step_0, thread_step_pmap_pause.
    destruct (refresh_respond_ok (begin_stmt (MkDB (rows table1) (seq_next db + 2))
                (MkSession table1 (rows table1) [committed_obj] true 1))
                (seq_next db) (committed_obj) row1) as [Hr Hcl]; try done.
    { simpl. by rewrite lookup_insert_eq. }
    destruct (refresh_respond 0 _) as [o s'] eqn:E. cbn [fst] in Hr. cbn [snd] in Hcl. subst o.
    cbv beta iota. rewrite Hcl.
    rewrite world_step_1. cbn [thread_step]. cbv beta iota.
    rewrite world_step_0. cbn [thread_step pmap]. cbv beta iota.
    rewrite world_step_1. cbn [thread_step]. cbv beta iota. done.
  Qed.
End Race.

(** C11: the race of section 5.  Two requests create the same valid
    product, fresh in a well-formed table, and both existence checks
    run before either commits: the first is created under the next id
    and answered 200; the second passes its check, then its [INSERT]
    fails on the unique constraint and it is answered 500, not the
    application's 400; one row has the name, and the sequence has
    moved by two, the id the second [INSERT] took being lost. *)
Theorem concurrent_duplicate_create db b pc :
  table_wf db -> validate_create b = inr pc ->
  select_by_name db (pc_product_name pc) = inr None ->
  (Z.abs (to_cents (pc_price pc)) < numeric_limit)%Z ->
  (pc_stock_quantity pc <= int32_max)%Z ->
  run_schedule [0; 1; 0; 1; 0; 1; 0; 1] (spawn [PostProducts b; PostProducts b] db) =
  World (MkDB (<[seq_next db := MkProduct (seq_next db) (pc_product_name pc)
                                  (to_cents (pc_price pc)) (pc_stock_quantity pc)]> (rows db))
              (seq_next db + 2))
        [Finished (MkResponse 200 (JProduct (MkProductResponse (seq_next db) (pc_product_name pc)
                                              (PyDecimal (to_cents (pc_price pc))) (pc_stock_quantity pc))));
         Finished (MkResponse 500 JInternalServerError)].
Proof.
  intros Hwf Hv Hs Hc Hq.
  destruct (validate_create_name _ _ Hv) as (Hstrip & _ & Hlen & Hx & Hn & _).
  unfold spawn. cbn [fmap list_fmap]. unfold start, request_proc. rewrite Hv.
  change [0; 1; 0; 1; 0; 1; 0; 1] with ([0; 1] ++ [0; 1] ++ [0; 1; 0; 1]).
  rewrite !run_schedule_app, race_checks, race_writes, race_end by done.
  done.
Qed.

(** ** Races of an update or a delete with a delete *)

Lemma thread_step_pmap_done {A} (f : A -> json) db a s :
  thread_step db (Running (pmap f (Done a)) s) = (db, Finished (MkResponse 200 (f a))).
Proof. done. Qed.

Lemma thread_step_pmap_inr {A} (f : A -> json) db k s p s' :
  k (begin_stmt db s) = (inr p, s') ->
  thread_step db (Running (pmap f (Pause k)) s) = (s_db (close s'), Running (pmap f p) s').
Proof. intros Hk. by rewrite thread_step_pmap_pause, Hk. Qed.

Lemma thread_step_pmap_inl {A} (f : A -> json) db k s e s' :
  k (begin_stmt db s) = (inl e, s') ->
  thread_step db (Running (pmap f (Pause k)) s) =
  (s_db (close s'), Finished (reply (fun j : json => j) (inl e))).
Proof. intros Hk. by rewrite thread_step_pmap_pause, Hk. Qed.

(** A first step that loads one object leaves the shared table as it was. *)
Lemma thread_step_loads {A} (f : A -> json) db (c : M (proc A)) k o :
  c (SessionLocal db) = (inr k, set_objs (SessionLocal db) [o]) ->
  thread_step db (Running (pmap f (Pause c)) (SessionLocal db)) =
  (db, Running (pmap f k) (set_objs (SessionLocal db) [o])).
Proof.
  intros Hc. rewrite (thread_step_pmap_inr f db c _ k (set_objs (SessionLocal db) [o])).
  - f_equal. by destruct db.
  - replace (begin_stmt db (SessionLocal db)) with (SessionLocal db) by by destruct db. done.
Qed.

Lemma query_by_id_found s i r :
  s_objs s = [] -> rows (s_db s) !! i = Some r ->
  query_first_by_id i s = (inr (Some 0), set_objs s [obj_of_row r]).
Proof.
  intros Ho Hr. unfold query_first_by_id, mbind, gets.
  rewrite flush_no_objs by done. unfold select_by_id. rewrite Hr.
  unfold load_row, mret. rewrite Ho. done.
Qed.

Lemma update_check_found s i r pu :
  s_objs s = [] -> rows (s_db s) !! i = Some r ->
  update_check i pu s = (inr (Pause (update_write 0 pu)), set_objs s [obj_of_row r]).
Proof. intros Ho Hr. unfold update_check, mbind at 1. by rewrite (query_by_id_found s i r). Qed.

Lemma delete_check_found s i r :
  s_objs s = [] -> rows (s_db s) !! i = Some r ->
  delete_check i s = (inr (Pause (delete_write 0)), set_objs s [obj_of_row r]).
Proof. intros Ho Hr. unfold delete_check, mbind at 1. by rewrite (query_by_id_found s i r). Qed.

(** The [DELETE] of a loaded row commits, whether the row is still
    there or not: the ORM only warns when no row was deleted. *)
Lemma delete_write_ok s r :
  s_objs s = [obj_of_row r] ->
  exists s', delete_write 0 s = (inr (Done ProductDeletedSuccessfully), s') /\
             s_db (close s') = delete_product_row (s_db s) (id r).
Proof.
  intros Ho. unfold delete_write, delete_obj, commit, flush, modify, mbind, mret.
  simpl. rewrite Ho. simpl. by eexists.
Qed.

(** The write step of a PATCH whose object was loaded from row [r]:
    it assigns the payload's fields and commits; the flush issues
    [flush_update] on the table as it is now.  When that fails, the
    transaction rolls back; else the step pauses before its refresh. *)
Lemma update_write_step s r pu :
  s_objs s = [obj_of_row r] -> clean s ->
  match flush_update (s_db s) (id r) r (pu_price pu) (pu_stock_quantity pu) with
  | (inl e, _) =>
      exists s', update_write 0 pu s = (inl (DBException e), s') /\ s_db (close s') = s_db s
  | (inr _, db') =>
      exists o s', update_write 0 pu s = (inr (Pause (refresh_respond 0)), s') /\
                   s_objs s' = [o] /\ o_id o = Some (id r) /\ s_db (close s') = db'
  end.
Proof.
  intros Ho Hs. destruct pu as [[x|] [m|]];
    unfold update_write, set_price, set_stock_quantity, commit, flush, modify, mbind, mret;
    simpl; rewrite Ho; simpl; unfold flush_save, flush_update, price_change, stock_change; simpl;
    [destruct (float_eq_decimal x (price r)), (m =? stock_quantity r)%Z
    | destruct (float_eq_decimal x (price r)) | destruct (m =? stock_quantity r)%Z | ]; simpl;
    try (destruct (update_product_row _ _ _ _) as [[e | r'] d'] eqn:E; simpl;
         [apply update_product_row_inl in E as -> |]);
    first [ do 2 eexists; split_and!; try reflexivity; simpl;
            match goal with |- {| rows := rows ?d; seq_next := seq_next ?d |} = ?d =>
              by destruct d end
          | eexists; split; [reflexivity |]; unfold close, rollback, set_db; simpl;
            unfold clean in Hs; rewrite Hs; by destruct (s_db s) ].
Qed.

(** On a table without row [i], the flush either sends nothing or
    fails, and leaves the table as it is. *)
Lemma flush_update_gone db i r p q :
  rows db !! i = None ->
  flush_update db i r p q = (inr r, db) \/ exists e, flush_update db i r p q = (inl e, db).
Proof.
  intros Hr. unfold flush_update.
  destruct (price_change r p), (stock_change r q); [right.. | by left];
    unfold update_product_row; destruct (update_values _ _) as [e | [c n]]; eauto;
    rewrite Hr; eauto.
Qed.

Lemma refresh_respond_deleted s o i :
  s_objs s = [o] -> o_id o = Some i -> rows (s_db s) !! i = None ->
  refresh_respond 0 s = (inl (DBException ObjectDeletedError), s).
Proof.
  intros Ho Hi Hr. unfold refresh_respond, refresh, mbind. rewrite Ho. simpl. by rewrite Hi, Hr.
Qed.

(** C14: a PATCH of a product racing a DELETE of it.  Both load the
    row; the DELETE commits and is answered 200; the PATCH then writes
    to a row that is gone and is answered 500 (a [StaleDataError] on
    its [UPDATE] when it sets a field, an [ObjectDeletedError] on its
    refresh when it sets none), not the 404 it gets run after the
    DELETE; the row is deleted. *)
Theorem concurrent_update_deleted db i r b pu :
  table_wf db -> rows db !! i = Some r -> validate_update b = inr pu ->
  run_schedule [0; 1; 1; 1; 0; 0; 0] (spawn [PatchProduct i b; DeleteProduct i] db) =
  World (delete_product_row db i)
        [Finished (MkResponse 500 JInternalServerError);
         Finished (MkResponse 200 (JMessage ProductDeletedSuccessfully))].
Proof.
  intros Hwf Hr Hv. pose proof (wf_lookup_id _ _ _ Hwf Hr) as Hid.
  unfold spawn. cbn [fmap list_fmap]. unfold start, request_proc. rewrite Hv.
  unfold update_product_proc, delete_product_proc. cbn [run_schedule].
  rewrite world_step_0, (thread_step_loads _ _ _ _ _ (update_check_found (SessionLocal db) i r pu eq_refl Hr)). cbv beta iota.
  rewrite world_step_1, (thread_step_loads _ _ _ _ _ (delete_check_found (SessionLocal db) i r eq_refl Hr)). cbv beta iota.
  destruct (delete_write_ok (begin_stmt db (set_objs (SessionLocal db) [obj_of_row r])) r)
    as (s' & Hd & Hcl); [done |].
  rewrite world_step_1, (thread_step_pmap_inr _ _ _ _ _ _ Hd), Hcl. cbn [s_db begin_stmt].
  rewrite Hid. cbv beta iota.
  rewrite world_step_1, thread_step_pmap_done. cbv beta iota.
  (* the PATCH writes to a row that is gone *)
  set (db1 := delete_product_row db i).
  set (s1 := begin_stmt db1 (set_objs (SessionLocal db) [obj_of_row r])).
  pose proof (update_write_step s1 r pu eq_refl eq_refl) as Hw.
  assert (rows (s_db s1) !! id r = None) as Hgone by (rewrite Hid; apply lookup_delete_eq).
  destruct (flush_update_gone _ _ r (pu_price pu) (pu_stock_quantity pu) Hgone) as [E | [e E]];
    rewrite E in Hw.
  - destruct Hw as (o & s2 & Hw & Ho & Hi & Hcl2).
    rewrite world_step_0, (thread_step_pmap_inr _ _ _ _ _ _ Hw), Hcl2. cbv beta iota.
    rewrite world_step_0; erewrite thread_step_pmap_inl
      by (apply (refresh_respond_deleted _ o (id r)); done).
    cbv beta iota. rewrite world_step_0. cbn [thread_step]. cbv beta iota.
    unfold db1. by destruct db.
  - destruct Hw as (s2 & Hw & Hcl2).
    rewrite world_step_0, (thread_step_pmap_inl _ _ _ _ _ _ Hw), Hcl2; cbv beta iota.
    rewrite world_step_0; cbn [thread_step]; cbv beta iota.
    rewrite world_step_0; cbn [thread_step]; cbv beta iota.
    done.
Qed.

(** C15: two DELETEs of one product, interleaved so that both load the
    row before either deletes it: both are answered 200 (the second
    [DELETE] removes nothing, which the ORM only warns of), where run
    one after the other the second is answered 404; the row is
    deleted once. *)
Theorem concurrent_double_delete db i r :
  table_wf db -> rows db !! i = Some r ->
  run_schedule [0; 1; 0; 1; 0; 1] (spawn [DeleteProduct i; DeleteProduct i] db) =
  World (delete_product_row db i)
        [Finished (MkResponse 200 (JMessage ProductDeletedSuccessfully));
         Finished (MkResponse 200 (JMessage ProductDeletedSuccessfully))].
Proof.
  intros Hwf Hr. pose proof (wf_lookup_id _ _ _ Hwf Hr) as Hid.
  unfold spawn. cbn [fmap list_fmap]. unfold start, request_proc.
  unfold delete_product_proc. cbn [run_schedule].
  rewrite world_step_0, (thread_step_loads _ _ _ _ _ (delete_check_found (SessionLocal db) i r eq_refl Hr)). cbv beta iota.
  rewrite world_step_1, (thread_step_loads _ _ _ _ _ (delete_check_found (SessionLocal db) i r eq_refl Hr)). cbv beta iota.
  destruct (delete_write_ok (begin_stmt db (set_objs (SessionLocal db) [obj_of_row r])) r)
    as (s' & Hd & Hcl); [done |].
  rewrite world_step_0, (thread_step_pmap_inr _ _ _ _ _ _ Hd), Hcl. cbn [s_db begin_stmt].
  rewrite Hid. cbv beta iota.
  destruct (delete_write_ok (begin_stmt (delete_product_row db i)
              (set_objs (SessionLocal db) [obj_of_row r])) r) as (s'' & Hd' & Hcl'); [done |].
  rewrite world_step_1, (thread_step_pmap_inr _ _ _ _ _ _ Hd'), Hcl'. cbn [s_db begin_stmt].
  rewrite Hid. cbv beta iota.
  rewrite world_step_0, thread_step_pmap_done. cbv beta iota.
  rewrite world_step_1, thread_step_pmap_done. cbv beta iota.
  unfold delete_product_row. cbn [rows seq_next]. by rewrite delete_delete_eq.
Qed.

(** ** Two updates of one row, interleaved *)

Lemma close_begin_stmt db s : s_db (close (begin_stmt db s)) = db.
Proof. by destruct db. Qed.

(** The refresh of an object whose row is stored ends the thread's
    work, reading the row and leaving the shared table as it is. *)
Lemma thread_step_refresh db s o i r :
  s_objs s = [o] -> o_id o = Some i -> rows db !! i = Some r ->
  exists s', thread_step db (Running (pmap JProduct (Pause (refresh_respond 0))) s) =
             (db, Running (pmap JProduct (Done (response_of_row r))) s').
Proof.
  intros Ho Hi Hr. rewrite thread_step_pmap_pause.
  destruct (refresh_respond_ok (begin_stmt db s) i o r Ho Hi Hr) as [H1 H2].
  destruct (refresh_respond 0 (begin_stmt db s)) as [o' s']. cbn [fst snd] in H1, H2. subst o'.
  cbv beta iota. rewrite H2, close_begin_stmt. by eexists.
Qed.

(** A step of a PATCH thread that loaded row [r], on a table whose
    row [i] is now [r0]: its flush writes on [r0] the columns of the
    payload that differ from [r], and it commits and pauses before
    its refresh. *)
Lemma thread_step_update_write db db0 i r r0 b pu c n :
  table_wf db -> id r = i -> rows db !! i = Some r0 -> validate_update b = inr pu ->
  update_values (PyFloat <$> pu_price pu) (pu_stock_quantity pu) = inr (c, n) ->
  let db' := MkDB (<[i := set_fields r0 (price_cents <$> price_change r (pu_price pu))
                                        (stock_change r (pu_stock_quantity pu))]> (rows db))
                  (seq_next db) in
  exists o s',
    thread_step db (Running (pmap JProduct (Pause (update_write 0 pu)))
                      (set_objs (SessionLocal db0) [obj_of_row r])) =
      (db', Running (pmap JProduct (Pause (refresh_respond 0))) s') /\
    s_objs s' = [o] /\ o_id o = Some i /\ table_wf db'.
Proof.
  intros Hwf Hid Hr Hv Hu db'. destruct (validate_update_inr _ _ Hv) as [Hp Hq].
  assert (forall x, pu_price pu = Some x -> 0 <= to_cents x)%Z as Hp'
    by (intros x Hx; apply to_cents_nonneg_lemma; specialize (Hp x Hx); lia).
  destruct (flush_update_current db i r r0 _ _ c n Hwf Hr Hp' Hq Hu) as (r' & Hf & Hwf').
  pose proof (update_write_step (begin_stmt db (set_objs (SessionLocal db0) [obj_of_row r])) r pu
                eq_refl eq_refl) as Hw.
  cbn [s_db begin_stmt] in Hw. rewrite Hid, Hf in Hw.
  destruct Hw as (o & s' & Hs & Ho & Hi & Hc).
  exists o, s'. rewrite (thread_step_pmap_inr _ _ _ _ _ _ Hs), Hc. by unfold db' in *.
Qed.

(** C16: two PATCHes of one row that both load it before either
    commits are both answered 200, but the second may lose the
    first's update.  The ORM sends only the columns whose new value
    differs ([==]) from the value it loaded.  So the second PATCH
    writes, on the row the first left, only the columns it sets to a
    value other than the row both loaded; a column it sets back to
    that value keeps the first PATCH's value.  Both responses show
    that row.  Run one after the other, the same two requests leave
    the row with every field of the second payload. *)
Theorem concurrent_updates_merge db i r b1 b2 pu1 pu2 c1 n1 c2 n2 :
  table_wf db -> rows db !! i = Some r ->
  validate_update b1 = inr pu1 -> validate_update b2 = inr pu2 ->
  update_values (PyFloat <$> pu_price pu1) (pu_stock_quantity pu1) = inr (c1, n1) ->
  update_values (PyFloat <$> pu_price pu2) (pu_stock_quantity pu2) = inr (c2, n2) ->
  let r2 := set_fields (set_fields r c1 n1) (price_cents <$> price_change r (pu_price pu2))
                       (stock_change r (pu_stock_quantity pu2)) in
  run_schedule [0; 1; 0; 1; 0; 1; 0; 1] (spawn [PatchProduct i b1; PatchProduct i b2] db) =
  World (MkDB (<[i := r2]> (rows db)) (seq_next db))
        [Finished (MkResponse 200 (JProduct (response_of_row r2)));
         Finished (MkResponse 200 (JProduct (response_of_row r2)))] /\
  (serve_all [PatchProduct i b1; PatchProduct i b2] db).2 =
  MkDB (<[i := set_fields (set_fields r c1 n1) c2 n2]> (rows db)) (seq_next db).
Proof.
  intros Hwf Hr Hv1 Hv2 Hu1 Hu2 r2. pose proof (wf_lookup_id _ _ _ Hwf Hr) as Hid.
  set (db1 := MkDB (<[i := set_fields r c1 n1]> (rows db)) (seq_next db)).
  assert (rows db1 !! i = Some (set_fields r c1 n1)) as Hr1 by apply lookup_insert_eq.
  split.
  - unfold spawn. cbn [fmap list_fmap]. unfold start, request_proc. rewrite Hv1, Hv2.
    unfold update_product_proc. cbn [run_schedule].
    rewrite world_step_0, (thread_step_loads _ _ _ _ _ (update_check_found (SessionLocal db) i r pu1 eq_refl Hr)).
    cbv beta iota.
    rewrite world_step_1, (thread_step_loads _ _ _ _ _ (update_check_found (SessionLocal db) i r pu2 eq_refl Hr)).
    cbv beta iota.
    (* the first UPDATE and its COMMIT, then the second on the row as the first left it *)
    destruct (thread_step_update_write db db i r r b1 pu1 c1 n1 Hwf Hid Hr Hv1 Hu1)
      as (o1 & s1 & Hs1 & Ho1 & Hi1 & Hwf1).
    rewrite (set_fields_change r _ _ c1 n1 Hu1) in Hs1, Hwf1. fold db1 in Hs1, Hwf1.
    rewrite world_step_0, Hs1. cbv beta iota.
    destruct (thread_step_update_write db1 db i r _ b2 pu2 c2 n2 Hwf1 Hid Hr1 Hv2 Hu2)
      as (o2 & s2 & Hs2 & Ho2 & Hi2 & _).
    rewrite world_step_1, Hs2. cbv beta iota. fold r2.
    (* both refresh and answer *)
    set (db2 := MkDB (<[i := r2]> (rows db1)) (seq_next db1)).
    assert (rows db2 !! i = Some r2) as Hr2 by apply lookup_insert_eq.
    destruct (thread_step_refresh db2 s1 o1 i r2 Ho1 Hi1 Hr2) as [s1' Ht1].
    rewrite world_step_0, Ht1. cbv beta iota.
    destruct (thread_step_refresh db2 s2 o2 i r2 Ho2 Hi2 Hr2) as [s2' Ht2].
    rewrite world_step_1, Ht2. cbv beta iota.
    rewrite world_step_0, thread_step_pmap_done. cbv beta iota.
    rewrite world_step_1, thread_step_pmap_done. cbv beta iota.
    unfold db2, db1. cbn [rows seq_next]. by rewrite insert_insert_eq.
  - pose proof (update_product_wf db i pu1 Hwf) as Hwf1.
    cbn [serve_all serve]. rewrite Hv1. unfold reply_run.
    rewrite (update_product_stored db i r b1 pu1 c1 n1 Hwf Hr Hv1 Hu1) in Hwf1 |- *.
    rewrite Hv2. fold db1.
    rewrite (update_product_stored db1 i _ b2 pu2 c2 n2 Hwf1 Hr1 Hv2 Hu2).
    unfold db1. cbn [rows seq_next]. by rewrite insert_insert_eq.
Qed.

(** ** Witnesses *)

Lemma concurrent_duplicate_create_witness :
  table_wf empty_db /\ validate_create widget_body = inr widget_pc /\
  select_by_name empty_db (pc_product_name widget_pc) = inr None /\
  (Z.abs (to_cents (pc_price widget_pc)) < numeric_limit)%Z /\
  (pc_stock_quantity widget_pc <= int32_max)%Z /\
  run_schedule [0; 1; 0; 1; 0; 1; 0; 1]
    (spawn [PostProducts widget_body; PostProducts widget_body] empty_db) =
  World (MkDB (<[1%Z := MkProduct 1 widget 999 10]> ∅) 3)
        [Finished (MkResponse 200 (JProduct (MkProductResponse 1 widget (PyDecimal 999) 10)));
         Finished (MkResponse 500 JInternalServerError)].
Proof.
  assert (table_wf empty_db) as Hwf by decide_true.
  assert (validate_create widget_body = inr widget_pc) as Hv by reflexivity.
  assert (select_by_name empty_db (pc_product_name widget_pc) = inr None) as Hs by reflexivity.
  assert (Z.abs (to_cents (pc_price widget_pc)) < numeric_limit)%Z as Hc by (vm_compute; reflexivity).
  assert (pc_stock_quantity widget_pc <= int32_max)%Z as Hq by (vm_compute; discriminate).
  split_and!; try assumption.
  exact (concurrent_duplicate_create empty_db widget_body widget_pc Hwf Hv Hs Hc Hq).
Defined.

Lemma concurrent_update_deleted_witness :
  table_wf widget_db /\ rows widget_db !! 1%Z = Some (MkProduct 1 widget 999 10) /\
  validate_update (UpdateBody Omitted Omitted (Given 5%Z)) = inr (MkProductUpdate None (Some 5%Z)) /\
  run_schedule [0; 1; 1; 1; 0; 0; 0]
    (spawn [PatchProduct 1 (UpdateBody Omitted Omitted (Given 5%Z)); DeleteProduct 1] widget_db) =
  World (delete_product_row widget_db 1)
        [Finished (MkResponse 500 JInternalServerError);
         Finished (MkResponse 200 (JMessage ProductDeletedSuccessfully))].
Proof.
  assert (table_wf widget_db) as Hwf by decide_true.
  assert (rows widget_db !! 1%Z = Some (MkProduct 1 widget 999 10)) as Hr by (vm_compute; reflexivity).
  split_and!; [exact Hwf | exact Hr | reflexivity |].
  exact (concurrent_update_deleted widget_db 1 _ (UpdateBody Omitted Omitted (Given 5%Z)) (MkProductUpdate None (Some 5%Z)) Hwf Hr eq_refl).
Defined.

Lemma concurrent_double_delete_witness :
  table_wf widget_db /\ rows widget_db !! 1%Z = Some (MkProduct 1 widget 999 10) /\
  run_schedule [0; 1; 0; 1; 0; 1] (spawn [DeleteProduct 1; DeleteProduct 1] widget_db) =
  World (delete_product_row widget_db 1)
        [Finished (MkResponse 200 (JMessage ProductDeletedSuccessfully));
         Finished (MkResponse 200 (JMessage ProductDeletedSuccessfully))].
Proof.
  assert (table_wf widget_db) as Hwf by decide_true.
  assert (rows widget_db !! 1%Z = Some (MkProduct 1 widget 999 10)) as Hr by (vm_compute; reflexivity).
  split_and!; [exact Hwf | exact Hr |].
  exact (concurrent_double_delete widget_db 1 _ Hwf Hr).
Defined.

Lemma concurrent_updates_merge_witness :
  table_wf widget_db /\ rows widget_db !! 1%Z = Some (MkProduct 1 widget 999 10) /\
  validate_update (UpdateBody Omitted Omitted (Given 5%Z)) = inr (MkProductUpdate None (Some 5%Z)) /\
  validate_update (UpdateBody Omitted Omitted (Given 10%Z)) = inr (MkProductUpdate None (Some 10%Z)) /\
  update_values None (Some 5%Z) = inr (None, Some 5%Z) /\
  update_values None (Some 10%Z) = inr (None, Some 10%Z) /\
  run_schedule [0; 1; 0; 1; 0; 1; 0; 1]
    (spawn [PatchProduct 1 (UpdateBody Omitted Omitted (Given 5%Z));
            PatchProduct 1 (UpdateBody Omitted Omitted (Given 10%Z))] widget_db) =
  World (MkDB (<[1%Z := MkProduct 1 widget 999 5]> (rows widget_db)) (seq_next widget_db))
        [Finished (MkResponse 200 (JProduct (MkProductResponse 1 widget (PyDecimal 999) 5)));
         Finished (MkResponse 200 (JProduct (MkProductResponse 1 widget (PyDecimal 999) 5)))] /\
  (serve_all [PatchProduct 1 (UpdateBody Omitted Omitted (Given 5%Z));
              PatchProduct 1 (UpdateBody Omitted Omitted (Given 10%Z))] widget_db).2 =
  MkDB (<[1%Z := MkProduct 1 widget 999 10]> (rows widget_db)) (seq_next widget_db).
Proof.
  assert (table_wf widget_db) as Hwf by decide_true.
  assert (rows widget_db !! 1%Z = Some (MkProduct 1 widget 999 10)) as Hr by (vm_compute; reflexivity).
  split_and!; [exact Hwf | exact Hr | reflexivity | reflexivity
              | vm_compute; reflexivity | vm_compute; reflexivity | |].
  all: destruct (concurrent_updates_merge widget_db 1 _
                   (UpdateBody Omitted Omitted (Given 5%Z)) (UpdateBody Omitted Omitted (Given 10%Z))
                   (MkProductUpdate None (Some 5%Z)) (MkProductUpdate None (Some 10%Z))
                   None (Some 5%Z) None (Some 10%Z) Hwf Hr eq_refl eq_refl
                   ltac:(vm_compute; reflexivity) ltac:(vm_compute; reflexivity)) as [H1 H2].
  - exact H1.
  - exact H2.
Defined.
